(** * Rep counting and joint event handlers of the personal-trainer tracker

    A shallow embedding of
      - [api/exercises/utils.py]          ([all_joints_detected], the arithmetic
                                           helpers, [MovingAverage], the tests
                                           on points),
      - [api/exercises/base_exercise.py]  ([BaseExerciseDetector]),
      - [api/exercises/squat.py]          ([SquatDetector]),
      - [api/core/event_handlers.py]      (crossing, proximity and angle handlers),
      - [web_server.py]                   (the status line of [get_stats]),
      - the other detectors of [api/exercises/] (their two predicates; grading
                                           and merge of the dumbbell fly),
      - [api/exercises/__init__.py]       (the exercise registry),
    followed by the properties of the rep counting state machine and of the
    debounced edge detectors, and by further properties of the helpers, the
    detectors and the registry.

    Conventions.  Python integers are [Z].  Floating point readings (angles,
    distances, coordinates) are rationals [Q] where the code only compares
    them, takes one difference or a sign: in the state machine, the
    detectors, the handlers, [clamp] and the tests on points.  The helpers
    that add, multiply and divide ([calculate_bilateral_average],
    [map_value], [MovingAverage]) are on binary64 floats, the kernel's
    primitive floats, with their rounding, infinities and [nan].  Python
    dictionaries with string keys are [gmap string _], or the list of their
    items where the order of insertion is read.  Methods that mutate [self] are
    computations in a state-and-exception monad over the object's attributes;
    an exception leaves the attributes as they were when it was raised. *)

From Stdlib Require Import ZArith QArith Qabs Bool List Lia Lqa Sorted.
From Stdlib Require Floats.
From stdpp Require Import base option list strings gmap.
Import ListNotations.

Local Open Scope Z_scope.

(** ** Python effects: mutable attributes and exceptions *)

Module Py.

Inductive Exn : Set := TypeError | KeyError | ValueError | OSError.

Inductive result (A : Type) : Type :=
| Ok (a : A)
| Raise (e : Exn).

Arguments Ok {A} a.
Arguments Raise {A} e.

(** A method body: reads and writes the attributes [S], then returns or raises. *)
Definition Eff (S A : Type) : Type := S -> S * result A.

Definition ret {S A} (a : A) : Eff S A := fun s => (s, Ok a).

Definition bind {S A B} (c : Eff S A) (k : A -> Eff S B) : Eff S B :=
  fun s =>
    match c s with
    | (s', Ok a) => k a s'
    | (s', Raise e) => (s', Raise e)
    end.

Definition get {S} : Eff S S := fun s => (s, Ok s).

Definition modify {S} (f : S -> S) : Eff S unit := fun s => (f s, Ok tt).

Definition raise {S A} (e : Exn) : Eff S A := fun s => (s, Raise e).

(** A call whose only effect is its result (or its exception). *)
Definition lift {S A} (r : result A) : Eff S A := fun s => (s, r).

(** Run a computation on one attribute of the object. *)
Definition zoom {S T A} (proj : S -> T) (upd : T -> S -> S) (c : Eff T A) : Eff S A :=
  fun s => let (t', r) := c (proj s) in (upd t' s, r).

(** Sequencing of two calls that have no effect but their result. *)
Definition and_then {A B} (r : result A) (k : A -> result B) : result B :=
  match r with
  | Ok a => k a
  | Raise e => Raise e
  end.

(** [for x in xs: body(x)] *)
Fixpoint for_each {S X} (body : X -> Eff S unit) (xs : list X) : Eff S unit :=
  match xs with
  | [] => ret tt
  | x :: xs' => bind (body x) (fun _ => for_each body xs')
  end.

End Py.

Import Py.

Declare Scope py_scope.
Delimit Scope py_scope with py.
Notation "x <- c ;; k" := (bind c (fun x => k))
  (at level 100, c at next level, k at level 200, right associativity) : py_scope.
Notation "c ;; k" := (bind c (fun _ => k))
  (at level 100, k at level 200, right associativity) : py_scope.

(** Comparison of two float readings, [a < b] and [a > b]. *)
Definition Qltb (a b : Q) : bool := (Qnum a * QDen b <? Qnum b * QDen a)%Z.
Definition Qgtb (a b : Q) : bool := Qltb b a.

(** ** api/exercises/utils.py *)

Module utils.

(** [all(joint is not None for joint in joints)] *)
Definition all_joints_detected {Position : Type} (joints : list (option Position)) : bool :=
  forallb (fun joint => match joint with Some _ => true | None => false end) joints.

(** What the arithmetic helpers below can raise. *)
Inductive Fault : Set := ZeroDivisionError | IndexError.

Inductive outcome (A : Type) : Type :=
| Returns (a : A)
| Fails (e : Fault).

Arguments Returns {A} a.
Arguments Fails {A} e.

(** A Python float is an IEEE-754 binary64 number, the kernel's [float]: the
    arithmetic of [calculate_bilateral_average], [map_value] and
    [MovingAverage] rounds, overflows to an infinity and makes [nan] as
    Python's does.  All [nan]s are one value. *)
Abbreviation float := PrimFloat.float.

(** [float(n)] for an integer [n], rounded to the nearest float: the
    conversion Python applies to the integer operand of a mixed operation. *)
Definition float_of_int (n : Z) : float :=
  FloatOps.SF2Prim (SpecFloat.binary_normalize FloatOps.prec FloatOps.emax n 0 false).

(** [a / b] on floats: a zero divisor, of either sign, raises. *)
Definition truediv (a b : float) : outcome float :=
  if PrimFloat.eqb b PrimFloat.zero then Fails ZeroDivisionError
  else Returns (PrimFloat.div a b).

(** [calculate_bilateral_average]: the side that is present when the other
    is [None], otherwise [(left_value + right_value) / 2]. *)
Definition calculate_bilateral_average (left_value right_value : option float)
    : option float :=
  match left_value, right_value with
  | None, None => None
  | None, Some r => Some r
  | Some l, None => Some l
  | Some l, Some r => Some (PrimFloat.div (PrimFloat.add l r) (float_of_int 2))
  end.

(** [map_value]:
    [to_min + (value - from_min) * (to_max - to_min) / (from_max - from_min)]. *)
Definition map_value (value from_min from_max to_min to_max : float) : outcome float :=
  match truediv (PrimFloat.mul (PrimFloat.sub value from_min) (PrimFloat.sub to_max to_min))
                (PrimFloat.sub from_max from_min) with
  | Returns quotient => Returns (PrimFloat.add to_min quotient)
  | Fails e => Fails e
  end.

(** The builtins [min(a, b)] and [max(a, b)]: the first argument is kept
    unless the second is strictly smaller, respectively larger. *)
Definition builtin_min (a b : Q) : Q := if Qltb b a then b else a.
Definition builtin_max (a b : Q) : Q := if Qgtb b a then b else a.

(** [clamp]: [max(min_val, min(max_val, value))] *)
Definition clamp (value min_val max_val : Q) : Q :=
  builtin_max min_val (builtin_min max_val value).

(** [class MovingAverage] *)
Module MovingAverage.

Record t : Type := {
  window_size : Z;
  values : list float
}.

(** [__init__] *)
Definition init (window_size : Z) : t :=
  {| window_size := window_size; values := [] |}.

(** [self.values.pop(0)] *)
Definition pop0 (self : t) : t * outcome unit :=
  match values self with
  | [] => (self, Fails IndexError)
  | _ :: rest => ({| window_size := window_size self; values := rest |}, Returns tt)
  end.

(** [reset] *)
Definition reset (self : t) : t :=
  {| window_size := window_size self; values := [] |}.

Section Sum.

(** The builtin [sum] on a list of floats that is not empty: a left fold of
    [+] up to Python 3.11, a compensated sum from 3.12 on.  It is a
    parameter. *)
Variable builtin_sum : list float -> float.

(** [sum(self.values) / len(self.values)]: on the empty list the integers
    0 and 0 are divided. *)
Definition mean (values : list float) : outcome float :=
  match values with
  | [] => Fails ZeroDivisionError
  | _ => Returns (PrimFloat.div (builtin_sum values)
                    (float_of_int (Z.of_nat (length values))))
  end.

(** [add]: append, drop the oldest value beyond the window, return the mean. *)
Definition add (value : float) (self : t) : t * outcome float :=
  let self := {| window_size := window_size self; values := values self ++ [value] |} in
  if window_size self <? Z.of_nat (length (values self))
  then match pop0 self with
       | (self, Returns _) => (self, mean (values self))
       | (self, Fails e) => (self, Fails e)
       end
  else (self, mean (values self)).

(** [get_average]: [None] while no value is held. *)
Definition get_average (self : t) : option (outcome float) :=
  match values self with
  | [] => None
  | _ => Some (mean (values self))
  end.

(** A caller smoothing a stream: [for v in stream: ma.add(v)]. *)
Definition feed (stream : list float) (self : t) : t :=
  fold_left (fun ma v => fst (add v ma)) stream self.

End Sum.

(** [sum] as a left fold of [+] from the integer 0. *)
Definition fold_sum (values : list float) : float :=
  fold_left PrimFloat.add values (float_of_int 0).

End MovingAverage.

End utils.

(** ** api/exercises/base_exercise.py *)

Module BaseExerciseDetector.

Section Machine.

Context {Position Metrics : Type}.

(** The dictionary returned by [get_required_joints]: joint name to position,
    [None] for a joint the tracker did not find.  Only its values are read,
    in insertion order, so it is kept as the list of its items. *)
Definition Joints : Type := list (string * option Position).

(** What a subclass supplies: the constructor arguments it passes to
    [super().__init__] and its overrides of the abstract methods.
    [update_best_metrics current] mutates the dictionary [best] in place. *)
Record Profile : Type := {
  exercise_name : string;
  cooldown_frames : Z;
  calculate_metrics : Joints -> result Metrics;
  is_in_rep_position : Metrics -> result bool;
  is_at_starting_position : Metrics -> result bool;
  assess_rep_quality : Metrics -> result string;
  update_best_metrics : Metrics -> Eff Metrics unit;
  get_in_position_instruction : string;
  get_return_instruction : string;
  get_ready_instruction : string;
  empty_metrics : Metrics
}.

(** One line of the activity log, the fields of [_format_log_entry]. *)
Record LogEntry : Type := {
  entry_timestamp : Z;
  entry_rep_num : Z;
  entry_duration : Z;
  entry_quality : string
}.

(** The two callbacks a subclass may override. *)
Inductive Notification : Type :=
| rep_started (metrics : Metrics)
| rep_completed (rep_num : Z) (metrics : Metrics) (duration : Z) (quality : string).

(** The attributes of a detector, with the lines it has appended to
    [log_file] and the callbacks it has made (oldest first). *)
Record Detector : Type := {
  rep_count : Z;
  in_rep_position : bool;
  returned_to_start : bool;
  rep_start_time : option Z;
  frames_since_last_rep : Z;
  current_metrics : Metrics;
  best_metrics : Metrics;
  log_file : list LogEntry;
  notified : list Notification
}.

Definition set_rep_count (v : Z) (s : Detector) : Detector :=
  {| rep_count := v; in_rep_position := in_rep_position s;
     returned_to_start := returned_to_start s; rep_start_time := rep_start_time s;
     frames_since_last_rep := frames_since_last_rep s;
     current_metrics := current_metrics s; best_metrics := best_metrics s;
     log_file := log_file s; notified := notified s |}.

Definition set_in_rep_position (v : bool) (s : Detector) : Detector :=
  {| rep_count := rep_count s; in_rep_position := v;
     returned_to_start := returned_to_start s; rep_start_time := rep_start_time s;
     frames_since_last_rep := frames_since_last_rep s;
     current_metrics := current_metrics s; best_metrics := best_metrics s;
     log_file := log_file s; notified := notified s |}.

Definition set_returned_to_start (v : bool) (s : Detector) : Detector :=
  {| rep_count := rep_count s; in_rep_position := in_rep_position s;
     returned_to_start := v; rep_start_time := rep_start_time s;
     frames_since_last_rep := frames_since_last_rep s;
     current_metrics := current_metrics s; best_metrics := best_metrics s;
     log_file := log_file s; notified := notified s |}.

Definition set_rep_start_time (v : option Z) (s : Detector) : Detector :=
  {| rep_count := rep_count s; in_rep_position := in_rep_position s;
     returned_to_start := returned_to_start s; rep_start_time := v;
     frames_since_last_rep := frames_since_last_rep s;
     current_metrics := current_metrics s; best_metrics := best_metrics s;
     log_file := log_file s; notified := notified s |}.

Definition set_frames_since_last_rep (v : Z) (s : Detector) : Detector :=
  {| rep_count := rep_count s; in_rep_position := in_rep_position s;
     returned_to_start := returned_to_start s; rep_start_time := rep_start_time s;
     frames_since_last_rep := v;
     current_metrics := current_metrics s; best_metrics := best_metrics s;
     log_file := log_file s; notified := notified s |}.

Definition set_current_metrics (v : Metrics) (s : Detector) : Detector :=
  {| rep_count := rep_count s; in_rep_position := in_rep_position s;
     returned_to_start := returned_to_start s; rep_start_time := rep_start_time s;
     frames_since_last_rep := frames_since_last_rep s;
     current_metrics := v; best_metrics := best_metrics s;
     log_file := log_file s; notified := notified s |}.

Definition set_best_metrics (v : Metrics) (s : Detector) : Detector :=
  {| rep_count := rep_count s; in_rep_position := in_rep_position s;
     returned_to_start := returned_to_start s; rep_start_time := rep_start_time s;
     frames_since_last_rep := frames_since_last_rep s;
     current_metrics := current_metrics s; best_metrics := v;
     log_file := log_file s; notified := notified s |}.

Definition set_log_file (v : list LogEntry) (s : Detector) : Detector :=
  {| rep_count := rep_count s; in_rep_position := in_rep_position s;
     returned_to_start := returned_to_start s; rep_start_time := rep_start_time s;
     frames_since_last_rep := frames_since_last_rep s;
     current_metrics := current_metrics s; best_metrics := best_metrics s;
     log_file := v; notified := notified s |}.

Definition set_notified (v : list Notification) (s : Detector) : Detector :=
  {| rep_count := rep_count s; in_rep_position := in_rep_position s;
     returned_to_start := returned_to_start s; rep_start_time := rep_start_time s;
     frames_since_last_rep := frames_since_last_rep s;
     current_metrics := current_metrics s; best_metrics := best_metrics s;
     log_file := log_file s; notified := v |}.

(** What one call of [on_joints_detected] receives from outside: the joints
    [get_required_joints] reads off the landmarks, the reading of
    [datetime.datetime.now()] during the call, and whether [open(log_file, 'a')]
    and the write succeed. *)
Record Frame : Type := {
  required_joints : Joints;
  now : Z;
  sink_ok : bool
}.

Variable P : Profile.

(** [__init__]: the attributes after construction. *)
Definition init : Detector :=
  {| rep_count := 0;
     in_rep_position := false;
     returned_to_start := true;
     rep_start_time := None;
     frames_since_last_rep := cooldown_frames P;
     current_metrics := empty_metrics P;
     best_metrics := empty_metrics P;
     log_file := [];
     notified := [] |}.

Definition _format_log_entry (timestamp rep_num : Z) (metrics : Metrics)
    (duration : Z) (quality : string) : LogEntry :=
  {| entry_timestamp := timestamp; entry_rep_num := rep_num;
     entry_duration := duration; entry_quality := quality |}.

(** [_log_rep]: format the line, then [with open(self.log_file, 'a')]. *)
Definition _log_rep (f : Frame) (metrics : Metrics) (duration : Z) (quality : string)
    : Eff Detector unit :=
  (let timestamp := now f in
   self <- get ;;
   let log_entry := _format_log_entry timestamp (rep_count self) metrics duration quality in
   if sink_ok f
   then modify (fun s => set_log_file (log_file s ++ [log_entry]) s)
   else raise OSError)%py.

Definition on_rep_started (metrics : Metrics) : Eff Detector unit :=
  modify (fun s => set_notified (notified s ++ [rep_started metrics]) s).

Definition on_rep_completed (rep_num : Z) (metrics : Metrics) (duration : Z)
    (quality : string) : Eff Detector unit :=
  modify (fun s => set_notified (notified s ++ [rep_completed rep_num metrics duration quality]) s).

(** [_complete_rep]: count, log, and notify. *)
Definition _complete_rep (f : Frame) : Eff Detector unit :=
  (modify (fun s => set_rep_count (rep_count s + 1) s) ;;
   modify (set_frames_since_last_rep 0) ;;
   self <- get ;;
   duration <- match rep_start_time self with
               | Some t0 => ret (now f - t0)
               | None => raise TypeError
               end ;;
   quality <- lift (assess_rep_quality P (best_metrics self)) ;;
   _log_rep f (best_metrics self) duration quality ;;
   self <- get ;;
   on_rep_completed (rep_count self) (best_metrics self) duration quality)%py.

(** [on_joints_detected]: the rep counting state machine, one frame. *)
Definition on_joints_detected (f : Frame) : Eff Detector unit :=
  (modify (fun s => set_frames_since_last_rep (frames_since_last_rep s + 1) s) ;;
   let joints := required_joints f in
   if negb (utils.all_joints_detected (map snd joints)) then ret tt else
   metrics <- lift (calculate_metrics P joints) ;;
   modify (set_current_metrics metrics) ;;
   is_in_position <- lift (is_in_rep_position P metrics) ;;
   is_at_start <- lift (is_at_starting_position P metrics) ;;
   self <- get ;;
   if is_at_start && in_rep_position self then
     modify (set_returned_to_start true) ;;
     modify (set_in_rep_position false) ;;
     self <- get ;;
     if cooldown_frames P <=? frames_since_last_rep self
     then _complete_rep f
     else ret tt
   else if is_in_position && negb (in_rep_position self) && returned_to_start self then
     modify (set_in_rep_position true) ;;
     modify (set_returned_to_start false) ;;
     modify (set_rep_start_time (Some (now f))) ;;
     modify (set_best_metrics metrics) ;;
     on_rep_started metrics
   else if in_rep_position self then
     zoom best_metrics set_best_metrics (update_best_metrics P metrics)
   else ret tt)%py.

(** [get_instruction] *)
Definition get_instruction (self : Detector) : string :=
  if in_rep_position self then get_in_position_instruction P
  else if negb (returned_to_start self) then get_return_instruction P
  else get_ready_instruction P.

(** The tracker's loop with this detector as its handler: frames are handed
    over one by one, and an exception leaves the loop. *)
Definition run (frames : list Frame) : Eff Detector unit :=
  for_each on_joints_detected frames.

(** *** Vocabulary of the properties *)

(** The counter bump at the top of [on_joints_detected]. *)
Definition tick (s : Detector) : Detector :=
  set_frames_since_last_rep (frames_since_last_rep s + 1) s.

(** What a frame shows when every required joint is detected and no callback
    raises: the metrics, and the values of [is_in_rep_position] and
    [is_at_starting_position] on them. *)
Definition observe (f : Frame) : option (Metrics * bool * bool) :=
  if utils.all_joints_detected (map snd (required_joints f)) then
    match calculate_metrics P (required_joints f) with
    | Ok m =>
        match is_in_rep_position P m, is_at_starting_position P m with
        | Ok in_pos, Ok at_start => Some (m, in_pos, at_start)
        | _, _ => None
        end
    | Raise _ => None
    end
  else None.

(** Frames of valid metrics, by what the two predicates say of them. *)
Definition out_of_position (f : Frame) : Prop :=
  exists m at_start, observe f = Some (m, false, at_start).

Definition in_position (f : Frame) : Prop :=
  exists m at_start, observe f = Some (m, true, at_start).

Definition at_start (f : Frame) : Prop :=
  exists m in_pos, observe f = Some (m, in_pos, true).

(** Not at start, whatever [is_in_rep_position] says, and the merge of the
    frame's metrics into the best ones returns normally. *)
Definition away_from_start (f : Frame) : Prop :=
  exists m in_pos, observe f = Some (m, in_pos, false) /\
    forall best, snd (update_best_metrics P m best) = Ok tt.

(** A callback, and a line of the log, made from metrics that satisfy
    [good]: the metrics of the entry for [on_rep_started], the best metrics
    that were graded for [on_rep_completed] and for the line. *)
Definition notification_from (good : Metrics -> Prop) (n : Notification) : Prop :=
  match n with
  | rep_started m => good m
  | rep_completed _ best _ quality =>
      good best /\ assess_rep_quality P best = Ok quality
  end.

Definition line_from (good : Metrics -> Prop) (e : LogEntry) : Prop :=
  exists best, good best /\ assess_rep_quality P best = Ok (entry_quality e).

(** The four things one call can do to the attributes, apart from the
    current and best metrics: nothing but the counter bump, an entry into the
    rep position, a return to start that the cooldown suppresses, and a
    return to start that completes a rep. *)
Inductive effect (f : Frame) (s s' : Detector) : Prop :=
| effect_bump :
    rep_count s' = rep_count s ->
    in_rep_position s' = in_rep_position s ->
    returned_to_start s' = returned_to_start s ->
    rep_start_time s' = rep_start_time s ->
    frames_since_last_rep s' = frames_since_last_rep s + 1 ->
    log_file s' = log_file s ->
    notified s' = notified s ->
    effect f s s'
| effect_entry (m : Metrics) :
    in_rep_position s = false -> returned_to_start s = true ->
    in_rep_position s' = true -> returned_to_start s' = false ->
    rep_start_time s' = Some (now f) ->
    current_metrics s' = m ->
    best_metrics s' = m ->
    rep_count s' = rep_count s ->
    frames_since_last_rep s' = frames_since_last_rep s + 1 ->
    log_file s' = log_file s ->
    notified s' = notified s ++ [rep_started m] ->
    effect f s s'
| effect_suppressed :
    in_rep_position s = true ->
    in_rep_position s' = false -> returned_to_start s' = true ->
    frames_since_last_rep s + 1 < cooldown_frames P ->
    rep_count s' = rep_count s ->
    frames_since_last_rep s' = frames_since_last_rep s + 1 ->
    rep_start_time s' = rep_start_time s ->
    best_metrics s' = best_metrics s ->
    log_file s' = log_file s ->
    notified s' = notified s ->
    effect f s s'
| effect_counted :
    in_rep_position s = true ->
    in_rep_position s' = false -> returned_to_start s' = true ->
    cooldown_frames P <= frames_since_last_rep s + 1 ->
    rep_count s' = rep_count s + 1 ->
    frames_since_last_rep s' = 0 ->
    rep_start_time s' = rep_start_time s ->
    best_metrics s' = best_metrics s ->
    (log_file s' = log_file s \/ exists e, log_file s' = log_file s ++ [e]) ->
    (notified s' = notified s \/
     exists n m d q, notified s' = notified s ++ [rep_completed n m d q]) ->
    effect f s s'.

(** The states a detector can be in: constructed, then any number of calls of
    [on_joints_detected], whether they return or raise. *)
Inductive reachable : Detector -> Prop :=
| reachable_init : reachable init
| reachable_step (f : Frame) (s : Detector) :
    reachable s -> reachable (fst (on_joints_detected f s)).

End Machine.

Arguments Profile : clear implicits.
Arguments Detector : clear implicits.
Arguments Frame : clear implicits.
Arguments Notification : clear implicits.

(** [update_best_metrics] as the base class has it, for a detector that does
    not override it: every key of [current] that [best] lacks is added. *)
Definition default_update_best_metrics {V : Type} (current : gmap string V)
    : Eff (gmap string V) unit :=
  for_each
    (fun item : string * V =>
       let (key, value) := item in
       (best <- get ;;
        match best !! key with
        | None => modify (insert key value)
        | Some _ => ret tt
        end)%py)
    (map_to_list current).

End BaseExerciseDetector.

(** ** api/exercises/squat.py *)

Module SquatDetector.

Import BaseExerciseDetector.

(** A metrics dictionary: metric name to reading. *)
Abbreviation Metrics := (gmap string Q).

(** [metrics[key]]: a missing key raises [KeyError]. *)
Definition getitem (metrics : Metrics) (key : string) : result Q :=
  match metrics !! key with
  | Some v => Ok v
  | None => Raise KeyError
  end.

(** Thresholds set in [__init__]. *)
Definition knee_angle_threshold : Q := 100.
Definition depth_threshold : Q := 15 # 100.
Definition standing_angle : Q := 160.
Definition standing_depth : Q := 25 # 100.

(** Full squat position: knee angle low AND hip near knee. *)
Definition is_in_rep_position (metrics : Metrics) : result bool :=
  and_then (getitem metrics "knee_angle") (fun knee_angle =>
  if Qltb knee_angle knee_angle_threshold
  then and_then (getitem metrics "squat_depth") (fun squat_depth =>
       Ok (Qltb squat_depth depth_threshold))
  else Ok false).

(** Standing position: knees extended and hips high. *)
Definition is_at_starting_position (metrics : Metrics) : result bool :=
  and_then (getitem metrics "knee_angle") (fun knee_angle =>
  if Qgtb knee_angle standing_angle
  then and_then (getitem metrics "squat_depth") (fun squat_depth =>
       Ok (Qgtb squat_depth standing_depth))
  else Ok false).

Definition assess_rep_quality (metrics : Metrics) : result string :=
  and_then (getitem metrics "squat_depth") (fun squat_depth =>
  if Qltb squat_depth (10 # 100) then Ok "Excellent - ATG (Ass to Grass)"%string
  else if Qltb squat_depth (15 # 100) then Ok "Good - Full depth / Parallel"%string
  else if Qltb squat_depth (20 # 100) then Ok "Fair - Just below parallel"%string
  else Ok "Shallow - Go deeper"%string).

(** Track deepest squat (lowest depth value); [best] is updated in place. *)
Definition update_best_metrics (current : Metrics) : Eff Metrics unit :=
  (depth <- lift (getitem current "squat_depth") ;;
   best <- get ;;
   if Qltb depth (default 1%Q (best !! "squat_depth"))
   then
     depth' <- lift (getitem current "squat_depth") ;;
     modify (insert "squat_depth"%string depth') ;;
     angle <- lift (getitem current "knee_angle") ;;
     modify (insert "knee_angle"%string angle)
   else ret tt)%py.

Definition get_in_position_instruction : string := "FULL SQUAT - Hold at bottom".
Definition get_return_instruction : string := "STAND UP - Return to top".
(** [_last_metrics] is never assigned, so [depth_status] stays empty. *)
Definition get_ready_instruction : string := "READY - Squat down".

(** The detector class as a profile of the base machine.  The class fixes
    [cooldown_frames=30]; [calculate_metrics] goes through [arccos] and is
    taken as a parameter. *)
Definition profile {Position : Type} (cooldown : Z)
    (calculate_metrics : list (string * option Position) -> result Metrics)
    : Profile Position Metrics :=
  {| exercise_name := "Squat";
     cooldown_frames := cooldown;
     BaseExerciseDetector.calculate_metrics := calculate_metrics;
     BaseExerciseDetector.is_in_rep_position := is_in_rep_position;
     BaseExerciseDetector.is_at_starting_position := is_at_starting_position;
     BaseExerciseDetector.assess_rep_quality := assess_rep_quality;
     BaseExerciseDetector.update_best_metrics := update_best_metrics;
     BaseExerciseDetector.get_in_position_instruction := get_in_position_instruction;
     BaseExerciseDetector.get_return_instruction := get_return_instruction;
     BaseExerciseDetector.get_ready_instruction := get_ready_instruction;
     empty_metrics := ∅ |}.

(** The dictionary [{'knee_angle': ..., 'squat_depth': ...}] that
    [calculate_metrics] returns. *)
Definition snapshot (knee_angle squat_depth : Q) : Metrics :=
  <["knee_angle"%string := knee_angle]> (<["squat_depth"%string := squat_depth]> ∅).

(** Metrics for frames whose joints already carry the two readings: the
    first detected joint holds the knee angle, the second the squat depth. *)
Definition readings (joints : list (string * option Q)) : result Metrics :=
  match joints with
  | [(_, Some knee_angle); (_, Some squat_depth)] => Ok (snapshot knee_angle squat_depth)
  | _ => Raise KeyError
  end.

(** A frame carrying the pair (knee angle, squat depth), taken at clock [t],
    with a writable log. *)
Definition reading_frame (t : Z) (knee_angle squat_depth : Q) : Frame Q :=
  {| required_joints := [("knee"%string, Some knee_angle); ("hip"%string, Some squat_depth)];
     now := t;
     sink_ok := true |}.

(** The squat-like profile of the end-to-end scenario, [cooldown_frames = 2],
    and its six frames; the clock reads the frame number. *)
Definition squat_like : Profile Q Metrics := profile 2 readings.

Definition scenario : list (Frame Q) :=
  [ reading_frame 1 170 (30 # 100);
    reading_frame 2 170 (30 # 100);
    reading_frame 3 95 (10 # 100);
    reading_frame 4 90 (8 # 100);
    reading_frame 5 95 (10 # 100);
    reading_frame 6 170 (30 # 100) ].

(** The detector after the first [n] frames of the scenario, and the depth
    entry of its best metrics. *)
Definition after (n : nat) : Detector Metrics :=
  fst (run squat_like (firstn n scenario) (init squat_like)).

Definition best_depth (s : Detector Metrics) : option Q :=
  best_metrics s !! "squat_depth"%string.

(** The same readings with the cooldown of the class, 30 frames. *)
Definition squat_30 : Profile Q Metrics := profile 30 readings.

Definition standing (t : Z) : Frame Q := reading_frame t 170 (30 # 100).
Definition squatting (t : Z) : Frame Q := reading_frame t 90 (8 # 100).
Definition rising (t : Z) : Frame Q := reading_frame t 95 (10 # 100).

(** A squat completed at frame 3 and a second one entered at frame 4. *)
Definition second_squat : Detector Metrics :=
  fst (run squat_30 [standing 1; squatting 2; standing 3; squatting 4] (init squat_30)).

(** The return of the scenario with a log that cannot be opened. *)
Definition return_unlogged : Frame Q :=
  {| required_joints := required_joints (standing 6); now := 6; sink_ok := false |}.

(** A frame whose second joint is undetected. *)
Definition hip_lost : Frame Q :=
  {| required_joints := [("knee"%string, Some 90%Q); ("hip"%string, None)];
     now := 4; sink_ok := true |}.

End SquatDetector.

(** ** web_server.py: the status line of [get_stats] *)

Module web_server.

Import BaseExerciseDetector.

Record Stats : Type := {
  reps : Z;
  status : string;
  active : bool;
  instruction : string
}.

Definition get_stats {Position Metrics : Type} (P : Profile Position Metrics)
    (detector : option (Detector Metrics)) (running : bool) : Stats :=
  match detector, running with
  | Some self, true =>
      let (instruction, status) :=
        if in_rep_position self then (get_in_position_instruction P, "In position"%string)
        else if negb (returned_to_start self) then (get_return_instruction P, "Must return"%string)
        else (get_ready_instruction P, "Ready"%string) in
      {| reps := rep_count self; status := status; active := true;
         instruction := instruction |}
  | _, _ =>
      {| reps := 0; status := "Not started"; active := false;
         instruction := "Select an exercise and press Start" |}
  end.

End web_server.

(** ** api/core/event_handlers.py *)

(** A joint position, the array [[x, y, z]] of [get_joint_position]. *)
Record Position : Type := { px : Q; py : Q; pz : Q }.

(** [pos[idx]] for the indices of [axis_map]. *)
Definition coord (pos : Position) (idx : nat) : Q :=
  match idx with
  | O => px pos
  | S O => py pos
  | _ => pz pos
  end.

(** [np.sign] of a reading: -1, 0 or 1. *)
Definition sign (v : Q) : Z := Z.sgn (Qnum v).

Module JointCrossingHandler.

(** A call of [on_joints_crossed]. *)
Record Crossed : Type := {
  crossed_joint1_pos : Position;
  crossed_joint2_pos : Position;
  direction : string
}.

(** The attributes of the handler and the calls it has made of
    [on_joints_crossed] (oldest first). *)
Record Handler : Type := {
  joint1_name : string;
  joint2_name : string;
  axis : string;
  cooldown_frames : Z;
  last_relative_position : option Q;
  frames_since_last_event : Z;
  axis_idx : nat;
  fired : list Crossed
}.

(** [{'x': 0, 'y': 1, 'z': 2}] *)
Definition axis_map : gmap string nat :=
  <["x"%string := 0%nat]> (<["y"%string := 1%nat]> (<["z"%string := 2%nat]> ∅)).

(** [__init__]: an axis outside [axis_map] raises [ValueError]. *)
Definition init (joint1_name joint2_name axis : string) (cooldown_frames : Z)
    : result Handler :=
  match axis_map !! axis with
  | None => Raise ValueError
  | Some idx =>
      Ok {| joint1_name := joint1_name; joint2_name := joint2_name; axis := axis;
            cooldown_frames := cooldown_frames;
            last_relative_position := None;
            frames_since_last_event := cooldown_frames;
            axis_idx := idx;
            fired := [] |}
  end.

Definition set_last_relative_position (v : option Q) (h : Handler) : Handler :=
  {| joint1_name := joint1_name h; joint2_name := joint2_name h; axis := axis h;
     cooldown_frames := cooldown_frames h; last_relative_position := v;
     frames_since_last_event := frames_since_last_event h;
     axis_idx := axis_idx h; fired := fired h |}.

Definition set_frames_since_last_event (v : Z) (h : Handler) : Handler :=
  {| joint1_name := joint1_name h; joint2_name := joint2_name h; axis := axis h;
     cooldown_frames := cooldown_frames h;
     last_relative_position := last_relative_position h;
     frames_since_last_event := v;
     axis_idx := axis_idx h; fired := fired h |}.

Definition on_joints_crossed (c : Crossed) (h : Handler) : Handler :=
  {| joint1_name := joint1_name h; joint2_name := joint2_name h; axis := axis h;
     cooldown_frames := cooldown_frames h;
     last_relative_position := last_relative_position h;
     frames_since_last_event := frames_since_last_event h;
     axis_idx := axis_idx h; fired := fired h ++ [c] |}.

(** The two results of [tracker.get_joint_position] for one frame. *)
Record Frame : Type := {
  joint1_pos : option Position;
  joint2_pos : option Position
}.

(** [on_joints_detected]: process landmarks to detect joint crossings. *)
Definition on_joints_detected (f : Frame) (self : Handler) : Handler :=
  let self := set_frames_since_last_event (frames_since_last_event self + 1) self in
  match joint1_pos f, joint2_pos f with
  | Some joint1_pos, Some joint2_pos =>
      let current_relative_position :=
        (coord joint1_pos (axis_idx self) - coord joint2_pos (axis_idx self))%Q in
      let self :=
        match last_relative_position self with
        | Some last =>
            if negb (sign last =? sign current_relative_position)
               && (cooldown_frames self <=? frames_since_last_event self)
            then
              let direction :=
                if Qgtb current_relative_position 0
                then (joint1_name self ++ " crossed over " ++ joint2_name self)%string
                else (joint2_name self ++ " crossed over " ++ joint1_name self)%string in
              let self :=
                on_joints_crossed
                  {| crossed_joint1_pos := joint1_pos; crossed_joint2_pos := joint2_pos;
                     direction := direction |} self in
              set_frames_since_last_event 0 self
            else self
        | None => self
        end in
      set_last_relative_position (Some current_relative_position) self
  | _, _ => self
  end.

Definition run (frames : list Frame) (self : Handler) : Handler :=
  fold_left (fun h f => on_joints_detected f h) frames self.

(** *** Vocabulary of the properties *)

(** The call appended one [on_joints_crossed]. *)
Definition fires_on (f : Frame) (self : Handler) : Prop :=
  exists c, fired (on_joints_detected f self) = fired self ++ [c].

(** A frame whose signal on the x axis is [v]: joint 1 at [v], joint 2 at 0. *)
Definition signal_frame (v : Q) : Frame :=
  {| joint1_pos := Some {| px := v; py := 0; pz := 0 |};
     joint2_pos := Some {| px := 0; py := 0; pz := 0 |} |}.

(** The signal sequence +1, +1, -1, -1, +1. *)
Definition signals : list Frame :=
  [signal_frame 1; signal_frame 1; signal_frame (-1); signal_frame (-1); signal_frame 1].

(** [pos[axis]] as the handler's documentation names it: the x, y or z
    coordinate of a position, by the name of the axis. *)
Definition along (axis : string) (pos : Position) : Q :=
  if String.eqb axis "x" then px pos
  else if String.eqb axis "y" then py pos
  else pz pos.

(** A frame whose signal on the axis named is [v]: joint 1 is at [v] on that
    axis and at 1 on the two others, joint 2 at the origin.  And the same
    signal sequence on that axis. *)
Definition signal_frame_on (axis : string) (v : Q) : Frame :=
  {| joint1_pos := Some {| px := if String.eqb axis "x" then v else 1;
                           py := if String.eqb axis "y" then v else 1;
                           pz := if String.eqb axis "z" then v else 1 |};
     joint2_pos := Some {| px := 0; py := 0; pz := 0 |} |}.

Definition signals_on (axis : string) : list Frame :=
  map (signal_frame_on axis) [1; 1; -1; -1; 1]%Q.

End JointCrossingHandler.

Module JointProximityHandler.

Section Handler.

(** Positions are kept abstract here: [np.linalg.norm(joint1_pos - joint2_pos)]
    takes a square root, so the distance of two positions is a parameter. *)
Context {Pos : Type}.
Variable norm_diff : Pos -> Pos -> Q.

(** A call of [on_joints_close]. *)
Record Close : Type := {
  close_joint1_pos : Pos;
  close_joint2_pos : Pos;
  close_distance : Q
}.

Record Handler : Type := {
  joint1_name : string;
  joint2_name : string;
  threshold_distance : Q;
  cooldown_frames : Z;
  frames_since_last_event : Z;
  was_close : bool;
  fired : list Close
}.

(** [__init__] *)
Definition init (joint1_name joint2_name : string) (threshold_distance : Q)
    (cooldown_frames : Z) : Handler :=
  {| joint1_name := joint1_name; joint2_name := joint2_name;
     threshold_distance := threshold_distance;
     cooldown_frames := cooldown_frames;
     frames_since_last_event := cooldown_frames;
     was_close := false;
     fired := [] |}.

Definition set_frames_since_last_event (v : Z) (h : Handler) : Handler :=
  {| joint1_name := joint1_name h; joint2_name := joint2_name h;
     threshold_distance := threshold_distance h;
     cooldown_frames := cooldown_frames h;
     frames_since_last_event := v;
     was_close := was_close h; fired := fired h |}.

Definition set_was_close (v : bool) (h : Handler) : Handler :=
  {| joint1_name := joint1_name h; joint2_name := joint2_name h;
     threshold_distance := threshold_distance h;
     cooldown_frames := cooldown_frames h;
     frames_since_last_event := frames_since_last_event h;
     was_close := v; fired := fired h |}.

Definition on_joints_close (c : Close) (h : Handler) : Handler :=
  {| joint1_name := joint1_name h; joint2_name := joint2_name h;
     threshold_distance := threshold_distance h;
     cooldown_frames := cooldown_frames h;
     frames_since_last_event := frames_since_last_event h;
     was_close := was_close h; fired := fired h ++ [c] |}.

Record Frame : Type := {
  joint1_pos : option Pos;
  joint2_pos : option Pos
}.

(** [on_joints_detected]: process landmarks to detect joint proximity. *)
Definition on_joints_detected (f : Frame) (self : Handler) : Handler :=
  let self := set_frames_since_last_event (frames_since_last_event self + 1) self in
  match joint1_pos f, joint2_pos f with
  | Some joint1_pos, Some joint2_pos =>
      let distance := norm_diff joint1_pos joint2_pos in
      let is_close := Qltb distance (threshold_distance self) in
      let self :=
        if is_close && negb (was_close self)
           && (cooldown_frames self <=? frames_since_last_event self)
        then
          let self :=
            on_joints_close
              {| close_joint1_pos := joint1_pos; close_joint2_pos := joint2_pos;
                 close_distance := distance |} self in
          set_frames_since_last_event 0 self
        else self in
      set_was_close is_close self
  | _, _ => self
  end.

Definition run (frames : list Frame) (self : Handler) : Handler :=
  fold_left (fun h f => on_joints_detected f h) frames self.

(** *** Vocabulary of the properties *)

(** The call appended one [on_joints_close]. *)
Definition fires_on (f : Frame) (self : Handler) : Prop :=
  exists c, fired (on_joints_detected f self) = fired self ++ [c].

(** The distance a frame shows, when both joints are detected. *)
Definition distance_of (f : Frame) : option Q :=
  match joint1_pos f, joint2_pos f with
  | Some joint1_pos, Some joint2_pos => Some (norm_diff joint1_pos joint2_pos)
  | _, _ => None
  end.

(** The distance on the last processed frame, if any frame was processed. *)
Definition last_processed_distance (frames : list Frame) : option Q :=
  fold_left (fun last f => match distance_of f with Some d => Some d | None => last end)
    frames None.

(** The rising-edge property in the words of the specification: a processed
    frame fires exactly when the previous processed frame was at or beyond the
    threshold, this one is below it, and the debounce has elapsed. *)
Definition rising_edge_as_stated (h0 : Handler) : Prop :=
  forall (frames : list Frame) (f : Frame) (d : Q),
    distance_of f = Some d ->
    fires_on f (run frames h0) <->
      (exists d_prev, last_processed_distance frames = Some d_prev /\
                      (threshold_distance h0 <= d_prev)%Q) /\
      (d < threshold_distance h0)%Q /\
      cooldown_frames h0 <= frames_since_last_event (run frames h0) + 1.

(** The same with the first processed frame accounted for: [was_close] starts
    [False], so no previous processed frame counts as not close. *)
Definition rising_edge (h0 : Handler) : Prop :=
  forall (frames : list Frame) (f : Frame) (d : Q),
    distance_of f = Some d ->
    fires_on f (run frames h0) <->
      match last_processed_distance frames with
      | Some d_prev => (threshold_distance h0 <= d_prev)%Q
      | None => True
      end /\
      (d < threshold_distance h0)%Q /\
      cooldown_frames h0 <= frames_since_last_event (run frames h0) + 1.

End Handler.

Arguments Handler : clear implicits.
Arguments Frame : clear implicits.
Arguments Close : clear implicits.

(** Points on a line: the norm of the difference is its absolute value. *)
Definition norm_diff_1d (a b : Q) : Q := Qabs (a - b).

(** A frame with joint 1 at [d] and joint 2 at 0 on that line. *)
Definition at_distance (d : Q) : Frame Q :=
  {| joint1_pos := Some d; joint2_pos := Some 0%Q |}.

End JointProximityHandler.

Module JointAngleHandler.

Section Handler.

(** [calculate_angle] goes through [np.arccos]; the angle at the vertex
    joint is a parameter. *)
Context {Pos : Type}.
Variable calculate_angle : Pos -> Pos -> Pos -> Q.

(** A call of [on_angle_threshold_crossed]. *)
Record Crossed : Type := { crossed_angle : Q }.

Record Handler : Type := {
  joint1_name : string;
  joint2_name : string;
  joint3_name : string;
  angle_threshold : Q;
  comparison : string;
  cooldown_frames : Z;
  frames_since_last_event : Z;
  threshold_crossed : bool;
  fired : list Crossed
}.

(** [__init__] *)
Definition init (joint1_name joint2_name joint3_name : string) (angle_threshold : Q)
    (comparison : string) (cooldown_frames : Z) : Handler :=
  {| joint1_name := joint1_name; joint2_name := joint2_name; joint3_name := joint3_name;
     angle_threshold := angle_threshold; comparison := comparison;
     cooldown_frames := cooldown_frames;
     frames_since_last_event := cooldown_frames;
     threshold_crossed := false;
     fired := [] |}.

Definition set_frames_since_last_event (v : Z) (h : Handler) : Handler :=
  {| joint1_name := joint1_name h; joint2_name := joint2_name h;
     joint3_name := joint3_name h;
     angle_threshold := angle_threshold h; comparison := comparison h;
     cooldown_frames := cooldown_frames h;
     frames_since_last_event := v;
     threshold_crossed := threshold_crossed h; fired := fired h |}.

Definition set_threshold_crossed (v : bool) (h : Handler) : Handler :=
  {| joint1_name := joint1_name h; joint2_name := joint2_name h;
     joint3_name := joint3_name h;
     angle_threshold := angle_threshold h; comparison := comparison h;
     cooldown_frames := cooldown_frames h;
     frames_since_last_event := frames_since_last_event h;
     threshold_crossed := v; fired := fired h |}.

Definition on_angle_threshold_crossed (c : Crossed) (h : Handler) : Handler :=
  {| joint1_name := joint1_name h; joint2_name := joint2_name h;
     joint3_name := joint3_name h;
     angle_threshold := angle_threshold h; comparison := comparison h;
     cooldown_frames := cooldown_frames h;
     frames_since_last_event := frames_since_last_event h;
     threshold_crossed := threshold_crossed h; fired := fired h ++ [c] |}.

Record Frame : Type := {
  joint1_pos : option Pos;
  joint2_pos : option Pos;
  joint3_pos : option Pos
}.

(** [on_joints_detected]: process landmarks to detect angle threshold crossing. *)
Definition on_joints_detected (f : Frame) (self : Handler) : Handler :=
  let self := set_frames_since_last_event (frames_since_last_event self + 1) self in
  match joint1_pos f, joint2_pos f, joint3_pos f with
  | Some joint1_pos, Some joint2_pos, Some joint3_pos =>
      let angle := calculate_angle joint1_pos joint2_pos joint3_pos in
      let threshold_currently_crossed :=
        (String.eqb (comparison self) "less" && Qltb angle (angle_threshold self))
        || (String.eqb (comparison self) "greater" && Qgtb angle (angle_threshold self)) in
      let self :=
        if threshold_currently_crossed && negb (threshold_crossed self)
           && (cooldown_frames self <=? frames_since_last_event self)
        then
          let self := on_angle_threshold_crossed {| crossed_angle := angle |} self in
          set_frames_since_last_event 0 self
        else self in
      set_threshold_crossed threshold_currently_crossed self
  | _, _, _ => self
  end.

Definition run (frames : list Frame) (self : Handler) : Handler :=
  fold_left (fun h f => on_joints_detected f h) frames self.

(** *** Vocabulary of the properties *)

(** The call appended one [on_angle_threshold_crossed]. *)
Definition fires_on (f : Frame) (self : Handler) : Prop :=
  exists c, fired (on_joints_detected f self) = fired self ++ [c].

End Handler.

Arguments Handler : clear implicits.
Arguments Frame : clear implicits.

End JointAngleHandler.

(** ** The other exercise detectors: their predicates *)

(** Reading a metric and comparing it, and Python's [and] / [or] of two such
    tests: the second operand is not read when the first decides. *)
Module Metric.

Import SquatDetector.

Definition lt (metrics : Metrics) (key : string) (bound : Q) : result bool :=
  and_then (getitem metrics key) (fun v => Ok (Qltb v bound)).

Definition gt (metrics : Metrics) (key : string) (bound : Q) : result bool :=
  and_then (getitem metrics key) (fun v => Ok (Qgtb v bound)).

Definition and_ (a b : result bool) : result bool :=
  and_then a (fun x => if x then b else Ok false).

Definition or_ (a b : result bool) : result bool :=
  and_then a (fun x => if x then Ok true else b).

End Metric.

Module ShoulderPressDetector.
Import SquatDetector Metric.

Definition elbow_extension_threshold : Q := 160.
Definition wrist_height_threshold : Q := 3 # 10.
Definition starting_angle : Q := 140.
Definition starting_height : Q := - (15 # 100).

Definition is_in_rep_position (metrics : Metrics) : result bool :=
  and_ (gt metrics "elbow_angle" elbow_extension_threshold)
       (lt metrics "wrist_height" (- wrist_height_threshold)).

Definition is_at_starting_position (metrics : Metrics) : result bool :=
  and_ (lt metrics "elbow_angle" starting_angle)
       (gt metrics "wrist_height" starting_height).

End ShoulderPressDetector.

Module DeadliftDetector.
Import SquatDetector Metric.

Definition hip_angle_threshold : Q := 160.
Definition bottom_hip_angle : Q := 100.
Definition torso_angle_threshold : Q := 30.

Definition is_in_rep_position (metrics : Metrics) : result bool :=
  and_ (lt metrics "hip_angle" bottom_hip_angle) (lt metrics "knee_angle" 160).

Definition is_at_starting_position (metrics : Metrics) : result bool :=
  and_ (gt metrics "hip_angle" hip_angle_threshold)
       (lt metrics "torso_angle" torso_angle_threshold).

End DeadliftDetector.

Module RomanianDeadliftDetector.
Import SquatDetector Metric.

Definition hip_angle_threshold : Q := 165.
Definition bottom_hip_angle : Q := 100.
Definition knee_angle_min : Q := 160.
Definition torso_angle_bottom : Q := 80.

Definition is_in_rep_position (metrics : Metrics) : result bool :=
  and_ (and_ (lt metrics "hip_angle" bottom_hip_angle)
             (gt metrics "knee_angle" knee_angle_min))
       (gt metrics "torso_angle" torso_angle_bottom).

Definition is_at_starting_position (metrics : Metrics) : result bool :=
  and_ (gt metrics "hip_angle" hip_angle_threshold) (lt metrics "torso_angle" 30).

End RomanianDeadliftDetector.

Module CalfRaiseDetector.
Import SquatDetector Metric.

Definition heel_lift_threshold : Q := 8 # 100.
Definition ankle_angle_extended : Q := 135.
Definition ankle_angle_flexed : Q := 100.

Definition is_in_rep_position (metrics : Metrics) : result bool :=
  or_ (gt metrics "ankle_angle" ankle_angle_extended)
      (gt metrics "heel_height" heel_lift_threshold).

Definition is_at_starting_position (metrics : Metrics) : result bool :=
  and_ (lt metrics "ankle_angle" ankle_angle_flexed)
       (lt metrics "heel_height" (heel_lift_threshold * (5 # 10))).

End CalfRaiseDetector.

Module BarbellRowDetector.
Import SquatDetector Metric.

Definition elbow_flexion_threshold : Q := 90.
Definition torso_angle_min : Q := 45.
Definition torso_angle_max : Q := 80.

(** [torso_angle_min < metrics['torso_angle'] < torso_angle_max] *)
Definition torso_in_range (metrics : Metrics) : result bool :=
  and_ (gt metrics "torso_angle" torso_angle_min)
       (lt metrics "torso_angle" torso_angle_max).

Definition is_in_rep_position (metrics : Metrics) : result bool :=
  and_ (lt metrics "elbow_angle" elbow_flexion_threshold) (torso_in_range metrics).

Definition is_at_starting_position (metrics : Metrics) : result bool :=
  and_ (gt metrics "elbow_angle" 160) (torso_in_range metrics).

End BarbellRowDetector.

Module BicepCurlDetector.
Import SquatDetector Metric.

Definition elbow_flexion_threshold : Q := 50.
Definition elbow_extension_threshold : Q := 160.

Definition is_in_rep_position (metrics : Metrics) : result bool :=
  lt metrics "elbow_angle" elbow_flexion_threshold.

Definition is_at_starting_position (metrics : Metrics) : result bool :=
  gt metrics "elbow_angle" elbow_extension_threshold.

End BicepCurlDetector.

Module BenchPressDetector.
Import SquatDetector Metric.

Definition elbow_extension_threshold : Q := 165.
Definition elbow_flexion_threshold : Q := 90.
Definition wrist_shoulder_distance : Q := 12 # 100.

Definition is_in_rep_position (metrics : Metrics) : result bool :=
  gt metrics "elbow_angle" elbow_extension_threshold.

Definition is_at_starting_position (metrics : Metrics) : result bool :=
  and_ (lt metrics "elbow_angle" elbow_flexion_threshold)
       (lt metrics "press_depth" wrist_shoulder_distance).

End BenchPressDetector.

Module FrontRaiseDetector.
Import SquatDetector Metric.

Definition wrist_height_threshold : Q := - (2 # 10).
Definition arm_angle_threshold : Q := 100.

Definition is_in_rep_position (metrics : Metrics) : result bool :=
  or_ (lt metrics "wrist_height" wrist_height_threshold)
      (lt metrics "arm_angle" arm_angle_threshold).

Definition is_at_starting_position (metrics : Metrics) : result bool :=
  and_ (gt metrics "wrist_height" 0) (gt metrics "arm_angle" 160).

End FrontRaiseDetector.

(** The dumbbell fly, with its grading and its merge as well. *)
Module DumbbellFlyDetector.
Import BaseExerciseDetector SquatDetector Metric.

Definition wrist_distance_closed : Q := 15 # 100.
Definition wrist_distance_open : Q := 5 # 10.
Definition elbow_angle_min : Q := 150.

Definition is_in_rep_position (metrics : Metrics) : result bool :=
  lt metrics "wrist_distance" wrist_distance_closed.

Definition is_at_starting_position (metrics : Metrics) : result bool :=
  and_ (gt metrics "wrist_distance" wrist_distance_open)
       (gt metrics "elbow_angle" elbow_angle_min).

Definition assess_rep_quality (metrics : Metrics) : result string :=
  and_then (and_ (gt metrics "wrist_distance" (6 # 10)) (gt metrics "elbow_angle" 150))
    (fun excellent =>
  if excellent then Ok "Excellent - Full chest stretch"%string else
  and_then (gt metrics "wrist_distance" (5 # 10)) (fun good =>
  if good then Ok "Good - Good stretch"%string else
  and_then (lt metrics "elbow_angle" 140) (fun bent =>
  if bent then Ok "Bent elbows - Keep arms straighter"%string
  else Ok "Shallow - Open wider"%string))).

(** Track the widest spread reached with the elbows kept straight enough. *)
Definition update_best_metrics (current : Metrics) : Eff Metrics unit :=
  (distance <- lift (getitem current "wrist_distance") ;;
   best <- get ;;
   if Qgtb distance (default 0%Q (best !! "wrist_distance"))
   then
     angle <- lift (getitem current "elbow_angle") ;;
     if Qgtb angle elbow_angle_min
     then
       distance' <- lift (getitem current "wrist_distance") ;;
       modify (insert "wrist_distance"%string distance') ;;
       angle' <- lift (getitem current "elbow_angle") ;;
       modify (insert "elbow_angle"%string angle')
     else ret tt
   else ret tt)%py.

(** The detector class as a profile of the base machine; the class passes
    [cooldown_frames=15], and [calculate_metrics] is a parameter. *)
Definition profile {Position : Type}
    (calculate_metrics : list (string * option Position) -> result Metrics)
    : Profile Position Metrics :=
  {| exercise_name := "Dumbbell Fly";
     cooldown_frames := 15;
     BaseExerciseDetector.calculate_metrics := calculate_metrics;
     BaseExerciseDetector.is_in_rep_position := is_in_rep_position;
     BaseExerciseDetector.is_at_starting_position := is_at_starting_position;
     BaseExerciseDetector.assess_rep_quality := assess_rep_quality;
     BaseExerciseDetector.update_best_metrics := update_best_metrics;
     BaseExerciseDetector.get_in_position_instruction := "CLOSED - Squeeze chest";
     BaseExerciseDetector.get_return_instruction := "OPEN - Stretch chest wide";
     BaseExerciseDetector.get_ready_instruction := "READY - Bring dumbbells together";
     empty_metrics := ∅ |}.

(** The dictionary [{'wrist_distance': ..., 'elbow_angle': ...}] of
    [calculate_metrics], read off frames that carry the two readings, as for
    the squat. *)
Definition fly_snapshot (wrist_distance elbow_angle : Q) : Metrics :=
  <["wrist_distance"%string := wrist_distance]> (<["elbow_angle"%string := elbow_angle]> ∅).

Definition fly_readings (joints : list (string * option Q)) : result Metrics :=
  match joints with
  | [(_, Some wrist_distance); (_, Some elbow_angle)] =>
      Ok (fly_snapshot wrist_distance elbow_angle)
  | _ => Raise KeyError
  end.

Definition fly_frame (t : Z) (wrist_distance elbow_angle : Q) : Frame Q :=
  {| required_joints := [("wrists"%string, Some wrist_distance);
                         ("elbows"%string, Some elbow_angle)];
     now := t;
     sink_ok := true |}.

(** One fly: the dumbbells together at clock 1, then the arms spread to 0.7
    with the elbows at 160 degrees at clock 2. *)
Definition one_fly : Detector Metrics :=
  fst (on_joints_detected (profile fly_readings) (fly_frame 2 (7 # 10) 160)
    (fst (on_joints_detected (profile fly_readings) (fly_frame 1 (1 # 10) 160)
       (init (profile fly_readings))))).

End DumbbellFlyDetector.

(** ** api/exercises/__init__.py: the exercise registry *)

Module exercises.

Inductive DetectorClass : Set :=
| SquatDetector | ShoulderPressDetector | DeadliftDetector
| RomanianDeadliftDetector | CalfRaiseDetector | BarbellRowDetector
| BicepCurlDetector | BenchPressDetector | FrontRaiseDetector
| DumbbellFlyDetector.

(** One value of the registry dictionary. *)
Record Info : Type := {
  class_ : DetectorClass;
  name : string;
  description : string;
  category : string
}.

(** A dictionary from exercise id to [Info]: its items in insertion order,
    no key twice. *)
Record Registry : Type := {
  items : list (string * Info);
  keys_unique : NoDup (map fst items)
}.











(** An element of the list of [get_available_exercises]. *)
Record Listing : Type := {
  listing_id : string;
  listing_name : string;
  listing_description : string;
  listing_category : string
}.

Definition get_available_exercises (registry : Registry) : list Listing :=
  map (fun item : string * Info =>
         let (exercise_id, info) := item in
         {| listing_id := exercise_id; listing_name := name info;
            listing_description := description info;
            listing_category := category info |})
      (items registry).

(** An element of the lists of [get_exercises_by_category]. *)
Record Entry : Type := {
  entry_id : string;
  entry_name : string;
  entry_description : string
}.

Definition entry_of (exercise_id : string) (info : Info) : Entry :=
  {| entry_id := exercise_id; entry_name := name info;
     entry_description := description info |}.

(** [get_exercises_by_category]: a dictionary from category to the entries
    of that category. *)
Definition get_exercises_by_category (registry : Registry) : gmap string (list Entry) :=
  fold_left
    (fun (by_category : gmap string (list Entry)) (item : string * Info) =>
       let (exercise_id, info) := item in
       let by_category :=
         match by_category !! category info with
         | None => <[category info := []]> by_category
         | Some _ => by_category
         end in
       <[category info :=
           default [] (by_category !! category info) ++ [entry_of exercise_id info]]>
         by_category)
    (items registry) ∅.

End exercises.

(** ** api/exercises/utils.py: the tests on points and joint angles *)

Module utils_points.

(** [float(point_a[1] - point_b[1])] *)
Definition calculate_vertical_distance (point_a point_b : Position) : Q :=
  (py point_a - py point_b)%Q.

(** [float(abs(point_a[0] - point_b[0]))] *)
Definition calculate_horizontal_distance (point_a point_b : Position) : Q :=
  Qabs (px point_a - px point_b).

(** [point_a[1] < (point_b[1] - threshold)] *)
Definition is_point_above (point_a point_b : Position) (threshold : Q) : bool :=
  Qltb (py point_a) (py point_b - threshold).

(** [point_a[1] > (point_b[1] + threshold)] *)
Definition is_point_below (point_a point_b : Position) (threshold : Q) : bool :=
  Qgtb (py point_a) (py point_b + threshold).

(** [abs(point_a[0] - point_b[0]) < tolerance] *)
Definition is_aligned_vertically (point_a point_b : Position) (tolerance : Q) : bool :=
  Qltb (Qabs (px point_a - px point_b)) tolerance.

(** [abs(point_a[1] - point_b[1]) < tolerance] *)
Definition is_aligned_horizontally (point_a point_b : Position) (tolerance : Q) : bool :=
  Qltb (Qabs (py point_a - py point_b)) tolerance.

(** [angle > threshold], by default against 160 degrees. *)
Definition is_joint_extended (angle threshold : Q) : bool := Qgtb angle threshold.

(** [angle < threshold], by default against 120 degrees. *)
Definition is_joint_flexed (angle threshold : Q) : bool := Qltb angle threshold.

End utils_points.

(** * Properties *)

(** ** Comparisons of readings *)

Lemma Qltb_lt (a b : Q) : Qltb a b = true <-> (a < b)%Q.
Proof. unfold Qltb, Qlt. apply Z.ltb_lt. Qed.

Lemma Qltb_ge (a b : Q) : Qltb a b = false <-> (b <= a)%Q.
Proof. unfold Qltb, Qle. rewrite Z.ltb_ge. reflexivity. Qed.

(** ** The rep counting state machine, case by case *)

Section RepMachine.

Import BaseExerciseDetector.

Context {Position Metrics : Type}.
Variable P : Profile Position Metrics.

Abbreviation Detector := (Detector Metrics).
Abbreviation Frame := (Frame Position).

Lemma all_joints_detected_false (joints : list (option Position)) :
  utils.all_joints_detected joints = false <-> In None joints.
Proof.
  unfold utils.all_joints_detected. induction joints as [|[j|] joints IH]; simpl.
  - split; [discriminate | tauto].
  - rewrite IH. split; [tauto | intros [H|H]; [discriminate | exact H]].
  - split; [auto | reflexivity].
Qed.

Lemma observe_Some (f : Frame) m a b :
  observe P f = Some (m, a, b) ->
  utils.all_joints_detected (map snd (required_joints f)) = true /\
  calculate_metrics P (required_joints f) = Ok m /\
  is_in_rep_position P m = Ok a /\
  is_at_starting_position P m = Ok b.
Proof.
  unfold observe.
  destruct (utils.all_joints_detected _); [|discriminate].
  destruct (calculate_metrics P _) as [m'|]; [|discriminate].
  destruct (is_in_rep_position P m') as [a'|] eqn:Ha; [|discriminate].
  destruct (is_at_starting_position P m') as [b'|] eqn:Hb; [|discriminate].
  intros [= <- <- <-]. auto.
Qed.

(** Unfold one call down to its conditionals. *)
Ltac open_call :=
  cbv beta iota zeta delta
    [on_joints_detected _complete_rep _log_rep on_rep_started on_rep_completed
     _format_log_entry bind ret get modify raise lift zoom tick].

Ltac open_observed H :=
  apply observe_Some in H;
  let Hd := fresh in let Hc := fresh in let Hp := fresh in let Hs := fresh in
  destruct H as (Hd & Hc & Hp & Hs);
  open_call; rewrite Hd, Hc, Hp, Hs; clear Hd Hc Hp Hs.

(** A frame with an undetected joint only bumps the counter. *)
Lemma call_skip (f : Frame) (s : Detector) :
  utils.all_joints_detected (map snd (required_joints f)) = false ->
  on_joints_detected P f s = (tick s, Ok tt).
Proof. intros H. open_call. rewrite H. reflexivity. Qed.

(** Entering the rep position from Ready. *)
Lemma call_entry (f : Frame) (s : Detector) m b :
  observe P f = Some (m, true, b) ->
  in_rep_position s = false -> returned_to_start s = true ->
  on_joints_detected P f s =
    (set_notified (notified s ++ [rep_started m])
       (set_best_metrics m
          (set_rep_start_time (Some (now f))
             (set_returned_to_start false
                (set_in_rep_position true (set_current_metrics m (tick s)))))),
     Ok tt).
Proof.
  intros H Hin Hret. open_observed H. simpl.
  rewrite Hin, Hret, andb_false_r. reflexivity.
Qed.

(** Nothing to do: not in position, and no entry. *)
Lemma call_idle (f : Frame) (s : Detector) m a b :
  observe P f = Some (m, a, b) ->
  in_rep_position s = false -> a && returned_to_start s = false ->
  on_joints_detected P f s = (set_current_metrics m (tick s), Ok tt).
Proof.
  intros H Hin Hno. open_observed H. simpl.
  rewrite Hin, andb_false_r. simpl. rewrite andb_true_r, Hno. reflexivity.
Qed.

(** In position and not at start: the best metrics are merged. *)
Lemma call_continue (f : Frame) (s : Detector) m a :
  observe P f = Some (m, a, false) ->
  in_rep_position s = true ->
  on_joints_detected P f s =
    zoom best_metrics set_best_metrics (update_best_metrics P m)
      (set_current_metrics m (tick s)).
Proof.
  intros H Hin. open_observed H. simpl.
  rewrite Hin, andb_false_r. simpl. reflexivity.
Qed.

(** Back at start before the cooldown has elapsed. *)
Lemma call_return_suppressed (f : Frame) (s : Detector) m a :
  observe P f = Some (m, a, true) ->
  in_rep_position s = true ->
  frames_since_last_rep (tick s) < cooldown_frames P ->
  on_joints_detected P f s =
    (set_in_rep_position false
       (set_returned_to_start true (set_current_metrics m (tick s))),
     Ok tt).
Proof.
  intros H Hin Hcd. open_observed H. simpl in *.
  rewrite Hin. simpl.
  destruct (Z.leb_spec (cooldown_frames P) (frames_since_last_rep s + 1)); [lia|].
  reflexivity.
Qed.

(** Back at start with the cooldown elapsed: the rep is completed. *)
Lemma call_return_counted (f : Frame) (s : Detector) m a :
  observe P f = Some (m, a, true) ->
  in_rep_position s = true ->
  cooldown_frames P <= frames_since_last_rep (tick s) ->
  on_joints_detected P f s =
    _complete_rep P f
      (set_in_rep_position false
         (set_returned_to_start true (set_current_metrics m (tick s)))).
Proof.
  intros H Hin Hcd. open_observed H. simpl in *.
  rewrite Hin. simpl.
  destruct (Z.leb_spec (cooldown_frames P) (frames_since_last_rep s + 1)); [|lia].
  reflexivity.
Qed.

(** What [_complete_rep] does to the attributes, whether or not it raises. *)
Lemma complete_rep_attrs (f : Frame) (s : Detector) :
  let s' := fst (_complete_rep P f s) in
  rep_count s' = rep_count s + 1 /\
  frames_since_last_rep s' = 0 /\
  in_rep_position s' = in_rep_position s /\
  returned_to_start s' = returned_to_start s /\
  rep_start_time s' = rep_start_time s /\
  current_metrics s' = current_metrics s /\
  best_metrics s' = best_metrics s /\
  (log_file s' = log_file s \/ exists e, log_file s' = log_file s ++ [e]) /\
  (notified s' = notified s \/
   exists n m d q, notified s' = notified s ++ [rep_completed n m d q]).
Proof.
  open_call. simpl.
  destruct (rep_start_time s) as [t0|] eqn:Ht; simpl.
  2: { repeat split; auto. }
  destruct (assess_rep_quality P (best_metrics s)) as [q|]; simpl.
  2: { repeat split; auto. }
  destruct (sink_ok f); simpl; repeat split; eauto 8.
Qed.

(** Every call has one of the four effects. *)
Lemma call_effect (f : Frame) (s : Detector) :
  effect P f s (fst (on_joints_detected P f s)).
Proof.
  destruct (utils.all_joints_detected (map snd (required_joints f))) eqn:Hd.
  2: { rewrite (call_skip _ _ Hd). apply effect_bump; reflexivity. }
  open_call. rewrite Hd. simpl.
  destruct (calculate_metrics P (required_joints f)) as [m|]; simpl.
  2: { apply effect_bump; reflexivity. }
  destruct (is_in_rep_position P m) as [a|]; simpl.
  2: { apply effect_bump; reflexivity. }
  destruct (is_at_starting_position P m) as [b|]; simpl.
  2: { apply effect_bump; reflexivity. }
  destruct (in_rep_position s) eqn:Hin, b; simpl.
  - (* return to start *)
    destruct (Z.leb_spec (cooldown_frames P) (frames_since_last_rep s + 1)).
    + pose proof (complete_rep_attrs f
        (set_in_rep_position false
           (set_returned_to_start true (set_current_metrics m (tick s)))))
        as (Hc & Hf & Hi & Hr & Ht & _ & Hb & Hl & Hn).
      revert Hc Hf Hi Hr Ht Hb Hl Hn. open_call. simpl. intros.
      apply effect_counted; auto.
    + apply effect_suppressed; auto.
  - (* still in position *)
    rewrite andb_false_r. simpl.
    destruct (update_best_metrics P m (best_metrics s)) as [best' r].
    apply effect_bump; auto.
  - (* ready, at start *)
    rewrite andb_true_r.
    destruct a, (returned_to_start s) eqn:Hret; simpl.
    + eapply effect_entry; simpl; eauto.
    + apply effect_bump; auto.
    + apply effect_bump; auto.
    + apply effect_bump; auto.
  - rewrite andb_true_r.
    destruct a, (returned_to_start s) eqn:Hret; simpl.
    + eapply effect_entry; simpl; eauto.
    + apply effect_bump; auto.
    + apply effect_bump; auto.
    + apply effect_bump; auto.
Qed.

(** *** Runs of frames *)

Lemma run_cons (f : Frame) (fs : list Frame) (s : Detector) :
  run P (f :: fs) s =
    match on_joints_detected P f s with
    | (s', Ok _) => run P fs s'
    | (s', Raise e) => (s', Raise e)
    end.
Proof. reflexivity. Qed.

Lemma run_app (fs gs : list Frame) (s : Detector) :
  run P (fs ++ gs) s =
    match run P fs s with
    | (s', Ok _) => run P gs s'
    | (s', Raise e) => (s', Raise e)
    end.
Proof.
  revert s. induction fs as [|f fs IH]; intros s.
  - reflexivity.
  - simpl app. rewrite !run_cons.
    destruct (on_joints_detected P f s) as [s' [[]|e]]; [apply IH | reflexivity].
Qed.

(** While Ready, frames out of position leave the detector Ready and the
    count alone. *)
Lemma run_out_of_position (fs : list Frame) (s : Detector) :
  in_rep_position s = false -> returned_to_start s = true ->
  Forall (out_of_position P) fs ->
  exists s', run P fs s = (s', Ok tt) /\
    in_rep_position s' = false /\ returned_to_start s' = true /\
    rep_count s' = rep_count s.
Proof.
  intros Hin Hret Hfs. revert s Hin Hret.
  induction Hfs as [|f fs (m & b & Hf) _ IH]; intros s Hin Hret.
  - exists s. auto.
  - rewrite run_cons, (call_idle f s m false b Hf Hin eq_refl).
    destruct (IH (set_current_metrics m (tick s)) Hin Hret) as (s' & -> & ? & ? & ?).
    exists s'. auto.
Qed.

(** While in position, frames away from start keep the detector there. *)
Lemma run_away_from_start (fs : list Frame) (s : Detector) :
  in_rep_position s = true ->
  Forall (away_from_start P) fs ->
  exists s', run P fs s = (s', Ok tt) /\
    in_rep_position s' = true /\ rep_count s' = rep_count s.
Proof.
  intros Hin Hfs. revert s Hin.
  induction Hfs as [|f fs (m & a & Hf & Hm) _ IH]; intros s Hin.
  - exists s. auto.
  - rewrite run_cons, (call_continue f s m a Hf Hin).
    unfold zoom. specialize (Hm (best_metrics (set_current_metrics m (tick s)))).
    destruct (update_best_metrics P m _) as [best' r]. simpl in Hm. subst r.
    destruct (IH (set_best_metrics best' (set_current_metrics m (tick s))) Hin)
      as (s' & -> & ? & ?).
    exists s'. auto.
Qed.

(** *** The claims on the rep counting state machine *)

(** C1 -- No double counting.  Start from a Ready detector and feed it frames
    of valid metrics: first any number of frames out of the rep position, then
    one frame in the rep position (the only entry into Active), then any
    number of frames that are not at start, however the metrics move and
    whatever [is_in_rep_position] says of them, then one frame at start, met
    with the cooldown elapsed ([frames_since_last_rep], as bumped by that
    call, at least [cooldown_frames]), then any number of frames out of the
    rep position.  Over the whole sequence [rep_count] grows by exactly 1. *)
Theorem no_double_counting (s0 : Detector) (pre mid post : list Frame) (e r : Frame) :
  in_rep_position s0 = false -> returned_to_start s0 = true ->
  Forall (out_of_position P) pre ->
  in_position P e ->
  Forall (away_from_start P) mid ->
  at_start P r ->
  cooldown_frames P
    <= frames_since_last_rep (tick (fst (run P (pre ++ e :: mid) s0))) ->
  Forall (out_of_position P) post ->
  rep_count (fst (run P (pre ++ e :: mid ++ r :: post) s0)) = rep_count s0 + 1.
Proof.
  intros Hin Hret Hpre (me & be & He) Hmid (mr & ar & Hr) Hcd Hpost.
  destruct (run_out_of_position pre s0 Hin Hret Hpre) as (s1 & R1 & Hin1 & Hret1 & Hc1).
  pose proof (call_entry e s1 me be He Hin1 Hret1) as Re.
  match type of Re with _ = (?s2, _) =>
    destruct (run_away_from_start mid s2 eq_refl Hmid) as (s3 & R3 & Hin3 & Hc3)
  end.
  assert (Rhead : run P (pre ++ e :: mid) s0 = (s3, Ok tt)).
  { rewrite run_app, R1, run_cons, Re. exact R3. }
  rewrite Rhead in Hcd. simpl fst in Hcd.
  replace (pre ++ e :: mid ++ r :: post) with ((pre ++ e :: mid) ++ r :: post)
    by (rewrite <- app_assoc; reflexivity).
  rewrite run_app, Rhead, run_cons, (call_return_counted r s3 mr ar Hr Hin3 Hcd).
  match goal with |- context [_complete_rep P r ?st] =>
    pose proof (complete_rep_attrs r st) as (Hc4 & _ & Hin4 & Hret4 & _)
  end.
  destruct (_complete_rep P r _) as [s4 [[]|x]]; simpl in Hc4, Hin4, Hret4.
  - destruct (run_out_of_position post s4 Hin4 Hret4 Hpost) as (s5 & -> & _ & _ & Hc5).
    simpl in Hc3 |- *. lia.
  - simpl in Hc3 |- *. lia.
Qed.

(** *** Where the records of a run come from *)

(** A call that adds neither a callback nor a line. *)
Ltac quiet_call :=
  exists [], []; rewrite ?app_nil_r;
  split; [reflexivity|]; split; [reflexivity|];
  split; [intros Hquiet; try discriminate Hquiet; left; auto | split; constructor].

(** One call, for a property [good] that the metrics of every frame in
    position have and that the merge keeps on frames not at start: if the
    best metrics of a detector in the rep position are [good], they still
    are after the call, and what the call adds to the callbacks and to the
    log is made from [good] metrics.  A call on a detector out of the rep
    position adds nothing, counts nothing and leaves it there, or adds one
    [rep_started]. *)
Lemma call_records (good : Metrics -> Prop) (f : Frame) (s : Detector) :
  (forall m, is_in_rep_position P m = Ok true -> good m) ->
  (forall current best,
     is_at_starting_position P current = Ok false ->
     good best -> good (fst (update_best_metrics P current best))) ->
  (in_rep_position s = true -> good (best_metrics s)) ->
  let s' := fst (on_joints_detected P f s) in
  (in_rep_position s' = true -> good (best_metrics s')) /\
  exists notes lines,
    notified s' = notified s ++ notes /\
    log_file s' = log_file s ++ lines /\
    (in_rep_position s = false ->
     (notes = [] /\ lines = [] /\ in_rep_position s' = false /\
      rep_count s' = rep_count s) \/
     exists m, notes = [rep_started m]) /\
    Forall (notification_from P good) notes /\
    Forall (line_from P good) lines.
Proof.
  intros Hentry Hkept Hbest.
  open_call.
  destruct (utils.all_joints_detected (map snd (required_joints f))); simpl;
    [|split; [exact Hbest | quiet_call]].
  destruct (calculate_metrics P (required_joints f)) as [m|]; simpl;
    [|split; [exact Hbest | quiet_call]].
  destruct (is_in_rep_position P m) as [a|] eqn:Ha; simpl;
    [|split; [exact Hbest | quiet_call]].
  destruct (is_at_starting_position P m) as [b|] eqn:Hb; simpl;
    [|split; [exact Hbest | quiet_call]].
  destruct (in_rep_position s) eqn:Hin, b; simpl.
  - (* return to start *)
    destruct (cooldown_frames P <=? frames_since_last_rep s + 1); simpl;
      [|split; [discriminate | quiet_call]].
    destruct (rep_start_time s) as [t0|]; simpl;
      [|split; [discriminate | quiet_call]].
    destruct (assess_rep_quality P (best_metrics s)) as [q|] eqn:Hq; simpl;
      [|split; [discriminate | quiet_call]].
    destruct (sink_ok f); simpl;
      [|split; [discriminate | quiet_call]].
    split; [discriminate|].
    exists [rep_completed (rep_count s + 1) (best_metrics s) (now f - t0) q],
      [{| entry_timestamp := now f; entry_rep_num := rep_count s + 1;
          entry_duration := now f - t0; entry_quality := q |}].
    split; [reflexivity|]. split; [reflexivity|]. split; [discriminate|].
    split; repeat constructor.
    + exact (Hbest eq_refl).
    + exact Hq.
    + exists (best_metrics s). split; [exact (Hbest eq_refl) | exact Hq].
  - (* in the rep position, not at start: the merge *)
    rewrite andb_false_r. simpl.
    pose proof (Hkept m (best_metrics s) Hb (Hbest eq_refl)) as Hgood.
    destruct (update_best_metrics P m (best_metrics s)) as [best' r]. simpl in *.
    split; [intros _; exact Hgood | quiet_call].
  - rewrite andb_true_r.
    destruct a, (returned_to_start s); simpl;
      try (split; [rewrite Hin; discriminate | quiet_call]).
    split; [intros _; exact (Hentry m Ha)|].
    exists [rep_started m], []. rewrite app_nil_r.
    split; [reflexivity|]. split; [reflexivity|]. split; [eauto|].
    split; repeat constructor. exact (Hentry m Ha).
  - rewrite andb_true_r.
    destruct a, (returned_to_start s); simpl;
      try (split; [rewrite Hin; discriminate | quiet_call]).
    split; [intros _; exact (Hentry m Ha)|].
    exists [rep_started m], []. rewrite app_nil_r.
    split; [reflexivity|]. split; [reflexivity|]. split; [eauto|].
    split; repeat constructor. exact (Hentry m Ha).
Qed.

(** The same over a run of frames: from a detector out of the rep position,
    the run adds nothing and counts nothing, or the callbacks it adds start
    with a [rep_started]. *)
Lemma run_records (good : Metrics -> Prop) (frames : list Frame) (s : Detector) :
  (forall m, is_in_rep_position P m = Ok true -> good m) ->
  (forall current best,
     is_at_starting_position P current = Ok false ->
     good best -> good (fst (update_best_metrics P current best))) ->
  (in_rep_position s = true -> good (best_metrics s)) ->
  let t := fst (run P frames s) in
  (in_rep_position t = true -> good (best_metrics t)) /\
  exists notes lines,
    notified t = notified s ++ notes /\
    log_file t = log_file s ++ lines /\
    (in_rep_position s = false ->
     (notes = [] /\ lines = [] /\ in_rep_position t = false /\
      rep_count t = rep_count s) \/
     exists m rest, notes = rep_started m :: rest) /\
    Forall (notification_from P good) notes /\
    Forall (line_from P good) lines.
Proof.
  intros Hentry Hkept. revert s.
  induction frames as [|f frames IH]; intros s Hbest.
  - simpl. split; [exact Hbest|]. exists [], []. rewrite !app_nil_r.
    repeat split; auto.
  - rewrite run_cons.
    destruct (call_records good f s Hentry Hkept Hbest)
      as (Hbest1 & notes1 & lines1 & Hn1 & Hl1 & Hhead1 & Hgn1 & Hgl1).
    destruct (on_joints_detected P f s) as [s1 [[]|e]]; simpl in *.
    + destruct (IH s1 Hbest1) as (Hbest2 & notes2 & lines2 & Hn2 & Hl2 & Hhead2 & Hgn2 & Hgl2).
      split; [exact Hbest2|].
      exists (notes1 ++ notes2), (lines1 ++ lines2).
      rewrite Hn2, Hl2, Hn1, Hl1, !app_assoc.
      split; [reflexivity|]. split; [reflexivity|].
      split; [|split; apply Forall_app; auto].
      intros Hs. destruct (Hhead1 Hs) as [(E1 & L1 & Hi1 & Hc1)|[m E1]].
      * rewrite E1, L1. simpl.
        destruct (Hhead2 Hi1) as [(E2 & L2 & Hi2 & Hc2)|Hstarted]; [|auto].
        left. repeat split; auto. congruence.
      * rewrite E1. right. simpl. eauto.
    + split; [exact Hbest1|].
      exists notes1, lines1.
      split; [exact Hn1|]. split; [exact Hl1|]. split; [|auto].
      intros Hs. destruct (Hhead1 Hs) as [H|[m E1]]; [auto|].
      right. exists m, []. exact E1.
Qed.

(** C3 -- Cooldown suppression.  On a frame of valid metrics that is at
    start, met in the rep position with [frames_since_last_rep], as bumped by
    this call and read by the cooldown test, below [cooldown_frames]: the call
    returns with the detector Ready, and [rep_count], the log, the
    notifications and the best metrics are as before; [frames_since_last_rep]
    keeps its bumped value, it is not reset.  The best metrics left behind
    are never logged: the next call appends nothing, and if it enters the rep
    position it replaces them by the metrics of its own frame.  And so for
    every run of frames that follows: the callbacks it adds start with an
    [on_rep_started], no rep is completed before a new one is entered; and
    whatever property [good] the metrics of frames in position have and the
    merge keeps, every [on_rep_completed] and every log line added by the run
    is made from [good] best metrics, though nothing is assumed of the best
    metrics left behind.  They feed no record. *)
Theorem cooldown_suppression (f : Frame) (s : Detector) (m : Metrics) (in_pos : bool) :
  observe P f = Some (m, in_pos, true) ->
  in_rep_position s = true ->
  frames_since_last_rep (tick s) < cooldown_frames P ->
  let r := on_joints_detected P f s in
  snd r = Ok tt /\
  in_rep_position (fst r) = false /\
  returned_to_start (fst r) = true /\
  rep_count (fst r) = rep_count s /\
  log_file (fst r) = log_file s /\
  notified (fst r) = notified s /\
  frames_since_last_rep (fst r) = frames_since_last_rep s + 1 /\
  best_metrics (fst r) = best_metrics s /\
  (forall f' : Frame,
     let s'' := fst (on_joints_detected P f' (fst r)) in
     log_file s'' = log_file s /\
     (in_rep_position s'' = true -> best_metrics s'' = current_metrics s'')) /\
  (forall (good : Metrics -> Prop) (frames : list Frame),
     (forall m', is_in_rep_position P m' = Ok true -> good m') ->
     (forall current best,
        is_at_starting_position P current = Ok false ->
        good best -> good (fst (update_best_metrics P current best))) ->
     let t := fst (run P frames (fst r)) in
     (in_rep_position t = true -> good (best_metrics t)) /\
     exists notes lines,
       notified t = notified s ++ notes /\
       log_file t = log_file s ++ lines /\
       ((notes = [] /\ lines = [] /\ rep_count t = rep_count s \/
         exists m' rest, notes = rep_started m' :: rest)) /\
       Forall (notification_from P good) notes /\
       Forall (line_from P good) lines).
Proof.
  intros Hf Hin Hcd r. subst r.
  rewrite (call_return_suppressed f s m in_pos Hf Hin Hcd). simpl.
  do 8 (split; [reflexivity|]).
  split.
  - intros f'.
    match goal with |- context [on_joints_detected P f' ?t] =>
      destruct (call_effect f' t) as [_ Hi _ _ _ Hl _|m' _ _ _ _ _ Hc Hb _ _ Hl _|Hi|Hi]
    end; try discriminate Hi.
    + split; [exact Hl|]. rewrite Hi. discriminate.
    + split; [exact Hl|]. intros _. rewrite Hc, Hb. reflexivity.
  - intros good frames Hentry Hkept.
    match goal with |- context [run P frames ?t] => set (s1 := t) end.
    destruct (run_records good frames s1 Hentry Hkept)
      as (Hbest & notes & lines & Hn & Hl & Hhead & Hgn & Hgl); [discriminate|].
    split; [exact Hbest|].
    exists notes, lines.
    split; [exact Hn|]. split; [exact Hl|]. split; [|auto].
    destruct (Hhead eq_refl) as [(E & L & _ & Hc)|Hstarted]; [|right; exact Hstarted].
    left. auto.
Qed.

(** C4 -- Single-frame tie-break.  One call either leaves [rep_count] alone,
    or it completes a rep and then starts none: the detector was in the rep
    position and is Ready afterwards, [rep_start_time] is untouched and the
    only notification, if any, is [rep_completed].  After a call that
    completed a rep, a following frame in the rep position starts the next
    one. *)
Theorem single_frame_tie_break (f : Frame) (s : Detector) :
  let s' := fst (on_joints_detected P f s) in
  (rep_count s' = rep_count s \/
   (rep_count s' = rep_count s + 1 /\
    in_rep_position s = true /\
    in_rep_position s' = false /\
    returned_to_start s' = true /\
    rep_start_time s' = rep_start_time s /\
    (notified s' = notified s \/
     exists n m d q, notified s' = notified s ++ [rep_completed n m d q]))) /\
  (forall (f' : Frame) (m : Metrics) (b : bool),
     rep_count s' = rep_count s + 1 ->
     observe P f' = Some (m, true, b) ->
     let s'' := fst (on_joints_detected P f' s') in
     in_rep_position s'' = true /\
     rep_start_time s'' = Some (now f') /\
     rep_count s'' = rep_count s').
Proof.
  intros s'. pose proof (call_effect f s) as E. fold s' in E. split.
  - destruct E; auto 10.
  - intros f' m b Hcount Hf' s''. subst s''.
    assert (in_rep_position s' = false /\ returned_to_start s' = true) as [Hin Hret].
    { destruct E; auto; lia. }
    rewrite (call_entry f' s' m b Hf' Hin Hret). simpl. auto.
Qed.

(** C5 -- Missing-joint frame.  When a required joint is undetected, the call
    returns having only bumped [frames_since_last_rep]: every other attribute,
    the log and the notifications are as before, and the result does not
    depend on the profile, so no predicate was consulted.  On every call the
    counter is bumped: it ends one higher, or at 0 when the call completed a
    rep. *)
Theorem missing_joint_frame (f : Frame) (s : Detector) :
  In None (map snd (required_joints f)) ->
  let r := on_joints_detected P f s in
  r = (tick s, Ok tt) /\
  frames_since_last_rep (fst r) = frames_since_last_rep s + 1 /\
  rep_count (fst r) = rep_count s /\
  in_rep_position (fst r) = in_rep_position s /\
  returned_to_start (fst r) = returned_to_start s /\
  current_metrics (fst r) = current_metrics s /\
  best_metrics (fst r) = best_metrics s /\
  rep_start_time (fst r) = rep_start_time s /\
  log_file (fst r) = log_file s /\
  notified (fst r) = notified s /\
  (forall P' : Profile Position Metrics, on_joints_detected P' f s = r) /\
  (forall (g : Frame) (t : Detector),
     let t' := fst (on_joints_detected P g t) in
     frames_since_last_rep t' = frames_since_last_rep t + 1 \/
     (rep_count t' = rep_count t + 1 /\ frames_since_last_rep t' = 0)).
Proof.
  intros Hnone r. subst r.
  apply all_joints_detected_false in Hnone.
  rewrite (call_skip f s Hnone). simpl.
  repeat split.
  - intros P'. open_call. rewrite Hnone. reflexivity.
  - intros g t. destruct (call_effect g t); auto.
Qed.

(** C8 -- Sink failure.  When a return to start completes a rep and the
    append to the log fails, the call raises [OSError] with [rep_count]
    already incremented, [frames_since_last_rep] already 0 and the detector
    Ready; nothing was appended and [on_rep_completed] was not called.  The
    counters and flags are those of the same call with a working sink.
    Whatever the state, [_complete_rep] has counted and reset the cooldown
    before it gets to the log. *)
Theorem sink_failure_keeps_count (f : Frame) (s : Detector) (m : Metrics)
    (in_pos : bool) (t0 : Z) (q : string) :
  observe P f = Some (m, in_pos, true) ->
  in_rep_position s = true ->
  cooldown_frames P <= frames_since_last_rep (tick s) ->
  rep_start_time s = Some t0 ->
  assess_rep_quality P (best_metrics s) = Ok q ->
  sink_ok f = false ->
  let r := on_joints_detected P f s in
  let r_ok := on_joints_detected P
                {| required_joints := required_joints f; now := now f; sink_ok := true |} s in
  snd r = Raise OSError /\
  rep_count (fst r) = rep_count s + 1 /\
  frames_since_last_rep (fst r) = 0 /\
  in_rep_position (fst r) = false /\
  returned_to_start (fst r) = true /\
  log_file (fst r) = log_file s /\
  notified (fst r) = notified s /\
  (snd r_ok = Ok tt /\
   rep_count (fst r) = rep_count (fst r_ok) /\
   frames_since_last_rep (fst r) = frames_since_last_rep (fst r_ok) /\
   in_rep_position (fst r) = in_rep_position (fst r_ok) /\
   returned_to_start (fst r) = returned_to_start (fst r_ok) /\
   rep_start_time (fst r) = rep_start_time (fst r_ok) /\
   current_metrics (fst r) = current_metrics (fst r_ok) /\
   best_metrics (fst r) = best_metrics (fst r_ok)) /\
  (forall t : Detector,
     rep_count (fst (_complete_rep P f t)) = rep_count t + 1 /\
     frames_since_last_rep (fst (_complete_rep P f t)) = 0 /\
     log_file (fst (_complete_rep P f t)) = log_file t).
Proof.
  intros Hf Hin Hcd Ht Hq Hsink r r_ok. subst r r_ok.
  assert (Hf' : observe P {| required_joints := required_joints f; now := now f;
                             sink_ok := true |} = Some (m, in_pos, true)) by exact Hf.
  rewrite (call_return_counted f s m in_pos Hf Hin Hcd).
  rewrite (call_return_counted _ s m in_pos Hf' Hin Hcd).
  open_call. simpl. rewrite Ht, Hq, Hsink. simpl.
  repeat split.
  - destruct (rep_start_time t); simpl; [|reflexivity].
    destruct (assess_rep_quality P (best_metrics t)); simpl; [|reflexivity].
    reflexivity.
  - destruct (rep_start_time t); simpl; [|reflexivity].
    destruct (assess_rep_quality P (best_metrics t)); simpl; [|reflexivity].
    reflexivity.
  - destruct (rep_start_time t); simpl; [|reflexivity].
    destruct (assess_rep_quality P (best_metrics t)); simpl; [|reflexivity].
    reflexivity.
Qed.

(** The flags move together. *)
Lemma reachable_flags (s : Detector) :
  reachable P s -> in_rep_position s = negb (returned_to_start s).
Proof.
  induction 1 as [|f s _ IH]; [reflexivity|].
  destruct (call_effect f s) as [? Hi Hr|? ? ? Hi Hr|? Hi Hr|? Hi Hr];
    rewrite Hi, Hr; auto.
Qed.

(** C9 -- Complementary flags.  In every state a detector can reach from
    construction, [in_rep_position] is true exactly when [returned_to_start]
    is false.  So [get_instruction] only ever selects the in-position or the
    ready instruction, and the status line of [get_stats] is never
    ["Must return"]. *)
Theorem complementary_flags (s : Detector) :
  reachable P s ->
  (in_rep_position s = true <-> returned_to_start s = false) /\
  get_instruction P s =
    (if in_rep_position s then get_in_position_instruction P
     else get_ready_instruction P) /\
  (forall running : bool,
     web_server.status (web_server.get_stats P (Some s) running) <> "Must return"%string /\
     web_server.instruction (web_server.get_stats P (Some s) running) =
       if running
       then if in_rep_position s then get_in_position_instruction P
            else get_ready_instruction P
       else "Select an exercise and press Start"%string).
Proof.
  intros Hs. apply reachable_flags in Hs.
  unfold get_instruction, web_server.get_stats.
  destruct (in_rep_position s), (returned_to_start s); try discriminate Hs;
    (split; [split; auto|]); (split; [reflexivity|]);
    intros [|]; simpl; split; try reflexivity; discriminate.
Qed.


End RepMachine.

(** ** The squat scenario *)

Import BaseExerciseDetector.
Import SquatDetector (after, best_depth, snapshot, standing, squatting, rising).

(** C2 -- End-to-end scenario.  A fresh detector with the squat predicates and
    merge and [cooldown_frames = 2], fed the readings (170, 0.30),
    (170, 0.30), (95, 0.10), (90, 0.08), (95, 0.10), (170, 0.30): it is Ready
    through frame 2, enters the rep position at frame 3, has best depth 0.08
    from frame 4 on, stays in position at frame 5, and is back Ready at
    frame 6, where the one and only rep is counted, logged and notified with
    best depth 0.08. *)
Theorem squat_scenario :
  (in_rep_position (after 0) = false /\ returned_to_start (after 0) = true /\
   frames_since_last_rep (after 0) = 2) /\
  (in_rep_position (after 1) = false /\ in_rep_position (after 2) = false) /\
  (in_rep_position (after 3) = true /\ returned_to_start (after 3) = false /\
   rep_start_time (after 3) = Some 3 /\ best_depth (after 3) = Some (10 # 100)%Q) /\
  (in_rep_position (after 4) = true /\ best_depth (after 4) = Some (8 # 100)%Q) /\
  (in_rep_position (after 5) = true /\ best_depth (after 5) = Some (8 # 100)%Q) /\
  (in_rep_position (after 6) = false /\ returned_to_start (after 6) = true) /\
  map (fun n => rep_count (after n)) [0; 1; 2; 3; 4; 5; 6]%nat = [0; 0; 0; 0; 0; 0; 1] /\
  run SquatDetector.squat_like SquatDetector.scenario (init SquatDetector.squat_like)
    = (after 6, Ok tt) /\
  notified (after 6) =
    [ rep_started (snapshot 95 (10 # 100));
      rep_completed 1 (snapshot 90 (8 # 100)) 3 "Excellent - ATG (Ass to Grass)" ] /\
  log_file (after 6) =
    [ {| entry_timestamp := 6; entry_rep_num := 1; entry_duration := 3;
         entry_quality := "Excellent - ATG (Ass to Grass)" |} ].
Proof. repeat apply conj; vm_compute; reflexivity. Qed.

(** ** The debounced edge detectors *)

Lemma app_one_neq {A} (l : list A) (x : A) : l <> l ++ [x].
Proof.
  intros H. apply (f_equal (@length A)) in H.
  rewrite length_app in H. simpl in H. lia.
Qed.

Section Crossing.

Import JointCrossingHandler.

Lemma crossing_cooldown (f : Frame) (h : Handler) :
  cooldown_frames (on_joints_detected f h) = cooldown_frames h.
Proof.
  unfold on_joints_detected.
  destruct (joint1_pos f), (joint2_pos f); simpl; try reflexivity.
  destruct (last_relative_position h); simpl; try reflexivity.
  destruct (_ && _); reflexivity.
Qed.

(** Either the call fires, with the counter back at 0, or it only bumps the
    counter. *)
Lemma crossing_effect (f : Frame) (h : Handler) :
  let h' := on_joints_detected f h in
  (fired h' = fired h /\
   frames_since_last_event h' = frames_since_last_event h + 1) \/
  (fires_on f h /\ frames_since_last_event h' = 0).
Proof.
  unfold fires_on, on_joints_detected.
  destruct (joint1_pos f), (joint2_pos f); simpl; auto.
  destruct (last_relative_position h); simpl; auto.
  destruct (_ && _); simpl; eauto.
Qed.

(** One call on a frame of the signal sequence, for a handler on the x axis. *)
Lemma crossing_signal (v : Q) (h : Handler) :
  axis_idx h = 0%nat ->
  let h' := on_joints_detected (signal_frame v) h in
  cooldown_frames h' = cooldown_frames h /\
  axis_idx h' = 0%nat /\
  option_map sign (last_relative_position h') = Some (sign v) /\
  if match option_map sign (last_relative_position h) with
     | Some s => negb (s =? sign v)
     | None => false
     end && (cooldown_frames h <=? frames_since_last_event h + 1)
  then length (fired h') = S (length (fired h)) /\ frames_since_last_event h' = 0
  else length (fired h') = length (fired h) /\
       frames_since_last_event h' = frames_since_last_event h + 1.
Proof.
  intros Hx. unfold on_joints_detected, signal_frame. simpl. rewrite Hx. simpl.
  assert (Hv : sign (v - 0) = sign v).
  { unfold sign. destruct v as [n d]. simpl. rewrite Z.mul_1_r, Z.add_0_r. reflexivity. }
  rewrite Hv.
  destruct (last_relative_position h) as [last|]; simpl.
  - destruct (negb (sign last =? sign v) && _); simpl.
    + rewrite length_app. simpl. repeat split; auto. lia.
    + auto.
  - auto.
Qed.

(** The call on a frame with both joints, for a handler with a stored
    relative position. *)
Lemma crossing_fires_iff (f : Frame) (h : Handler) (last : Q) (j1 j2 : Position) :
  last_relative_position h = Some last ->
  joint1_pos f = Some j1 -> joint2_pos f = Some j2 ->
  let current := (coord j1 (axis_idx h) - coord j2 (axis_idx h))%Q in
  let h' := on_joints_detected f h in
  (fires_on f h <->
     sign last <> sign current /\
     cooldown_frames h <= frames_since_last_event h + 1) /\
  (fires_on f h -> frames_since_last_event h' = 0) /\
  (~ fires_on f h -> fired h' = fired h) /\
  last_relative_position h' = Some current.
Proof.
  intros Hlast H1 H2 current h'.
  subst h'. unfold fires_on, on_joints_detected. rewrite H1, H2. simpl.
  rewrite Hlast. fold current.
  destruct (Z.eqb_spec (sign last) (sign current)) as [Hs|Hs]; simpl.
  + (* same sign *)
    split; [split|split; [|split]].
    * intros [c Hc]. exfalso. exact (app_one_neq _ _ Hc).
    * intros [Hne _]. contradiction.
    * intros [c Hc]. exfalso. exact (app_one_neq _ _ Hc).
    * reflexivity.
    * reflexivity.
  + destruct (Z.leb_spec (cooldown_frames h) (frames_since_last_event h + 1)); simpl.
    * (* sign change, cooldown elapsed *)
      split; [split|split; [|split]].
      -- auto.
      -- eauto.
      -- reflexivity.
      -- intros Hno. exfalso. apply Hno. eauto.
      -- reflexivity.
    * (* sign change, too early *)
      split; [split|split; [|split]].
      -- intros [c Hc]. exfalso. exact (app_one_neq _ _ Hc).
      -- intros [_ Hcd]. lia.
      -- intros [c Hc]. exfalso. exact (app_one_neq _ _ Hc).
      -- reflexivity.
      -- reflexivity.
Qed.

(** The axis a handler was constructed with is the coordinate it reads, also
    after any number of calls. *)
Lemma crossing_axis (f : Frame) (h : Handler) :
  axis_idx (on_joints_detected f h) = axis_idx h /\
  axis (on_joints_detected f h) = axis h.
Proof.
  unfold on_joints_detected.
  destruct (joint1_pos f), (joint2_pos f); simpl; auto.
  destruct (last_relative_position h); simpl; auto.
  destruct (_ && _); auto.
Qed.

Lemma crossing_init_reads (joint1_name joint2_name axis_name : string) (cooldown : Z)
    (h0 : Handler) (frames : list Frame) (pos : Position) :
  init joint1_name joint2_name axis_name cooldown = Ok h0 ->
  (axis_name = "x" \/ axis_name = "y" \/ axis_name = "z")%string /\
  axis (run frames h0) = axis_name /\
  coord pos (axis_idx (run frames h0)) = along axis_name pos.
Proof.
  intros Hinit.
  assert (H0 : (axis_name = "x" \/ axis_name = "y" \/ axis_name = "z")%string /\
               axis h0 = axis_name /\ coord pos (axis_idx h0) = along axis_name pos).
  { unfold init, axis_map in Hinit. unfold along.
    destruct (String.eqb_spec axis_name "x") as [->|Hx].
    - vm_compute in Hinit. injection Hinit as <-. auto.
    - destruct (String.eqb_spec axis_name "y") as [->|Hy].
      + vm_compute in Hinit. injection Hinit as <-. auto.
      + rewrite lookup_insert_ne in Hinit by congruence.
        rewrite lookup_insert_ne in Hinit by congruence.
        destruct (String.eqb_spec axis_name "z") as [->|Hz].
        * vm_compute in Hinit. injection Hinit as <-. auto.
        * rewrite lookup_insert_ne in Hinit by congruence.
          rewrite lookup_empty in Hinit. discriminate. }
  destruct H0 as [Hvalid H0]. split; [exact Hvalid|].
  revert H0. generalize h0. clear Hinit h0.
  induction frames as [|f frames IH]; intros h0 H0; [exact H0|].
  simpl. apply IH. destruct (crossing_axis f h0) as [-> ->]. exact H0.
Qed.

(** One call on a frame of the signal sequence of an axis, for a handler on
    that axis. *)
Lemma crossing_signal_on (axis_name : string) (v : Q) (h : Handler) :
  (axis_name = "x" \/ axis_name = "y" \/ axis_name = "z")%string ->
  (forall pos, coord pos (axis_idx h) = along axis_name pos) ->
  let h' := on_joints_detected (signal_frame_on axis_name v) h in
  cooldown_frames h' = cooldown_frames h /\
  axis_idx h' = axis_idx h /\
  option_map sign (last_relative_position h') = Some (sign v) /\
  if match option_map sign (last_relative_position h) with
     | Some s => negb (s =? sign v)
     | None => false
     end && (cooldown_frames h <=? frames_since_last_event h + 1)
  then length (fired h') = S (length (fired h)) /\ frames_since_last_event h' = 0
  else length (fired h') = length (fired h) /\
       frames_since_last_event h' = frames_since_last_event h + 1.
Proof.
  intros Hvalid Hreads. unfold on_joints_detected, signal_frame_on. simpl.
  rewrite !Hreads.
  assert (Hv : sign (along axis_name
                       {| px := if String.eqb axis_name "x" then v else 1;
                          py := if String.eqb axis_name "y" then v else 1;
                          pz := if String.eqb axis_name "z" then v else 1 |}
                     - along axis_name {| px := 0; py := 0; pz := 0 |}) = sign v).
  { unfold sign.
    destruct Hvalid as [E|[E|E]]; rewrite E; unfold along; simpl;
      destruct v as [n d]; simpl; rewrite Z.mul_1_r, Z.add_0_r; reflexivity. }
  rewrite Hv.
  destruct (last_relative_position h) as [last|]; simpl.
  - destruct (negb (sign last =? sign v) && _); simpl.
    + rewrite length_app. simpl. repeat split; auto. lia.
    + auto.
  - auto.
Qed.

(** The signal sequence on any of the three axes: firings after each of the
    five frames. *)
Lemma crossing_signals_on (joint1_name joint2_name axis_name : string) (cooldown : Z)
    (h0 : Handler) :
  cooldown <= 2 ->
  init joint1_name joint2_name axis_name cooldown = Ok h0 ->
  map (fun n => length (fired (run (firstn n (signals_on axis_name)) h0)))
    [1; 2; 3; 4; 5]%nat = [0; 0; 1; 1; 2]%nat.
Proof.
  intros Hcd Hinit.
  assert (R0 : forall pos, coord pos (axis_idx h0) = along axis_name pos).
  { intros pos. exact (proj2 (proj2 (crossing_init_reads _ _ _ _ h0 [] pos Hinit))). }
  assert (V : (axis_name = "x" \/ axis_name = "y" \/ axis_name = "z")%string).
  { exact (proj1 (crossing_init_reads _ _ _ _ h0 [] {| px := 0; py := 0; pz := 0 |} Hinit)). }
  assert (C0 : cooldown_frames h0 = cooldown /\ frames_since_last_event h0 = cooldown /\
               last_relative_position h0 = None /\ fired h0 = []).
  { unfold init in Hinit. destruct (axis_map !! axis_name); [|discriminate].
    injection Hinit as <-. auto. }
  destruct C0 as (C0 & E0 & L0 & F0).
  cbv delta [run signals_on]. cbn [firstn fold_left map].
  set (h1 := on_joints_detected (signal_frame_on axis_name 1) h0).
  set (h2 := on_joints_detected (signal_frame_on axis_name 1) h1).
  set (h3 := on_joints_detected (signal_frame_on axis_name (-1)) h2).
  set (h4 := on_joints_detected (signal_frame_on axis_name (-1)) h3).
  set (h5 := on_joints_detected (signal_frame_on axis_name 1) h4).
  destruct (crossing_signal_on axis_name 1 h0 V R0) as (C1 & X1 & L1 & E1).
  fold h1 in C1, X1, L1, E1. clearbody h1.
  rewrite L0 in E1. simpl in E1. destruct E1 as [F1 E1].
  assert (R1 : forall pos, coord pos (axis_idx h1) = along axis_name pos)
    by (intros pos; rewrite X1; apply R0).
  destruct (crossing_signal_on axis_name 1 h1 V R1) as (C2 & X2 & L2 & E2).
  fold h2 in C2, X2, L2, E2. clearbody h2.
  rewrite L1 in E2. simpl in E2. destruct E2 as [F2 E2].
  assert (R2 : forall pos, coord pos (axis_idx h2) = along axis_name pos)
    by (intros pos; rewrite X2; apply R1).
  destruct (crossing_signal_on axis_name (-1) h2 V R2) as (C3 & X3 & L3 & E3).
  fold h3 in C3, X3, L3, E3. clearbody h3.
  rewrite L2 in E3. simpl negb in E3.
  destruct (Z.leb_spec (cooldown_frames h2) (frames_since_last_event h2 + 1));
    [|lia]. simpl in E3. destruct E3 as [F3 E3].
  assert (R3 : forall pos, coord pos (axis_idx h3) = along axis_name pos)
    by (intros pos; rewrite X3; apply R2).
  destruct (crossing_signal_on axis_name (-1) h3 V R3) as (C4 & X4 & L4 & E4).
  fold h4 in C4, X4, L4, E4. clearbody h4.
  rewrite L3 in E4. simpl in E4. destruct E4 as [F4 E4].
  assert (R4 : forall pos, coord pos (axis_idx h4) = along axis_name pos)
    by (intros pos; rewrite X4; apply R3).
  destruct (crossing_signal_on axis_name 1 h4 V R4) as (C5 & X5 & L5 & E5).
  fold h5 in C5, X5, L5, E5. clearbody h5.
  rewrite L4 in E5. simpl negb in E5.
  destruct (Z.leb_spec (cooldown_frames h4) (frames_since_last_event h4 + 1));
    [|lia]. simpl in E5. destruct E5 as [F5 E5].
  rewrite F5, F4, F3, F2, F1, F0. reflexivity.
Qed.

(** C6 -- Sign-crossing detector.  With no previous relative position stored
    a call never fires.  With one stored and both joints detected, the call
    fires exactly when the sign of [joint1[axis] - joint2[axis]] differs from
    the sign of the stored value and [frames_since_last_event], as bumped by
    the call, is at least [cooldown_frames]; a firing resets
    [frames_since_last_event] to 0.  This holds with the relative position
    written as the handler computes it, and, for a handler constructed on the
    axis x, y or z and run on any frames, with the relative position written
    as the difference of the x, y or z coordinates of the two joints.  On the
    signals +1, +1, -1, -1, +1, on the x axis and on any axis with the other
    coordinates kept still, a fresh handler whose cooldown is at most the two
    frames between the sign changes fires at the third and at the fifth
    frame: 2 firings. *)
Theorem crossing_fires_on_sign_change :
  (forall (f : Frame) (h : Handler),
     last_relative_position h = None ->
     fired (on_joints_detected f h) = fired h) /\
  (forall (f : Frame) (h : Handler) (last : Q) (j1 j2 : Position),
     last_relative_position h = Some last ->
     joint1_pos f = Some j1 -> joint2_pos f = Some j2 ->
     let current := (coord j1 (axis_idx h) - coord j2 (axis_idx h))%Q in
     let h' := on_joints_detected f h in
     (fires_on f h <->
        sign last <> sign current /\
        cooldown_frames h <= frames_since_last_event h + 1) /\
     (fires_on f h -> frames_since_last_event h' = 0) /\
     (~ fires_on f h -> fired h' = fired h) /\
     last_relative_position h' = Some current) /\
  (forall (joint1_name joint2_name : string) (cooldown : Z) (h0 : Handler),
     cooldown <= 2 ->
     init joint1_name joint2_name "x" cooldown = Ok h0 ->
     map (fun n => length (fired (run (firstn n signals) h0))) [1; 2; 3; 4; 5]%nat
       = [0; 0; 1; 1; 2]%nat) /\
  (forall (joint1_name joint2_name axis_name : string) (cooldown : Z) (h0 : Handler)
          (frames : list Frame) (f : Frame) (last : Q) (j1 j2 : Position),
     init joint1_name joint2_name axis_name cooldown = Ok h0 ->
     let h := run frames h0 in
     last_relative_position h = Some last ->
     joint1_pos f = Some j1 -> joint2_pos f = Some j2 ->
     let current := (along axis_name j1 - along axis_name j2)%Q in
     let h' := on_joints_detected f h in
     axis h = axis_name /\
     (fires_on f h <->
        sign last <> sign current /\
        cooldown_frames h <= frames_since_last_event h + 1) /\
     (fires_on f h -> frames_since_last_event h' = 0) /\
     (~ fires_on f h -> fired h' = fired h) /\
     last_relative_position h' = Some current) /\
  (forall (joint1_name joint2_name axis_name : string) (cooldown : Z) (h0 : Handler),
     cooldown <= 2 ->
     init joint1_name joint2_name axis_name cooldown = Ok h0 ->
     map (fun n => length (fired (run (firstn n (signals_on axis_name)) h0)))
       [1; 2; 3; 4; 5]%nat = [0; 0; 1; 1; 2]%nat).
Proof.
  split; [|split; [|split; [|split]]].
  - intros f h Hlast. unfold on_joints_detected.
    destruct (joint1_pos f), (joint2_pos f); simpl; try reflexivity.
    rewrite Hlast. reflexivity.
  - exact crossing_fires_iff.
  - intros n1 n2 cooldown h0 Hcd Hinit.
    vm_compute in Hinit. injection Hinit as <-.
    cbv delta [run signals]. cbn [firstn fold_left map].
    match goal with |- context [on_joints_detected (signal_frame 1) ?h] =>
      set (h0 := h) end.
    set (h1 := on_joints_detected (signal_frame 1) h0).
    set (h2 := on_joints_detected (signal_frame 1) h1).
    set (h3 := on_joints_detected (signal_frame (-1)) h2).
    set (h4 := on_joints_detected (signal_frame (-1)) h3).
    set (h5 := on_joints_detected (signal_frame 1) h4).
    destruct (crossing_signal 1 h0 eq_refl) as (C1 & X1 & L1 & E1).
    fold h1 in C1, X1, L1, E1. clearbody h1.
    simpl in C1, E1. destruct E1 as [F1 E1].
    destruct (crossing_signal 1 h1 X1) as (C2 & X2 & L2 & E2).
    fold h2 in C2, X2, L2, E2. clearbody h2.
    rewrite L1 in E2. simpl in E2. destruct E2 as [F2 E2].
    destruct (crossing_signal (-1) h2 X2) as (C3 & X3 & L3 & E3).
    fold h3 in C3, X3, L3, E3. clearbody h3.
    rewrite L2 in E3. simpl negb in E3.
    destruct (Z.leb_spec (cooldown_frames h2) (frames_since_last_event h2 + 1));
      [|lia]. simpl in E3. destruct E3 as [F3 E3].
    destruct (crossing_signal (-1) h3 X3) as (C4 & X4 & L4 & E4).
    fold h4 in C4, X4, L4, E4. clearbody h4.
    rewrite L3 in E4. simpl in E4. destruct E4 as [F4 E4].
    destruct (crossing_signal 1 h4 X4) as (C5 & X5 & L5 & E5).
    fold h5 in C5, X5, L5, E5. clearbody h5.
    rewrite L4 in E5. simpl negb in E5.
    destruct (Z.leb_spec (cooldown_frames h4) (frames_since_last_event h4 + 1));
      [|lia]. simpl in E5. destruct E5 as [F5 E5].
    rewrite F5, F4, F3, F2, F1. reflexivity.
  - intros n1 n2 ax c h0 frames f last j1 j2 Hinit h Hlast H1 H2 current h'.
    destruct (crossing_init_reads n1 n2 ax c h0 frames j1 Hinit) as (_ & Hax & R1).
    destruct (crossing_init_reads n1 n2 ax c h0 frames j2 Hinit) as (_ & _ & R2).
    split; [exact Hax|].
    subst current h'. rewrite <- R1, <- R2.
    exact (crossing_fires_iff f h last j1 j2 Hlast H1 H2).
  - exact crossing_signals_on.
Qed.

(** With the default cooldown of 30 frames the second sign change of that
    sequence comes too early: one firing only. *)
Lemma crossing_default_cooldown (h0 : Handler) :
  init "LEFT_WRIST" "RIGHT_WRIST" "x" 30 = Ok h0 ->
  length (fired (run signals h0)) = 1%nat.
Proof. intros H. vm_compute in H. injection H as <-. vm_compute. reflexivity. Qed.

Lemma crossing_run_snoc (frames : list Frame) (f : Frame) (h0 : Handler) :
  run (frames ++ [f]) h0 = on_joints_detected f (run frames h0).
Proof. unfold run. rewrite fold_left_app. reflexivity. Qed.



End Crossing.

Section Proximity.

Import JointProximityHandler.

Context {Pos : Type}.
Variable norm_diff : Pos -> Pos -> Q.

Abbreviation Handler := (Handler Pos).
Abbreviation Frame := (Frame Pos).
Abbreviation step := (on_joints_detected norm_diff).
Abbreviation run := (run norm_diff).

Lemma proximity_run_snoc (frames : list Frame) (f : Frame) (h0 : Handler) :
  run (frames ++ [f]) h0 = step f (run frames h0).
Proof. unfold JointProximityHandler.run. rewrite fold_left_app. reflexivity. Qed.

Lemma proximity_config (f : Frame) (h : Handler) :
  cooldown_frames (step f h) = cooldown_frames h /\
  threshold_distance (step f h) = threshold_distance h.
Proof.
  unfold on_joints_detected.
  destruct (joint1_pos f), (joint2_pos f); simpl; auto.
  destruct (_ && _); auto.
Qed.

Lemma proximity_run_config (frames : list Frame) (h0 : Handler) :
  cooldown_frames (run frames h0) = cooldown_frames h0 /\
  threshold_distance (run frames h0) = threshold_distance h0.
Proof.
  induction frames as [|f frames [IHc IHt]] using rev_ind; [auto|].
  rewrite proximity_run_snoc.
  destruct (proximity_config f (run frames h0)) as [-> ->]. auto.
Qed.

(** Either the call fires, with the counter back at 0, or it only bumps the
    counter. *)
Lemma proximity_effect (f : Frame) (h : Handler) :
  (fired (step f h) = fired h /\
   frames_since_last_event (step f h) = frames_since_last_event h + 1) \/
  (fires_on norm_diff f h /\ frames_since_last_event (step f h) = 0).
Proof.
  unfold fires_on, on_joints_detected.
  destruct (joint1_pos f), (joint2_pos f); simpl; auto.
  destruct (_ && _); simpl; eauto.
Qed.

(** A processed frame fires exactly on the rising edge of [is_close], once
    the debounce has elapsed. *)
Lemma proximity_fires_iff (f : Frame) (h : Handler) (d : Q) :
  distance_of norm_diff f = Some d ->
  fires_on norm_diff f h <->
    was_close h = false /\
    (d < threshold_distance h)%Q /\
    cooldown_frames h <= frames_since_last_event h + 1.
Proof.
  unfold distance_of, fires_on, on_joints_detected.
  destruct (joint1_pos f) as [j1|], (joint2_pos f) as [j2|]; try discriminate.
  intros [= <-]. simpl. rewrite <- Qltb_lt.
  destruct (Qltb (norm_diff j1 j2) (threshold_distance h)), (was_close h); simpl;
    try (split; [intros [c Hc]; exfalso; exact (app_one_neq _ _ Hc)
                | intros (? & ? & ?); discriminate]).
  destruct (Z.leb_spec (cooldown_frames h) (frames_since_last_event h + 1)); simpl.
  - split; eauto.
  - split; [intros [c Hc]; exfalso; exact (app_one_neq _ _ Hc) | intros (_ & _ & ?); lia].
Qed.

Lemma last_processed_distance_snoc (frames : list Frame) (f : Frame) :
  last_processed_distance norm_diff (frames ++ [f]) =
    match distance_of norm_diff f with
    | Some d => Some d
    | None => last_processed_distance norm_diff frames
    end.
Proof. unfold last_processed_distance. rewrite fold_left_app. reflexivity. Qed.

(** [was_close] remembers the last processed frame. *)
Lemma proximity_was_close (frames : list Frame) (h0 : Handler) :
  was_close h0 = false ->
  was_close (run frames h0) =
    match last_processed_distance norm_diff frames with
    | Some d => Qltb d (threshold_distance h0)
    | None => false
    end.
Proof.
  intros H0. induction frames as [|f frames IH] using rev_ind; [exact H0|].
  rewrite proximity_run_snoc, last_processed_distance_snoc.
  destruct (proximity_run_config frames h0) as [_ Ht].
  unfold distance_of, on_joints_detected.
  destruct (joint1_pos f), (joint2_pos f); simpl; try exact IH.
  rewrite Ht. reflexivity.
Qed.

(** C7, as the code has it -- Proximity detector, rising edge only.  For a
    fresh handler a processed frame fires exactly when its distance is below
    the threshold, the previous processed frame, if there is one, was at or
    beyond the threshold, and [frames_since_last_event], as bumped by the
    call, is at least [cooldown_frames]; with no frame processed before,
    [was_close] is still [False] and a first frame below the threshold fires.
    A frame on which the distance stays below the threshold never fires.  On
    the distances 0.3, 0.05, 0.04, 0.3 against the threshold 0.1 a fresh
    handler fires once, at the second frame, whatever its cooldown. *)
Theorem proximity_rising_edge :
  (forall (joint1_name joint2_name : string) (threshold : Q) (cooldown : Z),
     rising_edge norm_diff (init joint1_name joint2_name threshold cooldown)) /\
  (forall (joint1_name joint2_name : string) (cooldown : Z) (f1 f2 f3 f4 : Frame),
     distance_of norm_diff f1 = Some (3 # 10)%Q ->
     distance_of norm_diff f2 = Some (5 # 100)%Q ->
     distance_of norm_diff f3 = Some (4 # 100)%Q ->
     distance_of norm_diff f4 = Some (3 # 10)%Q ->
     map (fun n => length (fired (run (firstn n [f1; f2; f3; f4])
                                    (init joint1_name joint2_name (1 # 10) cooldown))))
       [1; 2; 3; 4]%nat = [0; 1; 1; 1]%nat).
Proof.
  split.
  - intros n1 n2 thr c frames f d Hd.
    rewrite (proximity_fires_iff f _ d Hd).
    destruct (proximity_run_config frames (init n1 n2 thr c)) as [-> ->].
    rewrite (proximity_was_close frames (init n1 n2 thr c) eq_refl).
    destruct (last_processed_distance norm_diff frames) as [dp|].
    + rewrite Qltb_ge. tauto.
    + tauto.
  - intros n1 n2 c f1 f2 f3 f4. unfold distance_of.
    destruct (joint1_pos f1) as [a1|] eqn:A1, (joint2_pos f1) as [b1|] eqn:B1;
      try discriminate.
    destruct (joint1_pos f2) as [a2|] eqn:A2, (joint2_pos f2) as [b2|] eqn:B2;
      try discriminate.
    destruct (joint1_pos f3) as [a3|] eqn:A3, (joint2_pos f3) as [b3|] eqn:B3;
      try discriminate.
    destruct (joint1_pos f4) as [a4|] eqn:A4, (joint2_pos f4) as [b4|] eqn:B4;
      try discriminate.
    intros [= D1] [= D2] [= D3] [= D4].
    unfold JointProximityHandler.run, on_joints_detected, init. simpl.
    rewrite A1, B1, A2, B2, A3, B3, A4, B4. simpl.
    rewrite D1, D2, D3, D4. simpl.
    destruct (Z.leb_spec c (c + 1 + 1)); [|lia].
    reflexivity.
Qed.



End Proximity.

Section Angle.

Import JointAngleHandler.

Context {Pos : Type}.
Variable calculate_angle : Pos -> Pos -> Pos -> Q.

Abbreviation Frame := (Frame Pos).
Abbreviation step := (on_joints_detected calculate_angle).
Abbreviation run := (run calculate_angle).

Lemma angle_run_snoc (frames : list Frame) (f : Frame) (h0 : Handler) :
  run (frames ++ [f]) h0 = step f (run frames h0).
Proof. unfold JointAngleHandler.run. rewrite fold_left_app. reflexivity. Qed.

Lemma angle_config (f : Frame) (h : Handler) :
  cooldown_frames (step f h) = cooldown_frames h /\
  angle_threshold (step f h) = angle_threshold h /\
  comparison (step f h) = comparison h.
Proof.
  unfold on_joints_detected.
  destruct (joint1_pos f), (joint2_pos f), (joint3_pos f); simpl; auto.
  destruct (_ && _ && _); auto.
Qed.


(** Either the call fires, with the counter back at 0, or it only bumps the
    counter. *)
Lemma angle_effect (f : Frame) (h : Handler) :
  (fired (step f h) = fired h /\
   frames_since_last_event (step f h) = frames_since_last_event h + 1) \/
  (fires_on calculate_angle f h /\ frames_since_last_event (step f h) = 0).
Proof.
  unfold fires_on, on_joints_detected.
  destruct (joint1_pos f), (joint2_pos f), (joint3_pos f); simpl; auto.
  destruct (_ && _ && _); simpl; eauto.
Qed.



End Angle.

(** ** The first event *)


(** ** The theorems at work on concrete frames *)

#[local] Abbreviation squat2 := SquatDetector.squat_like.
#[local] Abbreviation squat30 := SquatDetector.squat_30.

Lemma squat_merge_returns (cooldown : Z) (knee_angle squat_depth : Q)
    (best : SquatDetector.Metrics) :
  snd (update_best_metrics (SquatDetector.profile (Position:=Q) cooldown SquatDetector.readings)
         (snapshot knee_angle squat_depth) best) = Ok tt.
Proof.
  simpl. unfold SquatDetector.update_best_metrics, SquatDetector.getitem, snapshot,
    bind, lift, get, modify, ret.
  rewrite lookup_insert_ne by discriminate. rewrite lookup_insert_eq.
  rewrite lookup_insert_eq.
  destruct (Qltb _ _); reflexivity.
Qed.

(** The scenario of C2 as an instance of C1: two standing frames, the entry,
    two frames in the squat, the return. *)
Lemma no_double_counting_witness :
  rep_count (fst (run squat2 ([standing 1; standing 2] ++ rising 3
                               :: [squatting 4; rising 5] ++ standing 6 :: [])
                    (init squat2)))
    = rep_count (init squat2) + 1.
Proof.
  apply (no_double_counting squat2 (init squat2)
           [standing 1; standing 2] [squatting 4; rising 5] [] (rising 3) (standing 6)).
  - reflexivity.
  - reflexivity.
  - repeat constructor; exists (snapshot 170 (30 # 100)), true; vm_compute; reflexivity.
  - exists (snapshot 95 (10 # 100)), false. vm_compute. reflexivity.
  - repeat constructor;
      [ exists (snapshot 90 (8 # 100)), true | exists (snapshot 95 (10 # 100)), true ];
      (split; [vm_compute; reflexivity | intros best; apply squat_merge_returns]).
  - exists (snapshot 170 (30 # 100)), false. vm_compute. reflexivity.
  - vm_compute. discriminate.
  - constructor.
Defined.

(** A rep that comes too soon after the previous one: with the squat's own
    cooldown of 30 frames, a second squat right after the first is entered at
    frame 4 and its return at frame 5 is not counted. *)
Lemma cooldown_suppression_witness :
  let r := on_joints_detected squat30 (standing 5) SquatDetector.second_squat in
  snd r = Ok tt /\
  in_rep_position (fst r) = false /\
  returned_to_start (fst r) = true /\
  rep_count (fst r) = rep_count SquatDetector.second_squat.
Proof.
  destruct (cooldown_suppression squat30 (standing 5) SquatDetector.second_squat
              (snapshot 170 (30 # 100)) false) as (H1 & H2 & H3 & H4 & _).
  - vm_compute. reflexivity.
  - vm_compute. reflexivity.
  - vm_compute. reflexivity.
  - exact (conj H1 (conj H2 (conj H3 H4))).
Defined.

(** The return at frame 6 of the scenario completes a rep and starts none; a
    squat at frame 7 starts the next one. *)
Lemma single_frame_tie_break_witness :
  let s' := fst (on_joints_detected squat2 (standing 6) (SquatDetector.after 5)) in
  let s'' := fst (on_joints_detected squat2 (squatting 7) s') in
  in_rep_position s'' = true /\
  rep_start_time s'' = Some 7 /\
  rep_count s'' = rep_count s'.
Proof.
  apply (proj2 (single_frame_tie_break squat2 (standing 6) (SquatDetector.after 5))
           (squatting 7) (snapshot 90 (8 # 100)) false).
  - vm_compute. reflexivity.
  - vm_compute. reflexivity.
Defined.

(** The knee is seen and the hip is not, while in the squat. *)
Lemma missing_joint_frame_witness :
  on_joints_detected squat2 SquatDetector.hip_lost (SquatDetector.after 3)
    = (tick (SquatDetector.after 3), Ok tt).
Proof.
  apply (missing_joint_frame squat2 SquatDetector.hip_lost (SquatDetector.after 3)).
  simpl. right. left. reflexivity.
Defined.

(** The return at frame 6 of the scenario with a log that cannot be opened. *)
Lemma sink_failure_keeps_count_witness :
  let r := on_joints_detected squat2 SquatDetector.return_unlogged (SquatDetector.after 5) in
  snd r = Raise OSError /\
  rep_count (fst r) = rep_count (SquatDetector.after 5) + 1 /\
  frames_since_last_rep (fst r) = 0.
Proof.
  destruct (sink_failure_keeps_count squat2 SquatDetector.return_unlogged
              (SquatDetector.after 5) (snapshot 170 (30 # 100)) false 3
              "Excellent - ATG (Ass to Grass)") as (H1 & H2 & H3 & _).
  - vm_compute. reflexivity.
  - vm_compute. reflexivity.
  - vm_compute. discriminate.
  - vm_compute. reflexivity.
  - vm_compute. reflexivity.
  - reflexivity.
  - exact (conj H1 (conj H2 H3)).
Defined.

(** The state after the first frame of the scenario. *)
Lemma complementary_flags_witness :
  let s := fst (on_joints_detected squat2 (standing 1) (init squat2)) in
  in_rep_position s = true <-> returned_to_start s = false.
Proof.
  apply (complementary_flags squat2
           (fst (on_joints_detected squat2 (standing 1) (init squat2)))).
  apply reachable_step, reachable_init.
Defined.

(** The signals of C6 with a cooldown of 2 frames, on the x axis and, with
    the x and z coordinates kept at 1, on the y axis. *)
Lemma crossing_fires_on_sign_change_witness :
  let h0 := {| JointCrossingHandler.joint1_name := "LEFT_WRIST";
               JointCrossingHandler.joint2_name := "RIGHT_WRIST";
               JointCrossingHandler.axis := "x";
               JointCrossingHandler.cooldown_frames := 2;
               JointCrossingHandler.last_relative_position := None;
               JointCrossingHandler.frames_since_last_event := 2;
               JointCrossingHandler.axis_idx := 0;
               JointCrossingHandler.fired := [] |} in
  let h0y := {| JointCrossingHandler.joint1_name := "LEFT_WRIST";
                JointCrossingHandler.joint2_name := "RIGHT_WRIST";
                JointCrossingHandler.axis := "y";
                JointCrossingHandler.cooldown_frames := 2;
                JointCrossingHandler.last_relative_position := None;
                JointCrossingHandler.frames_since_last_event := 2;
                JointCrossingHandler.axis_idx := 1;
                JointCrossingHandler.fired := [] |} in
  map (fun n => length (JointCrossingHandler.fired
                          (JointCrossingHandler.run
                             (firstn n JointCrossingHandler.signals) h0)))
    [1; 2; 3; 4; 5]%nat = [0; 0; 1; 1; 2]%nat /\
  map (fun n => length (JointCrossingHandler.fired
                          (JointCrossingHandler.run
                             (firstn n (JointCrossingHandler.signals_on "y")) h0y)))
    [1; 2; 3; 4; 5]%nat = [0; 0; 1; 1; 2]%nat.
Proof.
  intros h0 h0y.
  destruct crossing_fires_on_sign_change as (_ & _ & Hx & _ & Hany).
  split.
  - apply (Hx "LEFT_WRIST" "RIGHT_WRIST" 2 h0)%string.
    + lia.
    + vm_compute. reflexivity.
  - apply (Hany "LEFT_WRIST" "RIGHT_WRIST" "y" 2 h0y)%string.
    + lia.
    + vm_compute. reflexivity.
Defined.

(** The distances of C7 on a line, with the default cooldown. *)
Lemma proximity_rising_edge_witness :
  map (fun n => length (JointProximityHandler.fired
                          (JointProximityHandler.run JointProximityHandler.norm_diff_1d
                             (firstn n [JointProximityHandler.at_distance (3 # 10);
                                        JointProximityHandler.at_distance (5 # 100);
                                        JointProximityHandler.at_distance (4 # 100);
                                        JointProximityHandler.at_distance (3 # 10)])
                             (JointProximityHandler.init "LEFT_WRIST" "RIGHT_WRIST"
                                (1 # 10) 30))))
    [1; 2; 3; 4]%nat = [0; 1; 1; 1]%nat.
Proof.
  apply (proj2 (proximity_rising_edge JointProximityHandler.norm_diff_1d)
           "LEFT_WRIST" "RIGHT_WRIST" 30
           (JointProximityHandler.at_distance (3 # 10))
           (JointProximityHandler.at_distance (5 # 100))
           (JointProximityHandler.at_distance (4 # 100))
           (JointProximityHandler.at_distance (3 # 10)))%string;
    reflexivity.
Defined.

(** C7 as stated fails on the first processed frame: a fresh handler whose
    first frame shows the joints 0.05 apart, against the threshold 0.1, fires,
    and no processed frame came before. *)
Lemma proximity_rising_edge_as_stated_fails :
  ~ JointProximityHandler.rising_edge_as_stated JointProximityHandler.norm_diff_1d
      (JointProximityHandler.init "LEFT_WRIST" "RIGHT_WRIST" (1 # 10) 30).
Proof.
  intros H.
  destruct (H [] (JointProximityHandler.at_distance (5 # 100)) (5 # 100)%Q eq_refl)
    as [Hfires _].
  destruct Hfires as [(d_prev & Hprev & _) _].
  - eexists. vm_compute. reflexivity.
  - discriminate Hprev.
Qed.


(** * Further properties of the code *)

(** ** api/exercises/utils.py *)

Section Utils.

Import utils.

Lemma builtin_min_cases (a b : Q) :
  (Qltb b a = true /\ builtin_min a b = b) \/ (Qltb b a = false /\ builtin_min a b = a).
Proof. unfold builtin_min. destruct (Qltb b a); auto. Qed.

Lemma builtin_max_cases (a b : Q) :
  (Qltb a b = true /\ builtin_max a b = b) \/ (Qltb a b = false /\ builtin_max a b = a).
Proof. unfold builtin_max, Qgtb. destruct (Qltb a b); auto. Qed.

Ltac to_order :=
  repeat match goal with
  | H : Qltb _ _ = true |- _ => apply Qltb_lt in H
  | H : Qltb _ _ = false |- _ => apply Qltb_ge in H
  end.

Ltac clamp_cases value min_val max_val :=
  unfold clamp;
  destruct (builtin_min_cases max_val value) as [[? ->]|[? ->]];
  [ destruct (builtin_max_cases min_val value) as [[? ->]|[? ->]]
  | destruct (builtin_max_cases min_val max_val) as [[? ->]|[? ->]] ];
  to_order.

(** X1 -- Clamp.
    [clamp] with a proper range stays within it and leaves a value of the
    range as it is; clamping twice is clamping once; with [min_val] above
    [max_val] the result is [min_val], whatever the value. *)
Theorem clamp_range :
  (forall value min_val max_val : Q,
     (min_val <= max_val)%Q ->
     (min_val <= clamp value min_val max_val <= max_val)%Q) /\
  (forall value min_val max_val : Q,
     (min_val <= value <= max_val)%Q ->
     (clamp value min_val max_val == value)%Q) /\
  (forall value min_val max_val : Q,
     clamp (clamp value min_val max_val) min_val max_val = clamp value min_val max_val) /\
  (forall value min_val max_val : Q,
     (max_val < min_val)%Q -> clamp value min_val max_val = min_val).
Proof.
  repeat apply conj.
  - intros value min_val max_val Hr. clamp_cases value min_val max_val; lra.
  - intros value min_val max_val Hr. clamp_cases value min_val max_val; lra.
  - intros value min_val max_val.
    clamp_cases value min_val max_val.
    + clamp_cases value min_val max_val; try reflexivity; lra.
    + clamp_cases min_val min_val max_val; try reflexivity; lra.
    + clamp_cases max_val min_val max_val; try reflexivity; lra.
    + clamp_cases min_val min_val max_val; try reflexivity; lra.
  - intros value min_val max_val Hr. clamp_cases value min_val max_val;
      try reflexivity; lra.
Qed.

(** *** Floats *)

Lemma SFadd_comm (x y : SpecFloat.spec_float) :
  SpecFloat.SFadd FloatOps.prec FloatOps.emax x y
    = SpecFloat.SFadd FloatOps.prec FloatOps.emax y x.
Proof.
  destruct x as [sx|sx| |sx mx ex], y as [sy|sy| |sy my ey]; simpl; try reflexivity.
  - destruct sx, sy; reflexivity.
  - destruct sx, sy; reflexivity.
  - rewrite (Z.min_comm ey ex), Z.add_comm. reflexivity.
Qed.

Lemma float_add_comm (x y : float) : PrimFloat.add x y = PrimFloat.add y x.
Proof.
  apply FloatAxioms.Prim2SF_inj. rewrite !FloatAxioms.add_spec. apply SFadd_comm.
Qed.

(** A finite float is a zero or has a mantissa and an exponent. *)
Lemma finite_cases (x : float) :
  PrimFloat.is_finite x = true ->
  (exists s, FloatOps.Prim2SF x = SpecFloat.S754_zero s) \/
  exists s m e, FloatOps.Prim2SF x = SpecFloat.S754_finite s m e.
Proof.
  unfold PrimFloat.is_finite, PrimFloat.is_nan, PrimFloat.is_infinity.
  rewrite !FloatAxioms.eqb_spec, FloatAxioms.abs_spec.
  destruct (FloatOps.Prim2SF x) as [s|s| |s m e]; eauto.
  - destruct s; vm_compute; discriminate.
  - vm_compute. discriminate.
Qed.

Lemma float_sub_finite (x : float) :
  PrimFloat.is_finite x = true ->
  PrimFloat.eqb (PrimFloat.sub x x) PrimFloat.zero = true.
Proof.
  intros H. rewrite FloatAxioms.eqb_spec, FloatAxioms.sub_spec.
  destruct (finite_cases x H) as [[s ->]|(s & m & e & ->)].
  - destruct s; reflexivity.
  - unfold FloatAxioms.SF64sub, SpecFloat.SFsub. rewrite Z.sub_diag. reflexivity.
Qed.

Lemma float_sub_infinite (x : float) :
  PrimFloat.is_infinity x = true -> PrimFloat.sub x x = PrimFloat.nan.
Proof.
  unfold PrimFloat.is_infinity. rewrite FloatAxioms.eqb_spec, FloatAxioms.abs_spec.
  intros H. apply FloatAxioms.Prim2SF_inj. rewrite FloatAxioms.sub_spec.
  replace (FloatOps.Prim2SF PrimFloat.nan) with SpecFloat.S754_nan by reflexivity.
  destruct (FloatOps.Prim2SF x) as [[]|[]| |[] m e]; vm_compute in H;
    try discriminate H; reflexivity.
Qed.

Lemma float_div_nan (x : float) : PrimFloat.div x PrimFloat.nan = PrimFloat.nan.
Proof.
  apply FloatAxioms.Prim2SF_inj. rewrite FloatAxioms.div_spec.
  replace (FloatOps.Prim2SF PrimFloat.nan) with SpecFloat.S754_nan by reflexivity.
  destruct (FloatOps.Prim2SF x); reflexivity.
Qed.

Lemma float_add_nan (x : float) : PrimFloat.add x PrimFloat.nan = PrimFloat.nan.
Proof.
  apply FloatAxioms.Prim2SF_inj. rewrite FloatAxioms.add_spec.
  replace (FloatOps.Prim2SF PrimFloat.nan) with SpecFloat.S754_nan by reflexivity.
  destruct (FloatOps.Prim2SF x); reflexivity.
Qed.

(** X2 -- Bilateral average.
    [calculate_bilateral_average] has no value exactly when both sides have
    none; with one side missing it is the other side; it does not depend on
    which side is called left.  With both sides present it need not lie
    between them: the sum is taken before the halving, and the average of
    two finite sides can be infinite. *)
Theorem bilateral_average_sides :
  (forall l r : option float,
     calculate_bilateral_average l r = None <-> (l = None /\ r = None)) /\
  (forall v : option float,
     calculate_bilateral_average v None = v /\ calculate_bilateral_average None v = v) /\
  (forall l r : option float,
     calculate_bilateral_average l r = calculate_bilateral_average r l) /\
  (exists l r : float,
     PrimFloat.is_finite l = true /\ PrimFloat.is_finite r = true /\
     calculate_bilateral_average (Some l) (Some r) = Some PrimFloat.infinity).
Proof.
  split; [|split; [|split]].
  - intros [l|] [r|]; simpl; split; intros H; try discriminate; auto;
      destruct H; discriminate.
  - intros [v|]; auto.
  - intros [l|] [r|]; simpl; try reflexivity.
    rewrite (float_add_comm l r). reflexivity.
  - exists (float_of_int (2 ^ 1023)), (float_of_int (2 ^ 1023)).
    repeat split; vm_compute; reflexivity.
Qed.

(** X3 -- Range mapping.
    [map_value] raises [ZeroDivisionError], and nothing else, exactly when
    the float difference [from_max - from_min] is a zero, and returns
    otherwise.  The difference is a zero whenever the two bounds are the same
    finite number; when they are the same infinity it is [nan], and
    [map_value] returns [nan] instead of raising. *)
Theorem map_value_range (value from_min from_max to_min to_max : float) :
  (map_value value from_min from_max to_min to_max = Fails ZeroDivisionError
     <-> PrimFloat.eqb (PrimFloat.sub from_max from_min) PrimFloat.zero = true) /\
  (PrimFloat.eqb (PrimFloat.sub from_max from_min) PrimFloat.zero = false ->
     exists y, map_value value from_min from_max to_min to_max = Returns y) /\
  (PrimFloat.is_finite from_min = true -> from_max = from_min ->
     map_value value from_min from_max to_min to_max = Fails ZeroDivisionError) /\
  (PrimFloat.is_infinity from_min = true -> from_max = from_min ->
     map_value value from_min from_max to_min to_max = Returns PrimFloat.nan).
Proof.
  unfold map_value, truediv. split; [|split; [|split]].
  - destruct (PrimFloat.eqb _ _); split; intros H; try reflexivity; discriminate.
  - intros ->. eauto.
  - intros Hfin ->. rewrite (float_sub_finite from_min Hfin). reflexivity.
  - intros Hinf ->. rewrite (float_sub_infinite from_min Hinf).
    replace (PrimFloat.eqb PrimFloat.nan PrimFloat.zero) with false by reflexivity.
    rewrite float_div_nan, float_add_nan. reflexivity.
Qed.

(** *** MovingAverage *)

Import MovingAverage.

Section Sum.

Variable builtin_sum : list float -> float.

Lemma feed_snoc (stream : list float) (v : float) (ma : t) :
  feed builtin_sum (stream ++ [v]) ma = fst (add builtin_sum v (feed builtin_sum stream ma)).
Proof. unfold feed. rewrite fold_left_app. reflexivity. Qed.

Lemma add_window (v : float) (ma : t) :
  window_size (fst (add builtin_sum v ma)) = window_size ma /\
  values (fst (add builtin_sum v ma)) =
    if window_size ma <? Z.of_nat (length (values ma ++ [v]))
    then tail (values ma ++ [v])
    else values ma ++ [v].
Proof.
  unfold add, pop0. simpl.
  destruct (window_size ma <? _); [|auto].
  destruct (values ma ++ [v]) eqn:E; simpl; auto.
Qed.

Lemma feed_window (window : Z) (stream : list float) :
  1 <= window ->
  window_size (feed builtin_sum stream (init window)) = window /\
  values (feed builtin_sum stream (init window))
    = drop (length stream - Z.to_nat window) stream.
Proof.
  intros Hw. induction stream as [|v stream [IHw IHv]] using rev_ind.
  - split; reflexivity.
  - rewrite feed_snoc.
    destruct (add_window v (feed builtin_sum stream (init window))) as [-> ->].
    split; [exact IHw|]. rewrite IHw, IHv, !length_app, length_drop. simpl.
    destruct (Z.ltb_spec window
                (Z.of_nat (length stream - (length stream - Z.to_nat window) + 1))).
    + assert (Hlen : (Z.to_nat window <= length stream)%nat) by lia.
      replace (length stream + 1 - Z.to_nat window)%nat
        with (S (length stream - Z.to_nat window)) by lia.
      rewrite <- drop_app_le by lia.
      replace (S (length stream - Z.to_nat window))
        with ((length stream - Z.to_nat window) + 1)%nat by lia.
      rewrite <- drop_drop. reflexivity.
    + assert (Hlen : (length stream < Z.to_nat window)%nat) by lia.
      replace (length stream - Z.to_nat window)%nat with 0%nat by lia.
      replace (length stream + 1 - Z.to_nat window)%nat with 0%nat by lia.
      reflexivity.
Qed.

(** X4 -- Moving average, window.
    With a window of at least one value, a fresh [MovingAverage] fed a stream
    holds the last [window_size] values of it, all of it while it is shorter.
    Every [add] then returns, and what it returns is the [sum] of the values
    held after it, the last [window_size] values of the stream with the new
    one, divided by their number; [get_average] right after it gives the
    same again. *)
Theorem moving_average_window (window : Z) (stream : list float) :
  1 <= window ->
  let ma := feed builtin_sum stream (init window) in
  window_size ma = window /\
  values ma = drop (length stream - Z.to_nat window) stream /\
  (length (values ma) <= Z.to_nat window)%nat /\
  (forall v : float,
     let held := drop (length (stream ++ [v]) - Z.to_nat window) (stream ++ [v]) in
     let average := PrimFloat.div (builtin_sum held)
                      (float_of_int (Z.of_nat (length held))) in
     held <> [] /\
     values (fst (add builtin_sum v ma)) = held /\
     snd (add builtin_sum v ma) = Returns average /\
     get_average builtin_sum (fst (add builtin_sum v ma)) = Some (Returns average)).
Proof.
  intros Hw ma. subst ma.
  destruct (feed_window window stream Hw) as [Hsize Hvalues].
  split; [exact Hsize|]. split; [exact Hvalues|].
  split; [rewrite Hvalues, length_drop; lia|].
  intros v held average.
  assert (Hheld : values (fst (add builtin_sum v (feed builtin_sum stream (init window))))
                  = held).
  { rewrite <- feed_snoc. exact (proj2 (feed_window window (stream ++ [v]) Hw)). }
  assert (Hne : held <> []).
  { subst held. intros E. apply (f_equal (@length float)) in E.
    rewrite length_drop, length_app in E. simpl in E. lia. }
  split; [exact Hne|]. split; [exact Hheld|].
  assert (Hmean : mean builtin_sum held = Returns average).
  { unfold mean. destruct held; [contradiction | reflexivity]. }
  split.
  - rewrite <- Hmean, <- Hheld. unfold add, pop0. simpl.
    destruct (window_size _ <? _); [|reflexivity].
    destruct (values _ ++ [v]) eqn:E; [|reflexivity].
    destruct (app_cons_not_nil _ _ _ (eq_sym E)).
  - unfold get_average. rewrite Hheld, Hmean.
    destruct held; [contradiction | reflexivity].
Qed.

(** X5 -- Moving average, empty window.
    With a window of zero or less, every [add] drops the value it has just
    appended and raises [ZeroDivisionError]; the window stays empty. *)
Theorem moving_average_no_window (window : Z) (stream : list float) (v : float) :
  window <= 0 ->
  feed builtin_sum stream (init window) = init window /\
  add builtin_sum v (feed builtin_sum stream (init window))
    = (init window, Fails ZeroDivisionError).
Proof.
  intros Hw.
  assert (Hadd : forall x, add builtin_sum x (init window)
                           = (init window, Fails ZeroDivisionError)).
  { intros x. unfold add, pop0, init. simpl.
    destruct (Z.ltb_spec window (Z.of_nat 1)); [reflexivity | simpl in *; lia]. }
  assert (Hfeed : feed builtin_sum stream (init window) = init window).
  { induction stream as [|x stream IH] using rev_ind; [reflexivity|].
    rewrite feed_snoc, IH, Hadd. reflexivity. }
  rewrite Hfeed. auto.
Qed.

End Sum.

End Utils.

(** ** api/exercises/base_exercise.py: more on the rep counting machine *)

Section RepMachineMore.

Context {Position Metrics : Type}.
Variable P : Profile Position Metrics.

Abbreviation Detector := (Detector Metrics).
Abbreviation Frame := (Frame Position).

Ltac open_call :=
  cbv beta iota zeta delta
    [on_joints_detected _complete_rep _log_rep on_rep_started on_rep_completed
     _format_log_entry bind ret get modify raise lift zoom tick].

Lemma reachable_run (frames : list Frame) (s : Detector) :
  reachable P s -> reachable P (fst (run P frames s)).
Proof.
  revert s. induction frames as [|f frames IH]; intros s Hs; [exact Hs|].
  rewrite run_cons. pose proof (reachable_step P f s Hs) as Hs'.
  destruct (on_joints_detected P f s) as [s' [[]|e]]; simpl in *; auto.
Qed.

(** In the rep position the entry time is on record. *)
Lemma reachable_start_time (s : Detector) :
  reachable P s -> in_rep_position s = true -> exists t0, rep_start_time s = Some t0.
Proof.
  induction 1 as [|f s _ IH]; [discriminate|].
  destruct (call_effect P f s) as [_ Hi _ Ht|m _ _ _ _ Ht|_ Hi|_ Hi];
    rewrite ?Hi, ?Ht; eauto; discriminate.
Qed.

(** What a call does to the log: nothing, or one line that carries the new
    count and the clock of the call. *)
Lemma call_log (f : Frame) (s : Detector) :
  let s' := fst (on_joints_detected P f s) in
  (log_file s' = log_file s /\ notified s' = notified s \/
   log_file s' = log_file s /\ (exists m, notified s' = notified s ++ [rep_started m]) \/
   exists t0 q,
     in_rep_position s = true /\
     rep_start_time s = Some t0 /\
     assess_rep_quality P (best_metrics s) = Ok q /\
     rep_count s' = rep_count s + 1 /\
     log_file s' = log_file s ++
       [{| entry_timestamp := now f; entry_rep_num := rep_count s + 1;
           entry_duration := now f - t0; entry_quality := q |}] /\
     notified s' = notified s ++
       [rep_completed (rep_count s + 1) (best_metrics s) (now f - t0) q]).
Proof.
  open_call.
  destruct (utils.all_joints_detected (map snd (required_joints f))); simpl; auto.
  destruct (calculate_metrics P (required_joints f)) as [m|]; simpl; auto.
  destruct (is_in_rep_position P m) as [a|]; simpl; auto.
  destruct (is_at_starting_position P m) as [b|]; simpl; auto.
  destruct (in_rep_position s) eqn:Hin, b; simpl.
  - destruct (cooldown_frames P <=? frames_since_last_rep s + 1); simpl; auto.
    destruct (rep_start_time s) as [t0|] eqn:Ht; simpl; auto.
    destruct (assess_rep_quality P (best_metrics s)) as [q|] eqn:Hq; simpl; auto.
    destruct (sink_ok f); simpl; auto.
    right. right. exists t0, q. auto 10.
  - rewrite andb_false_r. simpl.
    destruct (update_best_metrics P m (best_metrics s)) as [best' r]. simpl. auto.
  - rewrite andb_true_r.
    destruct (a && returned_to_start s); simpl; eauto.
  - rewrite andb_true_r.
    destruct (a && returned_to_start s); simpl; eauto.
Qed.

(** X6 -- Record of a counted rep.
    A return to start of a detector in use, with the cooldown elapsed, a
    grading that returns and a log that can be written: the call returns,
    the log gets one line with the new count, the time since the entry and
    the grade of the best metrics, and [on_rep_completed] is told the same.
    The entry time is always there: [_complete_rep] never fails on it. *)
Theorem finalized_record (f : Frame) (s : Detector) (m : Metrics) (in_pos : bool)
    (q : string) :
  reachable P s ->
  in_rep_position s = true ->
  observe P f = Some (m, in_pos, true) ->
  cooldown_frames P <= frames_since_last_rep s + 1 ->
  assess_rep_quality P (best_metrics s) = Ok q ->
  sink_ok f = true ->
  exists t0,
    rep_start_time s = Some t0 /\
    let r := on_joints_detected P f s in
    snd r = Ok tt /\
    rep_count (fst r) = rep_count s + 1 /\
    log_file (fst r) = log_file s ++
      [{| entry_timestamp := now f; entry_rep_num := rep_count s + 1;
          entry_duration := now f - t0; entry_quality := q |}] /\
    notified (fst r) = notified s ++
      [rep_completed (rep_count s + 1) (best_metrics s) (now f - t0) q].
Proof.
  intros Hs Hin Hf Hcd Hq Hsink.
  destruct (reachable_start_time s Hs Hin) as [t0 Ht]. exists t0. split; [exact Ht|].
  assert (Hcd' : cooldown_frames P <= frames_since_last_rep (tick s)) by (simpl; lia).
  rewrite (call_return_counted P f s m in_pos Hf Hin Hcd').
  open_call. simpl. rewrite Ht, Hq, Hsink. simpl. auto.
Qed.

(** X7 -- Numbering of the lines a detector appends.
    Over any run of frames from any state, [rep_count] does not decrease, and
    the lines the detector appends to its log in the run are numbered
    upwards: their rep numbers are strictly increasing and lie above the
    [rep_count] of the start, up to the [rep_count] of the end; so no number
    is appended twice and at most as many lines are appended as reps are
    counted.  The log may hold lines from before, as a file that existed
    when the detector was constructed does; nothing is said of them. *)
Theorem log_numbering (s : Detector) (frames : list Frame) :
  let s' := fst (run P frames s) in
  rep_count s <= rep_count s' /\
  exists lines,
    log_file s' = log_file s ++ lines /\
    Forall (fun e => rep_count s < entry_rep_num e <= rep_count s') lines /\
    StronglySorted Z.lt (map entry_rep_num lines) /\
    Z.of_nat (length lines) <= rep_count s' - rep_count s.
Proof.
  revert s. induction frames as [|f frames IH]; intros s.
  - simpl. split; [lia|]. exists []. rewrite app_nil_r.
    repeat split; [constructor | constructor | simpl; lia].
  - rewrite run_cons.
    assert (Hcall :
      rep_count s <= rep_count (fst (on_joints_detected P f s)) /\
      (log_file (fst (on_joints_detected P f s)) = log_file s \/
       exists e, rep_count (fst (on_joints_detected P f s)) = rep_count s + 1 /\
                 entry_rep_num e = rep_count s + 1 /\
                 log_file (fst (on_joints_detected P f s)) = log_file s ++ [e])).
    { split.
      - destruct (call_effect P f s) as [Hc|? ? ? ? ? ? ? ? Hc|? ? ? ? Hc|? ? ? ? Hc];
          rewrite Hc; lia.
      - destruct (call_log f s) as [[Hl _]|[[Hl _]|(t0 & q & _ & _ & _ & Hc & Hl & _)]];
          [left; exact Hl | left; exact Hl |].
        right. eexists. split; [exact Hc|]. split; [|exact Hl]. reflexivity. }
    destruct Hcall as [Hmono Hlog].
    assert (Hdone :
      exists lines,
        log_file (fst (on_joints_detected P f s)) = log_file s ++ lines /\
        Forall (fun e => rep_count s < entry_rep_num e
                         <= rep_count (fst (on_joints_detected P f s))) lines /\
        StronglySorted Z.lt (map entry_rep_num lines) /\
        Z.of_nat (length lines) <= rep_count (fst (on_joints_detected P f s)) - rep_count s).
    { destruct Hlog as [Hl|(e & Hc & He & Hl)].
      - exists []. rewrite app_nil_r.
        repeat split; [exact Hl | constructor | constructor | simpl; lia].
      - exists [e]. repeat split; [exact Hl | | | simpl; lia].
        + repeat constructor; lia.
        + repeat constructor. }
    specialize (IH (fst (on_joints_detected P f s))).
    destruct (on_joints_detected P f s) as [s1 [[]|x]]; simpl in *.
    + destruct IH as (IHmono & lines2 & IHl & IHr & IHs & IHn).
      split; [lia|].
      destruct Hlog as [Hl|(e & Hc & He & Hl)].
      * exists lines2. rewrite IHl, Hl.
        repeat split; [ | exact IHs | lia].
        eapply Forall_impl; [exact IHr|]. simpl. intros; lia.
      * exists (e :: lines2). rewrite IHl, Hl, <- app_assoc.
        repeat split; [ | | simpl length; lia].
        -- constructor; [lia|].
           eapply Forall_impl; [exact IHr|]. simpl. intros; lia.
        -- simpl. constructor; [exact IHs|].
           apply Forall_map. eapply Forall_impl; [exact IHr|]. simpl. intros; lia.
    + split; [exact Hmono | exact Hdone].
Qed.

(** While the counter is short of the cooldown, frames count nothing. *)
Lemma run_within_cooldown (frames : list Frame) (s : Detector) :
  0 <= frames_since_last_rep s ->
  frames_since_last_rep s + Z.of_nat (length frames) < cooldown_frames P ->
  let t := fst (run P frames s) in
  rep_count t = rep_count s /\
  0 <= frames_since_last_rep t <= frames_since_last_rep s + Z.of_nat (length frames).
Proof.
  revert s. induction frames as [|f frames IH]; intros s H0 Hcd; simpl in *.
  - split; lia.
  - fold (run P (f :: frames)). rewrite run_cons.
    pose proof (call_effect P f s) as E.
    assert (Hs' : rep_count (fst (on_joints_detected P f s)) = rep_count s /\
                  frames_since_last_rep (fst (on_joints_detected P f s))
                    = frames_since_last_rep s + 1).
    { destruct E as [Hc _ _ _ Hf|? _ _ _ _ _ _ _ Hc Hf|_ _ _ _ Hc Hf|_ _ _ Hx];
        auto; lia. }
    destruct Hs' as [Hc Hf].
    destruct (on_joints_detected P f s) as [s' [[]|e]]; simpl in *.
    + destruct (IH s') as [IHc IHf]; [lia | lia |]. split; lia.
    + split; lia.
Qed.

(** X8 -- Debounce of reps.
    Reps are at least [cooldown_frames] calls apart: after a call that
    counted a rep, none of the next [cooldown_frames - 1] calls counts
    one, whatever the frames show. *)
Theorem rep_debounce (f : Frame) (s : Detector) (frames : list Frame) (g : Frame) :
  rep_count (fst (on_joints_detected P f s)) = rep_count s + 1 ->
  Z.of_nat (length frames) + 1 < cooldown_frames P ->
  let t := fst (run P frames (fst (on_joints_detected P f s))) in
  rep_count t = rep_count s + 1 /\
  rep_count (fst (on_joints_detected P g t)) = rep_count s + 1.
Proof.
  intros Hcount Hlen t.
  assert (Hzero : frames_since_last_rep (fst (on_joints_detected P f s)) = 0).
  { destruct (call_effect P f s) as [Hc|? _ _ _ _ _ _ _ Hc|_ _ _ _ Hc|_ _ _ _ _ Hf];
      auto; lia. }
  destruct (run_within_cooldown frames (fst (on_joints_detected P f s)))
    as [Hc Hf]; [lia | lia |].
  fold t in Hc, Hf. split; [lia|].
  destruct (call_effect P g t) as [Hc'|? _ _ _ _ _ _ _ Hc'|_ _ _ _ Hc'|_ _ _ Hx];
    lia.
Qed.

(** X9 -- Re-entry needs a return.
    While [returned_to_start] is false no call
    starts a rep; the entry time stays, [on_rep_started] is not called, and
    the detector is in the rep position afterwards only if it was before. *)
Theorem reentry_requires_return (f : Frame) (s : Detector) :
  returned_to_start s = false ->
  let s' := fst (on_joints_detected P f s) in
  rep_start_time s' = rep_start_time s /\
  (in_rep_position s' = true -> in_rep_position s = true) /\
  (notified s' = notified s \/
   exists n m d q, notified s' = notified s ++ [rep_completed n m d q]).
Proof.
  intros Hret s'. subst s'.
  destruct (call_effect P f s) as [_ Hi _ Ht _ _ Hn|m _ Hr|Hin _ _ _ _ _ Ht _ _ Hn
                                   |Hin _ _ _ _ _ Ht _ _ Hn].
  - rewrite Hi. auto.
  - congruence.
  - auto.
  - auto.
Qed.

(** *** What the best metrics of a graded rep satisfy *)

Section BestMetrics.

Variable good : Metrics -> Prop.

Hypothesis good_on_entry :
  forall m, is_in_rep_position P m = Ok true -> good m.

Hypothesis good_kept :
  forall current best,
    is_at_starting_position P current = Ok false ->
    good best -> good (fst (update_best_metrics P current best)).

(** A property that the metrics of every entry frame have, and that the merge
    keeps on frames not at start, holds of the best metrics throughout the
    rep and of the metrics behind every grade in the log. *)
Lemma best_metrics_invariant (s : Detector) :
  reachable P s ->
  (in_rep_position s = true -> good (best_metrics s)) /\
  Forall (fun e => exists best, good best /\
                     assess_rep_quality P best = Ok (entry_quality e))
         (log_file s).
Proof.
  induction 1 as [|f s _ [IHb IHl]]; [split; [discriminate | constructor]|].
  split.
  - open_call.
    destruct (utils.all_joints_detected (map snd (required_joints f))); simpl; auto.
    destruct (calculate_metrics P (required_joints f)) as [m|]; simpl; auto.
    destruct (is_in_rep_position P m) as [a|] eqn:Ha; simpl; auto.
    destruct (is_at_starting_position P m) as [b|] eqn:Hb; simpl; auto.
    destruct (in_rep_position s) eqn:Hin, b; simpl.
    + destruct (cooldown_frames P <=? frames_since_last_rep s + 1); simpl;
        [|discriminate].
      destruct (rep_start_time s); simpl; [|discriminate].
      destruct (assess_rep_quality P (best_metrics s)); simpl; [|discriminate].
      destruct (sink_ok f); simpl; discriminate.
    + rewrite andb_false_r. simpl. intros _.
      pose proof (good_kept m (best_metrics s) Hb (IHb eq_refl)) as Hkept.
      destruct (update_best_metrics P m (best_metrics s)) as [best' r]. exact Hkept.
    + rewrite andb_true_r.
      destruct a, (returned_to_start s); simpl; rewrite ?Hin; try discriminate.
      intros _. exact (good_on_entry m Ha).
    + rewrite andb_true_r.
      destruct a, (returned_to_start s); simpl; rewrite ?Hin; try discriminate.
      intros _. exact (good_on_entry m Ha).
  - destruct (call_log f s) as [[-> _]|[[-> _]|(t0 & q & Hin & _ & Hq & _ & -> & _)]];
      try exact IHl.
    apply Forall_app. split; [exact IHl|].
    constructor; [|constructor]. simpl.
    exists (best_metrics s). split; [exact (IHb Hin) | exact Hq].
Qed.

End BestMetrics.

End RepMachineMore.

(** ** api/exercises/squat.py and the other detectors *)

Section Squat.

Import SquatDetector (Metrics, getitem, profile, readings, reading_frame).

Lemma snapshot_lookups (a d : Q) :
  snapshot a d !! "knee_angle"%string = Some a /\
  snapshot a d !! "squat_depth"%string = Some d.
Proof.
  unfold snapshot. split.
  - apply lookup_insert_eq.
  - rewrite lookup_insert_ne by discriminate. apply lookup_insert_eq.
Qed.

Lemma snapshot_overwrite (a d a' d' : Q) :
  <["knee_angle"%string := a]> (<["squat_depth"%string := d]> (snapshot a' d'))
    = snapshot a d.
Proof.
  unfold snapshot. apply map_eq. intros key.
  destruct (decide (key = "knee_angle"%string)) as [->|Hk].
  - rewrite !lookup_insert_eq. reflexivity.
  - rewrite !(lookup_insert_ne _ "knee_angle"%string) by congruence.
    destruct (decide (key = "squat_depth"%string)) as [->|Hd].
    + rewrite !lookup_insert_eq. reflexivity.
    + rewrite !(lookup_insert_ne _ "squat_depth"%string) by congruence.
      rewrite !(lookup_insert_ne _ "knee_angle"%string) by congruence.
      rewrite !(lookup_insert_ne _ "squat_depth"%string) by congruence.
      reflexivity.
Qed.

(** One merge: the deeper of the two snapshots is kept, the older one on a
    tie. *)
Lemma squat_merge_step (a d a' d' : Q) :
  SquatDetector.update_best_metrics (snapshot a d) (snapshot a' d')
    = (if Qltb d d' then snapshot a d else snapshot a' d', Ok tt).
Proof.
  unfold SquatDetector.update_best_metrics, getitem, bind, lift, get, modify, ret.
  destruct (snapshot_lookups a d) as [-> ->].
  destruct (snapshot_lookups a' d') as [_ ->]. simpl.
  destruct (Qltb d d'); [|reflexivity].
  rewrite snapshot_overwrite. reflexivity.
Qed.

Lemma squat_observe (cooldown t : Z) (a d : Q) :
  observe (profile cooldown readings) (reading_frame t a d)
    = Some (snapshot a d,
            Qltb a 100 && Qltb d (15 # 100),
            Qgtb a 160 && Qgtb d (25 # 100)).
Proof.
  unfold observe. simpl.
  unfold SquatDetector.is_in_rep_position, SquatDetector.is_at_starting_position,
    getitem, and_then.
  destruct (snapshot_lookups a d) as [-> ->].
  unfold SquatDetector.knee_angle_threshold, SquatDetector.depth_threshold,
    SquatDetector.standing_angle, SquatDetector.standing_depth.
  destruct (Qltb a 100), (Qgtb a 160); reflexivity.
Qed.

(** X10 -- Best metrics of a squat.
    The best metrics of a squat are the reading of its deepest frame.  A
    detector in the rep position whose best metrics are the snapshot
    (a0, d0), fed frames that are not at start: every call returns, the
    detector stays in the rep position, and its best metrics are one of the
    snapshots seen, the seed included, whose depth is at most every depth
    seen. *)
Theorem squat_best_is_deepest (cooldown : Z) (s : Detector Metrics) (a0 d0 : Q)
    (seen : list (Z * (Q * Q))) :
  in_rep_position s = true ->
  best_metrics s = snapshot a0 d0 ->
  Forall (fun x => Qgtb (fst (snd x)) 160 && Qgtb (snd (snd x)) (25 # 100) = false) seen ->
  let r := run (profile cooldown readings)
             (map (fun x => reading_frame (fst x) (fst (snd x)) (snd (snd x))) seen) s in
  snd r = Ok tt /\
  in_rep_position (fst r) = true /\
  exists a d,
    best_metrics (fst r) = snapshot a d /\
    In (a, d) ((a0, d0) :: map snd seen) /\
    Forall (fun ad => (d <= snd ad)%Q) ((a0, d0) :: map snd seen).
Proof.
  intros Hin Hbest Hseen. revert s a0 d0 Hin Hbest.
  induction Hseen as [|[t [a d]] seen Hx _ IH]; intros s a0 d0 Hin Hbest; simpl in *.
  - repeat split; auto. exists a0, d0. repeat split; auto.
    repeat constructor. simpl. lra.
  - fold (run (profile cooldown readings)). rewrite run_cons.
    pose proof (squat_observe cooldown t a d) as Hobs. rewrite Hx in Hobs.
    rewrite (call_continue _ _ s _ _ Hobs Hin).
    unfold zoom. simpl. rewrite Hbest, squat_merge_step.
    match goal with |- context [run _ _ ?s1] =>
      destruct (IH s1 (if Qltb d d0 then a else a0) (if Qltb d d0 then d else d0))
        as (Hr & Hi & a1 & d1 & Hb & Hmem & Hmin)
    end.
    + exact Hin.
    + simpl. destruct (Qltb d d0); reflexivity.
    + split; [exact Hr|]. split; [exact Hi|].
      exists a1, d1. split; [exact Hb|].
      inversion Hmin as [|? ? Hhead Htail]; subst. simpl in Hhead.
      destruct (Qltb d d0) eqn:E.
      * apply Qltb_lt in E. split.
        -- destruct Hmem as [Hm|Hm]; [right; left; exact Hm | right; right; exact Hm].
        -- constructor; [simpl; lra|]. constructor; [simpl; lra | exact Htail].
      * apply Qltb_ge in E. split.
        -- destruct Hmem as [Hm|Hm]; [left; exact Hm | right; right; exact Hm].
        -- constructor; [simpl; lra|]. constructor; [simpl; lra | exact Htail].
Qed.

(** X11 -- Grades of squats.
    Every squat in the log is graded excellent or good: a rep is entered
    only below the depth threshold and the merge only goes deeper, so the
    two lower grades of [assess_rep_quality] are never logged. *)
Theorem squat_grades {Position : Type} (cooldown : Z)
    (calculate_metrics : list (string * option Position) -> result Metrics)
    (s : Detector Metrics) :
  reachable (profile cooldown calculate_metrics) s ->
  Forall (fun e => entry_quality e = "Excellent - ATG (Ass to Grass)"%string \/
                   entry_quality e = "Good - Full depth / Parallel"%string)
         (log_file s).
Proof.
  intros Hs.
  pose (good := fun m : Metrics =>
          exists d, m !! "squat_depth"%string = Some d /\ Qltb d (15 # 100) = true).
  destruct (best_metrics_invariant (profile cooldown calculate_metrics) good) with (s := s)
    as [_ Hlog]; [| |exact Hs|].
  - intros m. simpl.
    unfold SquatDetector.is_in_rep_position, getitem, and_then.
    destruct (m !! "knee_angle"%string); [|discriminate].
    destruct (Qltb _ _); [|discriminate].
    destruct (m !! "squat_depth"%string) as [d|] eqn:Hm; [|discriminate].
    intros [= Hd]. exists d. split; [exact Hm | exact Hd].
  - intros current best _ (d0 & Hd0 & Hlt). simpl.
    unfold SquatDetector.update_best_metrics, getitem, bind, lift, get, modify, ret.
    destruct (current !! "squat_depth"%string) as [dc|]; simpl; [|exists d0; auto].
    rewrite Hd0. simpl.
    destruct (Qltb dc d0) eqn:E; simpl; [|exists d0; auto].
    assert (Hdc : Qltb dc (15 # 100) = true).
    { apply Qltb_lt in E, Hlt. apply Qltb_lt. lra. }
    destruct (current !! "knee_angle"%string) as [ac|]; simpl; exists dc.
    + rewrite lookup_insert_ne by discriminate. rewrite lookup_insert_eq. auto.
    + rewrite lookup_insert_eq. auto.
  - eapply Forall_impl; [exact Hlog|]. simpl.
    intros e (best & (d & Hd & Hlt) & Hq). revert Hq.
    unfold SquatDetector.assess_rep_quality, getitem, and_then. rewrite Hd.
    destruct (Qltb d (10 # 100)); [intros [= <-]; auto|].
    rewrite Hlt. intros [= <-]; auto.
Qed.

(** X12 -- Grades of dumbbell flies.
    No dumbbell fly in the log is graded excellent or good.  A rep is
    entered with the wrists closer than 0.15; while it lasts, the merge takes
    a wider spread only from a frame with the elbows beyond 150 degrees, and
    such a frame with a spread beyond 0.5 is at start and ends the rep
    instead; so the best spread never passes 0.5, which both upper grades of
    [assess_rep_quality] require. *)
Theorem dumbbell_fly_grades {Position : Type}
    (calculate_metrics : list (string * option Position) -> result Metrics)
    (s : Detector Metrics) :
  reachable (DumbbellFlyDetector.profile calculate_metrics) s ->
  Forall (fun e => entry_quality e = "Bent elbows - Keep arms straighter"%string \/
                   entry_quality e = "Shallow - Open wider"%string)
         (log_file s).
Proof.
  intros Hs.
  pose (good := fun m : Metrics =>
          exists w, m !! "wrist_distance"%string = Some w /\ Qgtb w (5 # 10) = false).
  destruct (best_metrics_invariant (DumbbellFlyDetector.profile calculate_metrics) good)
    with (s := s) as [_ Hlog]; [| |exact Hs|].
  - intros m. simpl.
    unfold DumbbellFlyDetector.is_in_rep_position, Metric.lt, getitem, and_then.
    destruct (m !! "wrist_distance"%string) as [w|] eqn:Hm; [|discriminate].
    intros [= Hw]. exists w. split; [exact Hm|].
    unfold Qgtb. apply Qltb_lt in Hw. apply Qltb_ge.
    unfold DumbbellFlyDetector.wrist_distance_closed in Hw. lra.
  - intros current best Hstart (w0 & Hw0 & Hle). simpl in *. revert Hstart.
    unfold DumbbellFlyDetector.is_at_starting_position,
      DumbbellFlyDetector.update_best_metrics, Metric.and_, Metric.gt,
      getitem, and_then, bind, lift, get, modify, ret.
    destruct (current !! "wrist_distance"%string) as [wc|]; simpl; [|exists w0; auto].
    rewrite Hw0. simpl. intros Hstart.
    destruct (Qgtb wc w0); simpl; [|exists w0; auto].
    destruct (current !! "elbow_angle"%string) as [ec|]; simpl; [|exists w0; auto].
    unfold DumbbellFlyDetector.elbow_angle_min, DumbbellFlyDetector.wrist_distance_open
      in *.
    destruct (Qgtb ec 150) eqn:Eec; simpl; [|exists w0; auto].
    exists wc. rewrite lookup_insert_ne by discriminate. rewrite lookup_insert_eq.
    split; [reflexivity|].
    destruct (Qgtb wc (5 # 10)); [discriminate Hstart | reflexivity].
  - eapply Forall_impl; [exact Hlog|]. simpl.
    intros e (best & (w & Hw & Hle) & Hq). revert Hq.
    unfold DumbbellFlyDetector.assess_rep_quality, Metric.and_, Metric.gt, Metric.lt,
      getitem, and_then. rewrite Hw.
    assert (Hle6 : Qgtb w (6 # 10) = false).
    { unfold Qgtb in *. apply Qltb_ge in Hle. apply Qltb_ge. lra. }
    rewrite Hle6, Hle.
    destruct (best !! "elbow_angle"%string) as [ea|]; [|discriminate].
    destruct (Qltb ea 140); intros [= <-]; auto.
Qed.

End Squat.

Section Detectors.

Import SquatDetector (Metrics, getitem).

Ltac to_order :=
  repeat match goal with
  | H : Qltb _ _ = true |- _ => apply Qltb_lt in H
  | H : Qltb _ _ = false |- _ => apply Qltb_ge in H
  end.

(** Case analysis on the metrics read and on the comparisons made. *)
Ltac split_tests m :=
  unfold and_then, Qgtb;
  repeat match goal with
  | |- context [m !! ?k] => destruct (m !! k); simpl; try discriminate
  end;
  repeat match goal with
  | |- context [Qltb ?a ?b] => destruct (Qltb a b) eqn:?; simpl; try discriminate
  end;
  intros; to_order; lra.

(** X13 -- Exclusive predicates, lower body.
    In the squat, the deadlift, the Romanian deadlift and the calf raise the
    two predicates exclude each other: no metrics are both in the rep
    position and at the starting position. *)
Theorem lower_body_predicates_exclusive :
  (forall m : Metrics,
     ~ (SquatDetector.is_in_rep_position m = Ok true /\
        SquatDetector.is_at_starting_position m = Ok true)) /\
  (forall m : Metrics,
     ~ (DeadliftDetector.is_in_rep_position m = Ok true /\
        DeadliftDetector.is_at_starting_position m = Ok true)) /\
  (forall m : Metrics,
     ~ (RomanianDeadliftDetector.is_in_rep_position m = Ok true /\
        RomanianDeadliftDetector.is_at_starting_position m = Ok true)) /\
  (forall m : Metrics,
     ~ (CalfRaiseDetector.is_in_rep_position m = Ok true /\
        CalfRaiseDetector.is_at_starting_position m = Ok true)).
Proof.
  repeat apply conj; intros m [Hin Hstart]; revert Hin Hstart.
  - unfold SquatDetector.is_in_rep_position, SquatDetector.is_at_starting_position,
      SquatDetector.knee_angle_threshold, SquatDetector.depth_threshold,
      SquatDetector.standing_angle, SquatDetector.standing_depth, getitem.
    split_tests m.
  - unfold DeadliftDetector.is_in_rep_position, DeadliftDetector.is_at_starting_position,
      DeadliftDetector.hip_angle_threshold, DeadliftDetector.bottom_hip_angle,
      DeadliftDetector.torso_angle_threshold, Metric.and_, Metric.lt, Metric.gt, getitem.
    split_tests m.
  - unfold RomanianDeadliftDetector.is_in_rep_position,
      RomanianDeadliftDetector.is_at_starting_position,
      RomanianDeadliftDetector.hip_angle_threshold,
      RomanianDeadliftDetector.bottom_hip_angle,
      RomanianDeadliftDetector.knee_angle_min,
      RomanianDeadliftDetector.torso_angle_bottom,
      Metric.and_, Metric.lt, Metric.gt, getitem.
    split_tests m.
  - unfold CalfRaiseDetector.is_in_rep_position, CalfRaiseDetector.is_at_starting_position,
      CalfRaiseDetector.heel_lift_threshold, CalfRaiseDetector.ankle_angle_extended,
      CalfRaiseDetector.ankle_angle_flexed,
      Metric.and_, Metric.or_, Metric.lt, Metric.gt, getitem.
    split_tests m.
Qed.

(** X14 -- Exclusive predicates, presses and raises.
    In the shoulder press, the bench press and the front raise no metrics are
    both in the rep position and at the starting position. *)
Theorem pressing_predicates_exclusive :
  (forall m : Metrics,
     ~ (ShoulderPressDetector.is_in_rep_position m = Ok true /\
        ShoulderPressDetector.is_at_starting_position m = Ok true)) /\
  (forall m : Metrics,
     ~ (BenchPressDetector.is_in_rep_position m = Ok true /\
        BenchPressDetector.is_at_starting_position m = Ok true)) /\
  (forall m : Metrics,
     ~ (FrontRaiseDetector.is_in_rep_position m = Ok true /\
        FrontRaiseDetector.is_at_starting_position m = Ok true)).
Proof.
  repeat apply conj; intros m [Hin Hstart]; revert Hin Hstart.
  - unfold ShoulderPressDetector.is_in_rep_position,
      ShoulderPressDetector.is_at_starting_position,
      ShoulderPressDetector.elbow_extension_threshold,
      ShoulderPressDetector.wrist_height_threshold,
      ShoulderPressDetector.starting_angle, ShoulderPressDetector.starting_height,
      Metric.and_, Metric.lt, Metric.gt, getitem.
    split_tests m.
  - unfold BenchPressDetector.is_in_rep_position,
      BenchPressDetector.is_at_starting_position,
      BenchPressDetector.elbow_extension_threshold,
      BenchPressDetector.elbow_flexion_threshold,
      BenchPressDetector.wrist_shoulder_distance,
      Metric.and_, Metric.lt, Metric.gt, getitem.
    split_tests m.
  - unfold FrontRaiseDetector.is_in_rep_position,
      FrontRaiseDetector.is_at_starting_position,
      FrontRaiseDetector.wrist_height_threshold, FrontRaiseDetector.arm_angle_threshold,
      Metric.and_, Metric.or_, Metric.lt, Metric.gt, getitem.
    split_tests m.
Qed.

(** X15 -- Exclusive predicates, rows, curls and flies.
    In the barbell row, the bicep curl and the dumbbell fly no metrics are
    both in the rep position and at the starting position. *)
Theorem pulling_predicates_exclusive :
  (forall m : Metrics,
     ~ (BarbellRowDetector.is_in_rep_position m = Ok true /\
        BarbellRowDetector.is_at_starting_position m = Ok true)) /\
  (forall m : Metrics,
     ~ (BicepCurlDetector.is_in_rep_position m = Ok true /\
        BicepCurlDetector.is_at_starting_position m = Ok true)) /\
  (forall m : Metrics,
     ~ (DumbbellFlyDetector.is_in_rep_position m = Ok true /\
        DumbbellFlyDetector.is_at_starting_position m = Ok true)).
Proof.
  repeat apply conj; intros m [Hin Hstart]; revert Hin Hstart.
  - unfold BarbellRowDetector.is_in_rep_position,
      BarbellRowDetector.is_at_starting_position, BarbellRowDetector.torso_in_range,
      BarbellRowDetector.elbow_flexion_threshold, BarbellRowDetector.torso_angle_min,
      BarbellRowDetector.torso_angle_max, Metric.and_, Metric.lt, Metric.gt, getitem.
    split_tests m.
  - unfold BicepCurlDetector.is_in_rep_position, BicepCurlDetector.is_at_starting_position,
      BicepCurlDetector.elbow_flexion_threshold,
      BicepCurlDetector.elbow_extension_threshold, Metric.lt, Metric.gt, getitem.
    split_tests m.
  - unfold DumbbellFlyDetector.is_in_rep_position,
      DumbbellFlyDetector.is_at_starting_position,
      DumbbellFlyDetector.wrist_distance_closed, DumbbellFlyDetector.wrist_distance_open,
      DumbbellFlyDetector.elbow_angle_min, Metric.and_, Metric.lt, Metric.gt, getitem.
    split_tests m.
Qed.

(** X16 -- Default merge.
    The default merge of the base class is a union that favours [best]: it
    returns, every entry of [best] is kept as it is, and the keys that only
    [current] has are added with the values of [current]. *)
Theorem default_merge_is_union {V : Type} (current best : gmap string V) :
  default_update_best_metrics current best = (best ∪ current, Ok tt) /\
  (forall key v, best !! key = Some v ->
     fst (default_update_best_metrics current best) !! key = Some v) /\
  (forall key, best !! key = None ->
     fst (default_update_best_metrics current best) !! key = current !! key).
Proof.
  assert (H : forall (items : list (string * V)) (b : gmap string V),
    for_each
      (fun item : string * V =>
         let (key, value) := item in
         bind get (fun best =>
           match best !! key with
           | None => modify (insert key value)
           | Some _ => ret tt
           end)) items b
    = (b ∪ list_to_map items, Ok tt)).
  { induction items as [|[k v] items IH]; intros b; simpl.
    - unfold ret. rewrite (right_id_L ∅ (∪)). reflexivity.
    - unfold bind at 1. unfold bind at 1. unfold get at 1.
      destruct (b !! k) as [x|] eqn:Hk; simpl.
      + rewrite IH. f_equal. apply map_eq. intros i.
        rewrite !lookup_union.
        destruct (decide (i = k)) as [->|Hne].
        * rewrite Hk, lookup_insert_eq. simpl.
          destruct (list_to_map items !! k); reflexivity.
        * rewrite lookup_insert_ne by congruence. reflexivity.
      + rewrite IH. f_equal.
        rewrite <- insert_union_l. rewrite insert_union_r by exact Hk. reflexivity. }
  unfold default_update_best_metrics. rewrite H, list_to_map_to_list.
  split; [reflexivity|]. simpl. split.
  - intros key v Hb. apply lookup_union_Some_l. exact Hb.
  - intros key Hb. apply lookup_union_r. exact Hb.
Qed.

End Detectors.

(** ** api/core/event_handlers.py: more on the three handlers *)

Section CrossingMore.

Import JointCrossingHandler.

(** X17 -- Axis of the crossing handler.
    Construction fails exactly on an axis other than x, y and z; otherwise
    the handler reads coordinate 0, 1 or 2. *)
Theorem crossing_init_axis (joint1_name joint2_name axis : string) (cooldown : Z) :
  (axis = "x"%string \/ axis = "y"%string \/ axis = "z"%string ->
   exists h, init joint1_name joint2_name axis cooldown = Ok h /\
     axis_idx h = (if String.eqb axis "x" then 0
                   else if String.eqb axis "y" then 1 else 2)%nat /\
     last_relative_position h = None /\ fired h = []) /\
  (axis <> "x"%string -> axis <> "y"%string -> axis <> "z"%string ->
   init joint1_name joint2_name axis cooldown = Raise ValueError).
Proof.
  split.
  - intros [E|[E|E]]; rewrite E; eexists; (split; [vm_compute; reflexivity|]); auto.
  - intros Hx Hy Hz. unfold init, axis_map.
    rewrite !lookup_insert_ne by congruence. rewrite lookup_empty. reflexivity.
Qed.

Lemma crossing_fires_cooldown (f : Frame) (h : Handler) :
  fires_on f h -> cooldown_frames h <= frames_since_last_event h + 1.
Proof.
  unfold fires_on, on_joints_detected.
  destruct (joint1_pos f), (joint2_pos f); simpl;
    try (intros [c Hc]; exfalso; exact (app_one_neq _ _ Hc)).
  destruct (last_relative_position h); simpl;
    try (intros [c Hc]; exfalso; exact (app_one_neq _ _ Hc)).
  destruct (negb _); simpl;
    try (intros [c Hc]; exfalso; exact (app_one_neq _ _ Hc)).
  destruct (Z.leb_spec (cooldown_frames h) (frames_since_last_event h + 1)); simpl;
    [auto | intros [c Hc]; exfalso; exact (app_one_neq _ _ Hc)].
Qed.

Lemma crossing_run_counter (frames : list Frame) (h : Handler) :
  0 <= frames_since_last_event h ->
  cooldown_frames (run frames h) = cooldown_frames h /\
  0 <= frames_since_last_event (run frames h)
    <= frames_since_last_event h + Z.of_nat (length frames).
Proof.
  intros H0. induction frames as [|f frames [IHc IHf]] using rev_ind.
  - simpl. split; [reflexivity | lia].
  - rewrite crossing_run_snoc, crossing_cooldown, length_app. simpl.
    split; [exact IHc|].
    destruct (crossing_effect f (run frames h)) as [[_ Hf]|[_ Hf]]; rewrite Hf; lia.
Qed.

(** X18 -- Record of a crossing.
    When a crossing fires, [on_joints_crossed] is given the two positions of
    the frame and a direction read off the sign of the new signal: joint 1
    over joint 2 when it is positive, joint 2 over joint 1 otherwise.  A
    signal of exactly zero counts as a sign change too, in the second
    direction. *)
Theorem crossing_record (f : Frame) (h : Handler) (j1 j2 : Position) :
  joint1_pos f = Some j1 -> joint2_pos f = Some j2 ->
  let current := (coord j1 (axis_idx h) - coord j2 (axis_idx h))%Q in
  (fires_on f h ->
   fired (on_joints_detected f h) = fired h ++
     [{| crossed_joint1_pos := j1; crossed_joint2_pos := j2;
         direction := if Qgtb current 0
                      then (joint1_name h ++ " crossed over " ++ joint2_name h)%string
                      else (joint2_name h ++ " crossed over " ++ joint1_name h)%string |}]) /\
  (forall last : Q,
     last_relative_position h = Some last ->
     sign last <> 0 -> (current == 0)%Q ->
     cooldown_frames h <= frames_since_last_event h + 1 ->
     fired (on_joints_detected f h) = fired h ++
       [{| crossed_joint1_pos := j1; crossed_joint2_pos := j2;
           direction := (joint2_name h ++ " crossed over " ++ joint1_name h)%string |}]).
Proof.
  intros H1 H2 current. split.
  - unfold fires_on, on_joints_detected. rewrite H1, H2. simpl. fold current.
    destruct (last_relative_position h); simpl;
      try (intros [c Hc]; exfalso; exact (app_one_neq _ _ Hc)).
    destruct (negb _ && _); simpl;
      [reflexivity | intros [c Hc]; exfalso; exact (app_one_neq _ _ Hc)].
  - intros last Hlast Hsign Hzero Hcd.
    unfold on_joints_detected. rewrite H1, H2. simpl. fold current. rewrite Hlast.
    clearbody current.
    assert (Hs : sign current = 0).
    { unfold sign. destruct current as [n d]. unfold Qeq in Hzero. simpl in *.
      rewrite Z.mul_1_r in Hzero. rewrite Hzero. reflexivity. }
    assert (Hg : Qgtb current 0 = false).
    { unfold Qgtb. apply Qltb_ge. lra. }
    rewrite Hs, Hg.
    destruct (Z.eqb_spec (sign last) 0); [contradiction|].
    destruct (Z.leb_spec (cooldown_frames h) (frames_since_last_event h + 1)); [|lia].
    reflexivity.
Qed.

End CrossingMore.

Section ProximityMore.

Import JointProximityHandler.

Context {Pos : Type}.
Variable norm_diff : Pos -> Pos -> Q.

Lemma proximity_fires_cooldown (f : Frame Pos) (h : Handler Pos) :
  fires_on norm_diff f h -> cooldown_frames h <= frames_since_last_event h + 1.
Proof.
  unfold fires_on, on_joints_detected.
  destruct (joint1_pos f), (joint2_pos f); simpl;
    try (intros [c Hc]; exfalso; exact (app_one_neq _ _ Hc)).
  destruct (Qltb _ _ && negb _); simpl;
    try (intros [c Hc]; exfalso; exact (app_one_neq _ _ Hc)).
  destruct (Z.leb_spec (cooldown_frames h) (frames_since_last_event h + 1)); simpl;
    [auto | intros [c Hc]; exfalso; exact (app_one_neq _ _ Hc)].
Qed.

Lemma proximity_run_counter (frames : list (Frame Pos)) (h : Handler Pos) :
  0 <= frames_since_last_event h ->
  cooldown_frames (run norm_diff frames h) = cooldown_frames h /\
  0 <= frames_since_last_event (run norm_diff frames h)
    <= frames_since_last_event h + Z.of_nat (length frames).
Proof.
  intros H0. induction frames as [|f frames [IHc IHf]] using rev_ind.
  - simpl. split; [reflexivity | lia].
  - rewrite proximity_run_snoc, length_app. simpl.
    destruct (proximity_config norm_diff f (run norm_diff frames h)) as [-> _].
    split; [exact IHc|].
    destruct (proximity_effect norm_diff f (run norm_diff frames h)) as [[_ Hf]|[_ Hf]];
      rewrite Hf; lia.
Qed.

End ProximityMore.

Section AngleMore.

Import JointAngleHandler.

Context {Pos : Type}.
Variable calculate_angle : Pos -> Pos -> Pos -> Q.

Lemma angle_fires_cooldown (f : Frame Pos) (h : Handler) :
  fires_on calculate_angle f h -> cooldown_frames h <= frames_since_last_event h + 1.
Proof.
  unfold fires_on, on_joints_detected.
  destruct (joint1_pos f), (joint2_pos f), (joint3_pos f); simpl;
    try (intros [c Hc]; exfalso; exact (app_one_neq _ _ Hc)).
  destruct (_ && negb _); simpl;
    try (intros [c Hc]; exfalso; exact (app_one_neq _ _ Hc)).
  destruct (Z.leb_spec (cooldown_frames h) (frames_since_last_event h + 1)); simpl;
    [auto | intros [c Hc]; exfalso; exact (app_one_neq _ _ Hc)].
Qed.

Lemma angle_run_counter (frames : list (Frame Pos)) (h : Handler) :
  0 <= frames_since_last_event h ->
  cooldown_frames (run calculate_angle frames h) = cooldown_frames h /\
  0 <= frames_since_last_event (run calculate_angle frames h)
    <= frames_since_last_event h + Z.of_nat (length frames).
Proof.
  intros H0. induction frames as [|f frames [IHc IHf]] using rev_ind.
  - simpl. split; [reflexivity | lia].
  - rewrite angle_run_snoc, length_app. simpl.
    destruct (angle_config calculate_angle f (run calculate_angle frames h)) as (-> & _).
    split; [exact IHc|].
    destruct (angle_effect calculate_angle f (run calculate_angle frames h))
      as [[_ Hf]|[_ Hf]]; rewrite Hf; lia.
Qed.

(** X19 -- Angle handler, rising edge.
    The angle handler fires exactly on the rising edge of its test, once the
    debounce has elapsed: the angle is on the far side of the threshold in
    the sense of [comparison], it was not at the previous processed frame,
    and [frames_since_last_event], as bumped by the call, is at least
    [cooldown_frames].  A [comparison] other than 'less' and 'greater' is
    accepted by the constructor and makes a handler that never fires. *)
Theorem angle_rising_edge (f : Frame Pos) (h : Handler) (j1 j2 j3 : Pos) :
  joint1_pos f = Some j1 -> joint2_pos f = Some j2 -> joint3_pos f = Some j3 ->
  let angle := calculate_angle j1 j2 j3 in
  (fires_on calculate_angle f h <->
     ((comparison h = "less"%string /\ (angle < angle_threshold h)%Q) \/
      (comparison h = "greater"%string /\ (angle_threshold h < angle)%Q)) /\
     threshold_crossed h = false /\
     cooldown_frames h <= frames_since_last_event h + 1) /\
  (comparison h <> "less"%string -> comparison h <> "greater"%string ->
   ~ fires_on calculate_angle f h /\
   threshold_crossed (on_joints_detected calculate_angle f h) = false).
Proof.
  intros H1 H2 H3 angle.
  assert (Hnow : (String.eqb (comparison h) "less" && Qltb angle (angle_threshold h))
                 || (String.eqb (comparison h) "greater" && Qgtb angle (angle_threshold h))
                 = true <->
                 (comparison h = "less"%string /\ (angle < angle_threshold h)%Q) \/
                 (comparison h = "greater"%string /\ (angle_threshold h < angle)%Q)).
  { unfold Qgtb. rewrite orb_true_iff, !andb_true_iff, !String.eqb_eq, !Qltb_lt.
    reflexivity. }
  assert (Hfires : fires_on calculate_angle f h <->
            ((String.eqb (comparison h) "less" && Qltb angle (angle_threshold h))
             || (String.eqb (comparison h) "greater" && Qgtb angle (angle_threshold h))
             = true) /\
            threshold_crossed h = false /\
            cooldown_frames h <= frames_since_last_event h + 1).
  { unfold fires_on, on_joints_detected. rewrite H1, H2, H3. simpl. fold angle.
    destruct (_ || _), (threshold_crossed h); simpl;
      try (split; [intros [c Hc]; exfalso; exact (app_one_neq _ _ Hc)
                  | intros (? & ? & ?); discriminate]).
    destruct (Z.leb_spec (cooldown_frames h) (frames_since_last_event h + 1)); simpl.
    - split; eauto.
    - split; [intros [c Hc]; exfalso; exact (app_one_neq _ _ Hc)
             | intros (_ & _ & ?); lia]. }
  split.
  - rewrite Hfires, Hnow. reflexivity.
  - intros Hl Hg. split.
    + rewrite Hfires, Hnow. intros [[[? _]|[? _]] _]; contradiction.
    + unfold on_joints_detected. rewrite H1, H2, H3. simpl.
      apply String.eqb_neq in Hl, Hg. rewrite Hl, Hg. reflexivity.
Qed.

End AngleMore.

(** X20 -- Handlers on a missing joint.
    A frame that lacks a joint leaves a handler as it was, but for the
    debounce counter, which is bumped: nothing fires and the remembered
    signal, closeness or threshold state is kept for the next processed
    frame. *)
Theorem handlers_skip_missing_joints :
  (forall (f : JointCrossingHandler.Frame) (h : JointCrossingHandler.Handler),
     JointCrossingHandler.joint1_pos f = None \/ JointCrossingHandler.joint2_pos f = None ->
     JointCrossingHandler.on_joints_detected f h =
       JointCrossingHandler.set_frames_since_last_event
         (JointCrossingHandler.frames_since_last_event h + 1) h) /\
  (forall (Pos : Type) (norm_diff : Pos -> Pos -> Q)
          (f : JointProximityHandler.Frame Pos) (h : JointProximityHandler.Handler Pos),
     JointProximityHandler.joint1_pos f = None \/
     JointProximityHandler.joint2_pos f = None ->
     JointProximityHandler.on_joints_detected norm_diff f h =
       JointProximityHandler.set_frames_since_last_event
         (JointProximityHandler.frames_since_last_event h + 1) h) /\
  (forall (Pos : Type) (calculate_angle : Pos -> Pos -> Pos -> Q)
          (f : JointAngleHandler.Frame Pos) (h : JointAngleHandler.Handler),
     JointAngleHandler.joint1_pos f = None \/ JointAngleHandler.joint2_pos f = None \/
     JointAngleHandler.joint3_pos f = None ->
     JointAngleHandler.on_joints_detected calculate_angle f h =
       JointAngleHandler.set_frames_since_last_event
         (JointAngleHandler.frames_since_last_event h + 1) h).
Proof.
  split; [|split].
  - intros f h H. unfold JointCrossingHandler.on_joints_detected.
    destruct H as [E|E]; rewrite E; [reflexivity|].
    destruct (JointCrossingHandler.joint1_pos f); reflexivity.
  - intros Pos norm_diff f h H. unfold JointProximityHandler.on_joints_detected.
    destruct H as [E|E]; rewrite E; [reflexivity|].
    destruct (JointProximityHandler.joint1_pos f); reflexivity.
  - intros Pos calc f h H. unfold JointAngleHandler.on_joints_detected.
    destruct H as [E|[E|E]]; rewrite E; [reflexivity | |].
    + destruct (JointAngleHandler.joint1_pos f); reflexivity.
    + destruct (JointAngleHandler.joint1_pos f), (JointAngleHandler.joint2_pos f);
        reflexivity.
Qed.

(** X21 -- Debounce of the handlers.
    Firings of a handler are at least [cooldown_frames] calls apart: after a
    call that fired, none of the next [cooldown_frames - 1] calls fires,
    whatever the frames show. *)
Theorem handlers_debounce :
  (forall (f g : JointCrossingHandler.Frame) (frames : list JointCrossingHandler.Frame)
          (h : JointCrossingHandler.Handler),
     JointCrossingHandler.fires_on f h ->
     Z.of_nat (length frames) + 1 < JointCrossingHandler.cooldown_frames h ->
     ~ JointCrossingHandler.fires_on g
         (JointCrossingHandler.run frames (JointCrossingHandler.on_joints_detected f h))) /\
  (forall (Pos : Type) (norm_diff : Pos -> Pos -> Q)
          (f g : JointProximityHandler.Frame Pos)
          (frames : list (JointProximityHandler.Frame Pos))
          (h : JointProximityHandler.Handler Pos),
     JointProximityHandler.fires_on norm_diff f h ->
     Z.of_nat (length frames) + 1 < JointProximityHandler.cooldown_frames h ->
     ~ JointProximityHandler.fires_on norm_diff g
         (JointProximityHandler.run norm_diff frames
            (JointProximityHandler.on_joints_detected norm_diff f h))) /\
  (forall (Pos : Type) (calculate_angle : Pos -> Pos -> Pos -> Q)
          (f g : JointAngleHandler.Frame Pos)
          (frames : list (JointAngleHandler.Frame Pos))
          (h : JointAngleHandler.Handler),
     JointAngleHandler.fires_on calculate_angle f h ->
     Z.of_nat (length frames) + 1 < JointAngleHandler.cooldown_frames h ->
     ~ JointAngleHandler.fires_on calculate_angle g
         (JointAngleHandler.run calculate_angle frames
            (JointAngleHandler.on_joints_detected calculate_angle f h))).
Proof.
  split; [|split].
  - intros f g frames h Hf Hlen Hg.
    assert (Hzero : JointCrossingHandler.frames_since_last_event
                      (JointCrossingHandler.on_joints_detected f h) = 0).
    { destruct (crossing_effect f h) as [[Hsame _]|[_ Hz]]; [|exact Hz].
      destruct Hf as [c Hc]. rewrite Hsame in Hc.
      exfalso. exact (app_one_neq _ _ Hc). }
    destruct (crossing_run_counter frames (JointCrossingHandler.on_joints_detected f h))
      as [Hc Hb]; [lia|].
    apply crossing_fires_cooldown in Hg.
    rewrite Hc, crossing_cooldown in Hg. lia.
  - intros Pos norm_diff f g frames h Hf Hlen Hg.
    assert (Hzero : JointProximityHandler.frames_since_last_event
                      (JointProximityHandler.on_joints_detected norm_diff f h) = 0).
    { destruct (proximity_effect norm_diff f h) as [[Hsame _]|[_ Hz]]; [|exact Hz].
      destruct Hf as [c Hc]. rewrite Hsame in Hc.
      exfalso. exact (app_one_neq _ _ Hc). }
    destruct (proximity_run_counter norm_diff frames
                (JointProximityHandler.on_joints_detected norm_diff f h))
      as [Hc Hb]; [lia|].
    apply proximity_fires_cooldown in Hg.
    destruct (proximity_config norm_diff f h) as [Hcfg _].
    rewrite Hc, Hcfg in Hg. lia.
  - intros Pos calc f g frames h Hf Hlen Hg.
    assert (Hzero : JointAngleHandler.frames_since_last_event
                      (JointAngleHandler.on_joints_detected calc f h) = 0).
    { destruct (angle_effect calc f h) as [[Hsame _]|[_ Hz]]; [|exact Hz].
      destruct Hf as [c Hc]. rewrite Hsame in Hc.
      exfalso. exact (app_one_neq _ _ Hc). }
    destruct (angle_run_counter calc frames (JointAngleHandler.on_joints_detected calc f h))
      as [Hc Hb]; [lia|].
    apply angle_fires_cooldown in Hg.
    destruct (angle_config calc f h) as (Hcfg & _).
    rewrite Hc, Hcfg in Hg. lia.
Qed.

(** ** api/exercises/__init__.py *)

Section Registry.

Import exercises.



(** X23 -- Exercises by category.
    [get_exercises_by_category] files every exercise under its category and
    nowhere else: a category maps to the entries of the registry that carry
    it, in registry order, and a category that no exercise carries is not a
    key of the result. *)
Theorem exercises_by_category (registry : Registry) (c : string) :
  get_exercises_by_category registry !! c =
    match filter (fun item : string * Info => category (snd item) = c) (items registry) with
    | [] => None
    | found => Some (map (fun item => entry_of (fst item) (snd item)) found)
    end.
Proof.
  unfold get_exercises_by_category.
  induction (items registry) as [|[id info] rest IH] using rev_ind.
  - simpl. apply lookup_empty.
  - rewrite fold_left_app, filter_app. simpl.
    set (bc := fold_left _ rest ∅) in *.
    destruct (decide (category info = c)) as [<-|Hne].
    + rewrite lookup_insert_eq.
      rewrite (filter_cons_True _ (id, info) []) by reflexivity.
      rewrite filter_nil.
      destruct (bc !! category info) as [old|] eqn:Hbc.
      * rewrite Hbc. simpl.
        destruct (filter _ rest) as [|x found]; [discriminate|].
        injection IH as ->. simpl. rewrite map_app. reflexivity.
      * rewrite lookup_insert_eq. simpl.
        destruct (filter _ rest) as [|x found]; [reflexivity | discriminate].
    + rewrite lookup_insert_ne by exact Hne.
      rewrite (filter_cons_False _ (id, info) []) by exact Hne.
      rewrite filter_nil, app_nil_r.
      destruct (bc !! category info); [exact IH|].
      rewrite lookup_insert_ne by exact Hne. exact IH.
Qed.

End Registry.

(** ** api/exercises/utils.py: the tests on points and joint angles *)

Section Points.

Import utils_points.

Ltac to_order :=
  repeat match goal with
  | H : Qltb _ _ = true |- _ => apply Qltb_lt in H
  | H : Qltb _ _ = false |- _ => apply Qltb_ge in H
  end.

Lemma Qltb_ext (a b c d : Q) :
  ((a < b)%Q <-> (c < d)%Q) -> Qltb a b = Qltb c d.
Proof.
  intros H. destruct (Qltb a b) eqn:E1, (Qltb c d) eqn:E2; try reflexivity;
    to_order; exfalso.
  - apply H in E1. lra.
  - apply H in E2. lra.
Qed.

(** X24 -- Exclusive tests on points.
    With a threshold that is not negative no point is both above and below
    another, and no angle is both extended and flexed when the flexed
    threshold is not above the extended one, as with the defaults 120 and
    160; with the default threshold 0, [a] is above [b] exactly when [b] is
    below [a]. *)
Theorem point_tests_exclusive :
  (forall (point_a point_b : Position) (threshold : Q),
     (0 <= threshold)%Q ->
     ~ (is_point_above point_a point_b threshold = true /\
        is_point_below point_a point_b threshold = true)) /\
  (forall point_a point_b : Position,
     is_point_above point_a point_b 0 = is_point_below point_b point_a 0) /\
  (forall angle extended flexed : Q,
     (flexed <= extended)%Q ->
     ~ (is_joint_extended angle extended = true /\
        is_joint_flexed angle flexed = true)).
Proof.
  unfold is_point_above, is_point_below, is_joint_extended, is_joint_flexed, Qgtb.
  split; [|split].
  - intros a b t Ht [H1 H2]. to_order. lra.
  - intros a b. apply Qltb_ext. split; intros H; lra.
  - intros angle e f Hle [H1 H2]. to_order. lra.
Qed.

(** X25 -- Alignment and distances.
    The alignment tests do not depend on the order of the two points; no two
    points are aligned under a tolerance of zero or less, and every point is
    aligned with itself under a positive one.  The horizontal distance is
    an absolute value, the vertical distance is signed. *)
Theorem alignment_symmetric :
  (forall (point_a point_b : Position) (tolerance : Q),
     is_aligned_vertically point_a point_b tolerance
       = is_aligned_vertically point_b point_a tolerance /\
     is_aligned_horizontally point_a point_b tolerance
       = is_aligned_horizontally point_b point_a tolerance) /\
  (forall (point_a point_b : Position) (tolerance : Q),
     (tolerance <= 0)%Q ->
     is_aligned_vertically point_a point_b tolerance = false /\
     is_aligned_horizontally point_a point_b tolerance = false) /\
  (forall (point_a : Position) (tolerance : Q),
     (0 < tolerance)%Q ->
     is_aligned_vertically point_a point_a tolerance = true /\
     is_aligned_horizontally point_a point_a tolerance = true) /\
  (forall point_a point_b : Position,
     (0 <= calculate_horizontal_distance point_a point_b)%Q /\
     (calculate_horizontal_distance point_a point_b
        == calculate_horizontal_distance point_b point_a)%Q /\
     (calculate_vertical_distance point_a point_b
        == - calculate_vertical_distance point_b point_a)%Q).
Proof.
  unfold is_aligned_vertically, is_aligned_horizontally,
    calculate_horizontal_distance, calculate_vertical_distance.
  assert (Hsym : forall x y : Q, (Qabs (x - y) == Qabs (y - x))%Q).
  { intros x y. rewrite <- (Qabs_opp (x - y)). apply Qabs_wd. ring. }
  split; [|split; [|split]].
  - intros a b tol. split; apply Qltb_ext; rewrite Hsym; reflexivity.
  - intros a b tol Htol. split; apply Qltb_ge.
    + pose proof (Qabs_nonneg (px a - px b)). lra.
    + pose proof (Qabs_nonneg (py a - py b)). lra.
  - intros a tol Htol.
    assert (Hzero : forall x : Q, (Qabs (x - x) == 0)%Q).
    { intros x. assert (E : (x - x == 0)%Q) by ring. rewrite E. reflexivity. }
    split; apply Qltb_lt; rewrite Hzero; exact Htol.
  - intros a b. split; [apply Qabs_nonneg|]. split; [apply Hsym | ring].
Qed.

End Points.

(** ** The further properties at work on concrete inputs *)

(** Clamping 1.5 and 0.5 to the unit range, and a range given the wrong way
    round. *)
Lemma clamp_range_witness :
  (0 <= utils.clamp (15 # 10) 0 1 <= 1)%Q /\
  (utils.clamp (5 # 10) 0 1 == 5 # 10)%Q /\
  utils.clamp 7 1 0 = 1%Q.
Proof.
  destruct clamp_range as (Hrange & Hfix & _ & Hswap).
  split; [|split].
  - apply Hrange. vm_compute. discriminate.
  - apply Hfix. split; vm_compute; discriminate.
  - apply Hswap. reflexivity.
Defined.

(** A proper input range, 5 in 0..10 onto 0..100; a range of width zero; and
    a range from infinity to infinity. *)
Lemma map_value_range_witness :
  (exists y, utils.map_value (utils.float_of_int 5) (utils.float_of_int 0)
               (utils.float_of_int 10) (utils.float_of_int 0) (utils.float_of_int 100)
             = utils.Returns y) /\
  utils.map_value (utils.float_of_int 5) (utils.float_of_int 3) (utils.float_of_int 3)
    (utils.float_of_int 0) (utils.float_of_int 100) = utils.Fails utils.ZeroDivisionError /\
  utils.map_value (utils.float_of_int 5) PrimFloat.infinity PrimFloat.infinity
    (utils.float_of_int 0) (utils.float_of_int 100) = utils.Returns PrimFloat.nan.
Proof.
  split; [|split].
  - apply (proj1 (proj2 (map_value_range (utils.float_of_int 5) (utils.float_of_int 0)
                           (utils.float_of_int 10) (utils.float_of_int 0)
                           (utils.float_of_int 100)))).
    vm_compute. reflexivity.
  - apply (proj1 (proj2 (proj2 (map_value_range (utils.float_of_int 5)
                                  (utils.float_of_int 3) (utils.float_of_int 3)
                                  (utils.float_of_int 0) (utils.float_of_int 100)))));
      [vm_compute; reflexivity | reflexivity].
  - apply (proj2 (proj2 (proj2 (map_value_range (utils.float_of_int 5)
                                  PrimFloat.infinity PrimFloat.infinity
                                  (utils.float_of_int 0) (utils.float_of_int 100)))));
      [vm_compute; reflexivity | reflexivity].
Defined.

(** Five values through a window of three, summed from left to right: the
    window ends as 3, 4, 5, and adding 6 returns (4 + 5 + 6) / 3 = 5. *)
Lemma moving_average_window_witness :
  utils.MovingAverage.values
    (utils.MovingAverage.feed utils.MovingAverage.fold_sum
       (map utils.float_of_int [1; 2; 3; 4; 5]) (utils.MovingAverage.init 3))
    = map utils.float_of_int [3; 4; 5] /\
  snd (utils.MovingAverage.add utils.MovingAverage.fold_sum (utils.float_of_int 6)
         (utils.MovingAverage.feed utils.MovingAverage.fold_sum
            (map utils.float_of_int [1; 2; 3; 4; 5]) (utils.MovingAverage.init 3)))
    = utils.Returns (utils.float_of_int 5).
Proof.
  destruct (moving_average_window utils.MovingAverage.fold_sum 3
              (map utils.float_of_int [1; 2; 3; 4; 5])) as (_ & Hvalues & _ & Hadd).
  - lia.
  - split; [exact Hvalues|].
    destruct (Hadd (utils.float_of_int 6)) as (_ & _ & Hreturned & _).
    rewrite Hreturned. vm_compute. reflexivity.
Defined.

(** A window of size zero. *)
Lemma moving_average_no_window_witness :
  utils.MovingAverage.add utils.MovingAverage.fold_sum (utils.float_of_int 3)
    (utils.MovingAverage.feed utils.MovingAverage.fold_sum
       (map utils.float_of_int [1; 2]) (utils.MovingAverage.init 0))
    = (utils.MovingAverage.init 0, utils.Fails utils.ZeroDivisionError).
Proof.
  apply (proj2 (moving_average_no_window utils.MovingAverage.fold_sum 0
                  (map utils.float_of_int [1; 2]) (utils.float_of_int 3) ltac:(lia))).
Defined.

(** The return at frame 6 of the squat scenario: the rep entered at clock 3
    is logged at clock 6 as rep 1 with duration 3. *)
Lemma finalized_record_witness :
  exists t0,
    rep_start_time (after 5) = Some t0 /\
    snd (on_joints_detected squat2 (standing 6) (after 5)) = Ok tt /\
    rep_count (fst (on_joints_detected squat2 (standing 6) (after 5)))
      = rep_count (after 5) + 1.
Proof.
  destruct (finalized_record squat2 (standing 6) (after 5) (snapshot 170 (30 # 100)) false
              "Excellent - ATG (Ass to Grass)") as (t0 & Ht & Hr & Hc & _).
  - apply (reachable_run squat2 (firstn 5 SquatDetector.scenario) (init squat2)).
    apply reachable_init.
  - vm_compute. reflexivity.
  - vm_compute. reflexivity.
  - vm_compute. discriminate.
  - vm_compute. reflexivity.
  - reflexivity.
  - exists t0. exact (conj Ht (conj Hr Hc)).
Defined.

(** A second session on a log that holds the two lines of an earlier one:
    the six frames of the squat scenario append one line, numbered 1 again. *)
Lemma log_numbering_witness :
  let earlier :=
    [{| entry_timestamp := 1; entry_rep_num := 1; entry_duration := 2;
        entry_quality := "Good - Full depth / Parallel" |};
     {| entry_timestamp := 5; entry_rep_num := 2; entry_duration := 2;
        entry_quality := "Good - Full depth / Parallel" |}] in
  let s' := fst (run squat2 SquatDetector.scenario (set_log_file earlier (init squat2))) in
  (0 <= rep_count s' /\
   exists lines,
     log_file s' = earlier ++ lines /\
     Forall (fun e => 0 < entry_rep_num e <= rep_count s') lines /\
     StronglySorted Z.lt (map entry_rep_num lines) /\
     Z.of_nat (length lines) <= rep_count s' - 0) /\
  map entry_rep_num (log_file s') = [1; 2; 1].
Proof.
  intros earlier s'. split.
  - exact (log_numbering squat2 (set_log_file earlier (init squat2)) SquatDetector.scenario).
  - vm_compute. reflexivity.
Defined.

(** With the squat's cooldown of 30 frames: a first rep is counted at frame
    3, and neither the squat at frame 4 nor the return at frame 5 counts. *)
Lemma rep_debounce_witness :
  let s := fst (run squat30 [standing 1; squatting 2] (init squat30)) in
  let t := fst (run squat30 [squatting 4] (fst (on_joints_detected squat30 (standing 3) s))) in
  rep_count t = rep_count s + 1 /\
  rep_count (fst (on_joints_detected squat30 (standing 5) t)) = rep_count s + 1.
Proof.
  apply (rep_debounce squat30 (standing 3)
           (fst (run squat30 [standing 1; squatting 2] (init squat30)))
           [squatting 4] (standing 5)).
  - vm_compute. reflexivity.
  - vm_compute. reflexivity.
Defined.

(** In the squat at frame 4 of the scenario, entered at clock 3. *)
Lemma reentry_requires_return_witness :
  rep_start_time (fst (on_joints_detected squat2 (squatting 4) (after 3)))
    = rep_start_time (after 3).
Proof.
  apply (reentry_requires_return squat2 (squatting 4) (after 3)).
  vm_compute. reflexivity.
Defined.

(** Frames 4 and 5 of the scenario, after the entry at frame 3. *)
Lemma squat_best_is_deepest_witness :
  snd (run squat2 [squatting 4; rising 5] (after 3)) = Ok tt /\
  in_rep_position (fst (run squat2 [squatting 4; rising 5] (after 3))) = true.
Proof.
  destruct (squat_best_is_deepest 2 (after 3) 95 (10 # 100)
              [(4, (90%Q, (8 # 100)%Q)); (5, (95%Q, (10 # 100)%Q))]) as (Hr & Hi & _).
  - vm_compute. reflexivity.
  - vm_compute. reflexivity.
  - repeat constructor.
  - exact (conj Hr Hi).
Defined.

(** The squat logged by the scenario. *)
Lemma squat_grades_witness :
  Forall (fun e => entry_quality e = "Excellent - ATG (Ass to Grass)"%string \/
                   entry_quality e = "Good - Full depth / Parallel"%string)
         (log_file (after 6)).
Proof.
  apply (squat_grades 2 SquatDetector.readings (after 6)).
  apply (reachable_run squat2 (firstn 6 SquatDetector.scenario) (init squat2)).
  apply reachable_init.
Defined.

(** One fly opened to 0.7 with straight elbows: it is logged, and graded
    shallow, since the best metrics are those of the entry frame. *)
Lemma dumbbell_fly_grades_witness :
  Forall (fun e => entry_quality e = "Bent elbows - Keep arms straighter"%string \/
                   entry_quality e = "Shallow - Open wider"%string)
         (log_file DumbbellFlyDetector.one_fly).
Proof.
  apply (dumbbell_fly_grades DumbbellFlyDetector.fly_readings DumbbellFlyDetector.one_fly).
  unfold DumbbellFlyDetector.one_fly.
  repeat apply reachable_step. apply reachable_init.
Defined.

(** A standing reading of the squat is at start, hence not in the rep
    position. *)
Lemma lower_body_predicates_exclusive_witness :
  SquatDetector.is_at_starting_position (snapshot 170 (30 # 100)) = Ok true /\
  SquatDetector.is_in_rep_position (snapshot 170 (30 # 100)) <> Ok true.
Proof.
  split.
  - vm_compute. reflexivity.
  - intros Hin.
    apply (proj1 lower_body_predicates_exclusive (snapshot 170 (30 # 100))).
    split; [exact Hin | vm_compute; reflexivity].
Defined.

(** A bench press locked out at 170 degrees is in the rep position, hence
    not at start. *)
Lemma pressing_predicates_exclusive_witness :
  BenchPressDetector.is_in_rep_position
    (<["elbow_angle"%string := 170%Q]> (<["press_depth"%string := (30 # 100)%Q]> ∅))
    = Ok true /\
  BenchPressDetector.is_at_starting_position
    (<["elbow_angle"%string := 170%Q]> (<["press_depth"%string := (30 # 100)%Q]> ∅))
    <> Ok true.
Proof.
  split.
  - vm_compute. reflexivity.
  - intros Hstart.
    apply (proj1 (proj2 pressing_predicates_exclusive)
             (<["elbow_angle"%string := 170%Q]> (<["press_depth"%string := (30 # 100)%Q]> ∅))).
    split; [vm_compute; reflexivity | exact Hstart].
Defined.

(** The entry frame of the fly is in the rep position, hence not at start. *)
Lemma pulling_predicates_exclusive_witness :
  DumbbellFlyDetector.is_in_rep_position (DumbbellFlyDetector.fly_snapshot (1 # 10) 160)
    = Ok true /\
  DumbbellFlyDetector.is_at_starting_position (DumbbellFlyDetector.fly_snapshot (1 # 10) 160)
    <> Ok true.
Proof.
  split.
  - vm_compute. reflexivity.
  - intros Hstart.
    apply (proj2 (proj2 pulling_predicates_exclusive)
             (DumbbellFlyDetector.fly_snapshot (1 # 10) 160)).
    split; [vm_compute; reflexivity | exact Hstart].
Defined.

(** A best dictionary that holds a knee angle only, merged with a full
    snapshot: the knee angle stays, the depth is added. *)
Lemma default_merge_is_union_witness :
  fst (default_update_best_metrics (snapshot 90 (8 # 100))
         (<["knee_angle"%string := 95%Q]> ∅)) !! "knee_angle"%string = Some 95%Q /\
  fst (default_update_best_metrics (snapshot 90 (8 # 100))
         (<["knee_angle"%string := 95%Q]> ∅)) !! "squat_depth"%string = Some (8 # 100)%Q.
Proof.
  destruct (default_merge_is_union (snapshot 90 (8 # 100))
              (<["knee_angle"%string := 95%Q]> ∅)) as (_ & Hkept & Hadded).
  split.
  - apply Hkept. reflexivity.
  - rewrite Hadded; reflexivity.
Defined.

(** The axes y and w. *)
Lemma crossing_init_axis_witness :
  (exists h, JointCrossingHandler.init "LEFT_WRIST" "RIGHT_WRIST" "y" 30 = Ok h /\
             JointCrossingHandler.axis_idx h = 1%nat) /\
  JointCrossingHandler.init "LEFT_WRIST" "RIGHT_WRIST" "w" 30 = Raise ValueError.
Proof.
  destruct (crossing_init_axis "LEFT_WRIST" "RIGHT_WRIST" "y" 30) as [Hy _].
  destruct (crossing_init_axis "LEFT_WRIST" "RIGHT_WRIST" "w" 30) as [_ Hw].
  split.
  - destruct Hy as (h & Hh & Hidx & _); [right; left; reflexivity|].
    exists h. exact (conj Hh Hidx).
  - apply Hw; discriminate.
Defined.

(** The wrists level after the left one was to the right: the crossing is
    reported as the right wrist over the left. *)
Lemma crossing_record_witness :
  JointCrossingHandler.fired
    (JointCrossingHandler.on_joints_detected (JointCrossingHandler.signal_frame 0)
       {| JointCrossingHandler.joint1_name := "LEFT_WRIST";
          JointCrossingHandler.joint2_name := "RIGHT_WRIST";
          JointCrossingHandler.axis := "x";
          JointCrossingHandler.cooldown_frames := 2;
          JointCrossingHandler.last_relative_position := Some 1%Q;
          JointCrossingHandler.frames_since_last_event := 3;
          JointCrossingHandler.axis_idx := 0;
          JointCrossingHandler.fired := [] |})
    = [{| JointCrossingHandler.crossed_joint1_pos := {| px := 0; py := 0; pz := 0 |};
          JointCrossingHandler.crossed_joint2_pos := {| px := 0; py := 0; pz := 0 |};
          JointCrossingHandler.direction := "RIGHT_WRIST crossed over LEFT_WRIST" |}].
Proof.
  apply (proj2 (crossing_record (JointCrossingHandler.signal_frame 0)
                  {| JointCrossingHandler.joint1_name := "LEFT_WRIST";
                     JointCrossingHandler.joint2_name := "RIGHT_WRIST";
                     JointCrossingHandler.axis := "x";
                     JointCrossingHandler.cooldown_frames := 2;
                     JointCrossingHandler.last_relative_position := Some 1%Q;
                     JointCrossingHandler.frames_since_last_event := 3;
                     JointCrossingHandler.axis_idx := 0;
                     JointCrossingHandler.fired := [] |}
                  {| px := 0; py := 0; pz := 0 |} {| px := 0; py := 0; pz := 0 |}
                  eq_refl eq_refl) 1%Q).
  - reflexivity.
  - vm_compute. discriminate.
  - reflexivity.
  - vm_compute. discriminate.
Defined.

(** An elbow at 85 degrees against a threshold of 90, read off the vertex. *)
Lemma angle_rising_edge_witness :
  JointAngleHandler.fires_on (fun _ vertex _ : Q => vertex)
    {| JointAngleHandler.joint1_pos := Some 0%Q;
       JointAngleHandler.joint2_pos := Some 85%Q;
       JointAngleHandler.joint3_pos := Some 0%Q |}
    (JointAngleHandler.init "LEFT_SHOULDER" "LEFT_ELBOW" "LEFT_WRIST" 90 "less" 30).
Proof.
  apply (proj1 (angle_rising_edge (fun _ vertex _ : Q => vertex)
                  {| JointAngleHandler.joint1_pos := Some 0%Q;
                     JointAngleHandler.joint2_pos := Some 85%Q;
                     JointAngleHandler.joint3_pos := Some 0%Q |}
                  (JointAngleHandler.init "LEFT_SHOULDER" "LEFT_ELBOW" "LEFT_WRIST"
                     90 "less" 30)
                  0%Q 85%Q 0%Q eq_refl eq_refl eq_refl)).
  split; [|split].
  - left. split; reflexivity.
  - reflexivity.
  - vm_compute. discriminate.
Defined.

(** A frame without the second wrist. *)
Lemma handlers_skip_missing_joints_witness :
  JointCrossingHandler.on_joints_detected
    {| JointCrossingHandler.joint1_pos := Some {| px := 1; py := 0; pz := 0 |};
       JointCrossingHandler.joint2_pos := None |}
    (JointCrossingHandler.run [JointCrossingHandler.signal_frame 1]
       {| JointCrossingHandler.joint1_name := "LEFT_WRIST";
          JointCrossingHandler.joint2_name := "RIGHT_WRIST";
          JointCrossingHandler.axis := "x";
          JointCrossingHandler.cooldown_frames := 30;
          JointCrossingHandler.last_relative_position := None;
          JointCrossingHandler.frames_since_last_event := 30;
          JointCrossingHandler.axis_idx := 0;
          JointCrossingHandler.fired := [] |})
  = {| JointCrossingHandler.joint1_name := "LEFT_WRIST";
       JointCrossingHandler.joint2_name := "RIGHT_WRIST";
       JointCrossingHandler.axis := "x";
       JointCrossingHandler.cooldown_frames := 30;
       JointCrossingHandler.last_relative_position := Some 1%Q;
       JointCrossingHandler.frames_since_last_event := 32;
       JointCrossingHandler.axis_idx := 0;
       JointCrossingHandler.fired := [] |}.
Proof.
  apply (proj1 handlers_skip_missing_joints
           {| JointCrossingHandler.joint1_pos := Some {| px := 1; py := 0; pz := 0 |};
              JointCrossingHandler.joint2_pos := None |}).
  right. reflexivity.
Defined.

(** The wrists cross, and cross back on the next frame but one: with the
    default cooldown the first crossing fires and the second does not. *)
Lemma handlers_debounce_witness :
  JointCrossingHandler.fires_on (JointCrossingHandler.signal_frame (-1))
    {| JointCrossingHandler.joint1_name := "LEFT_WRIST";
       JointCrossingHandler.joint2_name := "RIGHT_WRIST";
       JointCrossingHandler.axis := "x";
       JointCrossingHandler.cooldown_frames := 30;
       JointCrossingHandler.last_relative_position := Some 1%Q;
       JointCrossingHandler.frames_since_last_event := 30;
       JointCrossingHandler.axis_idx := 0;
       JointCrossingHandler.fired := [] |} /\
  ~ JointCrossingHandler.fires_on (JointCrossingHandler.signal_frame 1)
      (JointCrossingHandler.run [JointCrossingHandler.signal_frame (-1)]
         (JointCrossingHandler.on_joints_detected (JointCrossingHandler.signal_frame (-1))
            {| JointCrossingHandler.joint1_name := "LEFT_WRIST";
               JointCrossingHandler.joint2_name := "RIGHT_WRIST";
               JointCrossingHandler.axis := "x";
               JointCrossingHandler.cooldown_frames := 30;
               JointCrossingHandler.last_relative_position := Some 1%Q;
               JointCrossingHandler.frames_since_last_event := 30;
               JointCrossingHandler.axis_idx := 0;
               JointCrossingHandler.fired := [] |})).
Proof.
  assert (Hfires :
    JointCrossingHandler.fires_on (JointCrossingHandler.signal_frame (-1))
      {| JointCrossingHandler.joint1_name := "LEFT_WRIST";
         JointCrossingHandler.joint2_name := "RIGHT_WRIST";
         JointCrossingHandler.axis := "x";
         JointCrossingHandler.cooldown_frames := 30;
         JointCrossingHandler.last_relative_position := Some 1%Q;
         JointCrossingHandler.frames_since_last_event := 30;
         JointCrossingHandler.axis_idx := 0;
         JointCrossingHandler.fired := [] |}).
  { eexists. vm_compute. reflexivity. }
  split; [exact Hfires|].
  apply (proj1 handlers_debounce _ _ [JointCrossingHandler.signal_frame (-1)] _ Hfires).
  vm_compute. reflexivity.
Defined.


(** A wrist above the shoulder by more than 0.1, and an elbow at 170
    degrees. *)
Lemma point_tests_exclusive_witness :
  utils_points.is_point_above {| px := 0; py := 2 # 10; pz := 0 |}
    {| px := 0; py := 5 # 10; pz := 0 |} (1 # 10) = true /\
  utils_points.is_point_below {| px := 0; py := 2 # 10; pz := 0 |}
    {| px := 0; py := 5 # 10; pz := 0 |} (1 # 10) <> true /\
  utils_points.is_joint_extended 170 160 = true /\
  utils_points.is_joint_flexed 170 120 <> true.
Proof.
  destruct point_tests_exclusive as (Hpoints & _ & Hangles).
  split; [reflexivity|]. split; [|split; [reflexivity|]].
  - intros Hbelow.
    apply (Hpoints {| px := 0; py := 2 # 10; pz := 0 |}
             {| px := 0; py := 5 # 10; pz := 0 |} (1 # 10)%Q).
    + vm_compute. discriminate.
    + split; [reflexivity | exact Hbelow].
  - intros Hflexed. apply (Hangles 170%Q 160%Q 120%Q).
    + vm_compute. discriminate.
    + split; [reflexivity | exact Hflexed].
Defined.

(** Two points 0.02 apart on the x axis, under the default tolerance and
    under none. *)
Lemma alignment_symmetric_witness :
  utils_points.is_aligned_vertically {| px := 50 # 100; py := 0; pz := 0 |}
    {| px := 52 # 100; py := 1; pz := 0 |} 0 = false /\
  utils_points.is_aligned_vertically {| px := 50 # 100; py := 0; pz := 0 |}
    {| px := 50 # 100; py := 0; pz := 0 |} (5 # 100) = true.
Proof.
  destruct alignment_symmetric as (_ & Hnone & Hself & _).
  split.
  - apply Hnone. vm_compute. discriminate.
  - apply Hself. reflexivity.
Defined.
